(** * AI Playwright test generator: a shallow embedding of the pipeline

    The development follows the TypeScript sources of the repository:
    the retriever ([src/rag/retriever.ts]), the model client
    ([src/llm/langchain-client.ts]), the three generation agents A, B, C
    and the analysis agent G.

    Conventions of the embedding.
    - JavaScript strings are [string]s of ASCII characters: [toLowerCase],
      the regular-expression classes [\s] and [\w] and [trim] are the
      restrictions of the JavaScript ones to code units below 128.
    - JavaScript numbers that the modelled code handles are lengths,
      indices, line numbers and scores: they are integers far below 2^53,
      so they are modelled in [Z] (and [nat] for indices) without rounding.
      Numbers inside parsed JSON are integer valued.
    - A call that may throw returns an [outcome]; a [try]/[catch] is a
      [match] on it.
    - What the program obtains from outside (the reply of the language
      model, [JSON.parse], the TypeScript compiler diagnostics) is an
      explicit argument of the function that consumes it. *)

From Stdlib Require Import ZArith List Bool Ascii String Lia.
From Stdlib Require Import DecimalString Sorted.
Import ListNotations.

Open Scope list_scope.
Open Scope string_scope.

(* ================================================================== *)
(** ** JavaScript strings *)

Module JS.

Definition code (c : ascii) : nat := nat_of_ascii c.

Definition between (lo hi : nat) (c : ascii) : bool :=
  (lo <=? code c)%nat && (code c <=? hi)%nat.

Definition is_upper : ascii -> bool := between 65 90.
Definition is_lower : ascii -> bool := between 97 122.
Definition is_digit : ascii -> bool := between 48 57.

(** The class [\s] (also the characters removed by [trim]): tab, line
    feed, vertical tab, form feed, carriage return and space. *)
Definition is_space (c : ascii) : bool :=
  between 9 13 c || (code c =? 32)%nat.

(** The class [\w]: letters, digits and underscore. *)
Definition is_word (c : ascii) : bool :=
  is_upper c || is_lower c || is_digit c || (code c =? 95)%nat.

Definition lower_char (c : ascii) : ascii :=
  if is_upper c then ascii_of_nat (code c + 32) else c.

(** [s.toLowerCase()] *)
Fixpoint toLowerCase (s : string) : string :=
  match s with
  | EmptyString => EmptyString
  | String c s' => String (lower_char c) (toLowerCase s')
  end.

(** [s.includes(needle)] *)
Fixpoint includes (s needle : string) : bool :=
  String.prefix needle s ||
  match s with
  | EmptyString => false
  | String _ s' => includes s' needle
  end.

(** [s.split(sep)] for a one-character separator. *)
Fixpoint split_char (sep : ascii) (s : string) : list string :=
  match s with
  | EmptyString => [EmptyString]
  | String c s' =>
      if Ascii.eqb c sep then EmptyString :: split_char sep s'
      else match split_char sep s' with
           | [] => [String c EmptyString]
           | w :: ws => String c w :: ws
           end
  end.

(** Number of matches of a non-empty literal [needle], scanning from the
    left and resuming after each match: [s.split(needle).length - 1]. *)
Fixpoint count_from (needle : string) (skip : nat) (s : string) : nat :=
  match s with
  | EmptyString => 0
  | String _ s' =>
      match skip with
      | S k => count_from needle k s'
      | O => if String.prefix needle s
             then S (count_from needle (String.length needle - 1) s')
             else count_from needle 0 s'
      end
  end.

Definition count_occurrences (s needle : string) : nat :=
  count_from needle 0 s.

(** [s.split(/\s+/)] *)
Fixpoint split_ws_from (cur : string) (in_sep : bool) (s : string)
  : list string :=
  match s with
  | EmptyString => [cur]
  | String c s' =>
      if is_space c
      then if in_sep then split_ws_from cur true s'
           else cur :: split_ws_from EmptyString true s'
      else split_ws_from (cur ++ String c EmptyString) false s'
  end.

Definition split_ws (s : string) : list string :=
  split_ws_from EmptyString false s.

(** [xs.join(sep)] on an array of strings. *)
Definition join (sep : string) (xs : list string) : string :=
  String.concat sep xs.

Fixpoint trimStart (s : string) : string :=
  match s with
  | EmptyString => EmptyString
  | String c s' => if is_space c then trimStart s' else s
  end.

Fixpoint trimEnd (s : string) : string :=
  match s with
  | EmptyString => EmptyString
  | String c s' =>
      match trimEnd s' with
      | EmptyString => if is_space c then EmptyString
                       else String c EmptyString
      | t => String c t
      end
  end.

(** [s.trim()] *)
Definition trim (s : string) : string := trimEnd (trimStart s).

(** [s.replace(/[cls]/g, '')] for a character class [cls]. *)
Fixpoint remove_class (cls : ascii -> bool) (s : string) : string :=
  match s with
  | EmptyString => EmptyString
  | String c s' =>
      if cls c then remove_class cls s'
      else String c (remove_class cls s')
  end.

(** [s.replace(/[cls]/g, r)] for a character class and one character. *)
Fixpoint replace_class (cls : ascii -> bool) (r : ascii) (s : string)
  : string :=
  match s with
  | EmptyString => EmptyString
  | String c s' =>
      String (if cls c then r else c) (replace_class cls r s')
  end.

(** [s.replace(/[cls]+/g, r)]: every maximal run of the class becomes one
    [r]. [in_run] tells that the previous character was in the class. *)
Fixpoint collapse_from (cls : ascii -> bool) (r : ascii) (in_run : bool)
  (s : string) : string :=
  match s with
  | EmptyString => EmptyString
  | String c s' =>
      if cls c
      then if in_run then collapse_from cls r true s'
           else String r (collapse_from cls r true s')
      else String c (collapse_from cls r false s')
  end.

Definition collapse_runs (cls : ascii -> bool) (r : ascii) (s : string)
  : string := collapse_from cls r false s.

(** [s.replace(/marker\s*/g, '')] for a non-empty literal [marker]:
    [skip] counts the characters of a matched marker still to drop and
    [eat] tells that the white space after a marker is being dropped. *)
Fixpoint strip_marker_from (marker : string) (skip : nat) (eat : bool)
  (s : string) : string :=
  match s with
  | EmptyString => EmptyString
  | String c s' =>
      match skip with
      | S k => strip_marker_from marker k eat s'
      | O =>
          if eat && is_space c then strip_marker_from marker 0 true s'
          else if String.prefix marker s
          then strip_marker_from marker (String.length marker - 1) true s'
          else String c (strip_marker_from marker 0 false s')
      end
  end.

Definition strip_marker (marker s : string) : string :=
  strip_marker_from marker 0 false s.

(** The one-character string holding a double quote. *)
Definition DQUOTE : string := String (ascii_of_nat 34) EmptyString.

(** Decimal rendering of a number: [`${n}`]. *)
Definition string_of_nat (n : nat) : string :=
  NilEmpty.string_of_uint (Nat.to_uint n).

Definition string_of_Z (z : Z) : string :=
  NilEmpty.string_of_int (Z.to_int z).

(** [xs.slice(0, n)] *)
Definition slice0 {A : Type} (n : nat) (xs : list A) : list A := firstn n xs.

(** [xs.some(p)] and [xs.includes(x)] on arrays of strings. *)
Definition some {A : Type} (p : A -> bool) (xs : list A) : bool := existsb p xs.

Definition includes_str (xs : list string) (x : string) : bool :=
  existsb (String.eqb x) xs.

End JS.

(* ================================================================== *)
(** ** JavaScript values and exceptions *)

(** A JavaScript value as the agents meet it: what [JSON.parse] builds,
    and [undefined] for an absent property. Objects keep their properties
    in insertion order. *)
#[local] Set Warnings "-register-all".
Inductive value : Type :=
| VUndefined
| VNull
| VBool (b : bool)
| VNumber (n : Z)
| VString (s : string)
| VArray (xs : list value)
| VObject (props : list (string * value)).

(** A thrown [Error] object: its [name] and its [message]. *)
Record js_error : Type := mkError { err_name : string; err_message : string }.

Definition Error (msg : string) : js_error := mkError "Error" msg.
Definition TypeError (msg : string) : js_error := mkError "TypeError" msg.

(** [`${error}`], that is [Error.prototype.toString]: the name alone
    when the message is empty, the message alone when the name is empty,
    and otherwise the two with a colon between them. *)
Definition error_toString (e : js_error) : string :=
  if String.eqb (err_name e) EmptyString then err_message e
  else if String.eqb (err_message e) EmptyString then err_name e
  else err_name e ++ ": " ++ err_message e.

Inductive outcome (A : Type) : Type :=
| Returned (a : A)
| Thrown (e : js_error).
Arguments Returned {A} a.
Arguments Thrown {A} e.

Module Value.

(** Truthiness, as tested by [!v], [v || d] and [filter(Boolean)]. *)
Definition truthy (v : value) : bool :=
  match v with
  | VUndefined => false
  | VNull => false
  | VBool b => b
  | VNumber n => negb (n =? 0)%Z
  | VString s => negb (String.eqb s EmptyString)
  | VArray _ => true
  | VObject _ => true
  end.

Fixpoint lookup (k : string) (props : list (string * value)) : value :=
  match props with
  | [] => VUndefined
  | (k', v) :: rest => if String.eqb k k' then v else lookup k rest
  end.

(** [v[k]] for a value other than [null] and [undefined] and a property
    name that no prototype defines: only an object can hold it. *)
Definition get (v : value) (k : string) : value :=
  match v with
  | VObject props => lookup k props
  | _ => VUndefined
  end.

(** The conversion of an array element by [join]. *)
Definition element_string (toString : value -> string) (x : value) : string :=
  match x with
  | VUndefined | VNull => EmptyString
  | _ => toString x
  end.

(** [String(v)], the conversion of template literals. *)
Fixpoint toString (v : value) : string :=
  match v with
  | VUndefined => "undefined"
  | VNull => "null"
  | VBool true => "true"
  | VBool false => "false"
  | VNumber n => JS.string_of_Z n
  | VString s => s
  | VArray xs => JS.join "," (map (element_string toString) xs)
  | VObject _ => "[object Object]"
  end.

(** [xs.join(sep)] on an array of values. *)
Definition join (sep : string) (xs : list value) : string :=
  JS.join sep (map (element_string toString) xs).

(** [v || d] *)
Definition or_else (v d : value) : value := if truthy v then v else d.

(** [v === s] for a string literal [s]. *)
Definition is_string (v : value) (s : string) : bool :=
  match v with
  | VString t => String.eqb t s
  | _ => false
  end.

End Value.

(* ================================================================== *)
(** ** The shared data model ([src/types]) *)

Inductive ScenarioType : Type := positive | negative | edge | cross_device.

Definition ScenarioType_name (t : ScenarioType) : string :=
  match t with
  | positive => "positive"
  | negative => "negative"
  | edge => "edge"
  | cross_device => "cross-device"
  end.


Module UserStory.
(** [interface UserStory] (the declarations of [src/types] stand at the
    end of [src/utils/visual-helpers.ts]): a description and optional
    acceptance criteria. *)
Record t : Type := mk {
  description : string;
  acceptance_criteria : option (list string)
}.
End UserStory.

Module TestScenario.
(** [interface TestScenario] (at the end of
    [src/utils/visual-helpers.ts]). The declared types are not checked at
    run time: on the model path of Agent A the fields hold whatever the
    parsed reply held, so they are JavaScript values here; [type] is one
    of the four literals and [steps] is an array once Agent A has
    validated the scenario. *)
Record t : Type := mk {
  title : value;
  type : ScenarioType;
  description : value;
  steps : list value;
  expected_outcome : value;
  device : value
}.
End TestScenario.

Module ValidatedScenario.
(** [interface ValidatedScenario extends TestScenario] (at the end of
    [src/utils/visual-helpers.ts]): a [TestScenario] with the three
    fields Agent B adds, as JavaScript values for the same reason. *)
Record t : Type := mk {
  title : value;
  type : ScenarioType;
  description : value;
  steps : list value;
  expected_outcome : value;
  device : value;
  selectors : value;
  api_endpoints : value;
  validation_notes : value
}.
End ValidatedScenario.

Module PlaywrightTest.
Record t : Type := mk { filename : string; content : string }.
End PlaywrightTest.

Module KnowledgeBase.
(** [interface KnowledgeBase] (at the end of
    [src/utils/visual-helpers.ts]): two mappings
    category -> (name -> expression), listed in the order of
    [Object.entries]. *)
Definition catalog : Type := list (string * list (string * string)).
Record t : Type := mk { selectors : catalog; endpoints : catalog }.
End KnowledgeBase.

(* ================================================================== *)
(** ** Agent A: scenario expansion ([LangChainAgentA]) *)

Module AgentA.

Definition requiredFields : list string :=
  ["title"; "type"; "description"; "steps"; "expected_outcome"].

Definition scenarioTypes : list ScenarioType :=
  [positive; negative; edge; cross_device].

(** [['positive', 'negative', 'edge', 'cross-device'].includes(v)] and, when
    it holds, the literal found. *)
Definition type_of_value (v : value) : option ScenarioType :=
  match v with
  | VString s =>
      find (fun t => String.eqb s (ScenarioType_name t)) scenarioTypes
  | _ => None
  end.

(** [validateScenario(scenario, index)] *)
Definition validateScenario (scenario : value) (index : nat)
  : outcome TestScenario.t :=
  match scenario with
  | VNull =>
      Thrown (TypeError "Cannot read properties of null (reading 'title')")
  | VUndefined =>
      Thrown (TypeError "Cannot read properties of undefined (reading 'title')")
  | _ =>
      let missingFields :=
        filter (fun field => negb (Value.truthy (Value.get scenario field)))
               requiredFields in
      if (0 <? List.length missingFields)%nat then
        Thrown (Error ("Scenario " ++ JS.string_of_nat index
                       ++ " missing fields: " ++ JS.join ", " missingFields))
      else
        let type :=
          match type_of_value (Value.get scenario "type") with
          | Some t => t
          | None => positive
          end in
        let steps :=
          match Value.get scenario "steps" with
          | VArray xs => xs
          | v => filter Value.truthy [v]
          end in
        Returned
          (TestScenario.mk
             (Value.get scenario "title")
             type
             (Value.get scenario "description")
             steps
             (Value.get scenario "expected_outcome")
             (Value.or_else (Value.get scenario "device")
                (match type with
                 | cross_device => VString "mobile"
                 | _ => VString "desktop"
                 end)))
  end.

(** [scenarios.map((scenario, index) => this.validateScenario(scenario, index))]:
    the first exception ends the traversal. *)
Fixpoint validateAll (scenarios : list value) (index : nat)
  : outcome (list TestScenario.t) :=
  match scenarios with
  | [] => Returned []
  | scenario :: rest =>
      match validateScenario scenario index with
      | Thrown e => Thrown e
      | Returned v =>
          match validateAll rest (S index) with
          | Thrown e => Thrown e
          | Returned vs => Returned (v :: vs)
          end
      end
  end.

Definition cleanResponse (response : string) : string :=
  JS.trim (JS.strip_marker "```" (JS.strip_marker "```json" response)).

Section Parser.

(** [JSON.parse] *)
Variable JSON_parse : string -> outcome value.

(** [parseScenarios(response)] *)
Definition parseScenarios (response : string) : outcome (list TestScenario.t) :=
  let attempt :=
    match JSON_parse (cleanResponse response) with
    | Thrown e => Thrown e
    | Returned (VArray scenarios) => validateAll scenarios 0
    | Returned _ => Thrown (Error "Response is not an array")
    end in
  match attempt with
  | Returned scenarios => Returned scenarios
  | Thrown e => Thrown (Error ("Failed to parse scenarios: " ++ error_toString e))
  end.

End Parser.

Definition actionWords_list : list string :=
  ["sign"; "login"; "request"; "submit"; "create"; "update"; "delete"; "view"].

(** [extractTitle(description)] *)
Definition extractTitle (description : string) : string :=
  let words := JS.split_char " " description in
  let actionWords :=
    filter (fun word =>
              JS.some (fun action => JS.includes (JS.toLowerCase word) action)
                      actionWords_list)
           words in
  if (0 <? List.length actionWords)%nat then JS.join " " actionWords
  else JS.join " " (JS.slice0 3 words).

(** [generatePositiveSteps(description)] *)
Definition generatePositiveSteps (description : string) : list string :=
  let d := JS.toLowerCase description in
  (["Navigate to the application"] ++
  (if JS.includes d "sign up" || JS.includes d "register" then
     ["Click on sign up/register link";
      "Fill in valid user information";
      "Submit the registration form";
      "Verify email confirmation if required"]
   else if JS.includes d "login" || JS.includes d "sign in" then
     ["Enter valid email/username";
      "Enter correct password";
      "Click login button";
      "Verify successful authentication"]
   else if JS.includes d "credit report" then
     ["Log in to user account";
      "Navigate to credit report section";
      "Click request credit report button";
      "Complete any required verification";
      "Wait for report generation";
      "Download or view the report"]
   else
     ["Perform the primary action described";
      "Complete any required form fields";
      "Submit the request";
      "Verify successful completion"]))%list.

(** [generateNegativeSteps(description)] *)
Definition generateNegativeSteps (description : string) : list string :=
  ["Navigate to the application";
   "Attempt to perform action with invalid/missing data";
   "Submit the form/request";
   "Observe error handling and validation messages";
   "Verify system prevents invalid operations"].

(** [generateEdgeCaseSteps(description)] *)
Definition generateEdgeCaseSteps (description : string) : list string :=
  ["Navigate to the application";
   "Begin the intended action";
   "Simulate network interruption or slow connection";
   "Attempt to complete the action";
   "Verify system handles the error gracefully";
   "Test recovery mechanisms"].

(** [generateFallbackScenarios(userStory)] *)
Definition generateFallbackScenarios (userStory : UserStory.t)
  : list TestScenario.t :=
  let d := UserStory.description userStory in
  let baseTitle := extractTitle d in
  [ TestScenario.mk
      (VString (baseTitle ++ " - Happy Path"))
      positive
      (VString ("User successfully completes: " ++ d))
      (map VString (generatePositiveSteps d))
      (VString "User successfully completes the action with expected results")
      (VString "desktop");
    TestScenario.mk
      (VString (baseTitle ++ " - Invalid Input"))
      negative
      (VString ("User attempts " ++ d ++ " with invalid data"))
      (map VString (generateNegativeSteps d))
      (VString "System displays appropriate error messages and prevents invalid actions")
      (VString "desktop");
    TestScenario.mk
      (VString (baseTitle ++ " - Network Error"))
      edge
      (VString ("User attempts " ++ d ++ " during network issues"))
      (map VString (generateEdgeCaseSteps d))
      (VString "System gracefully handles network errors with proper user feedback")
      (VString "desktop");
    TestScenario.mk
      (VString (baseTitle ++ " - Mobile Experience"))
      cross_device
      (VString ("User completes " ++ d ++ " on mobile device"))
      (map VString (generatePositiveSteps d))
      (VString "Mobile interface provides equivalent functionality with responsive design")
      (VString "mobile") ].

Section Expand.

Variable JSON_parse : string -> outcome value.

(** [expandUserStory(userStory)]; [reply] is the outcome of the call
    [this.llmClient.generateWithTemplate(AGENT_A_TEMPLATE, ...)]. *)
Definition expandUserStory (reply : outcome string) (userStory : UserStory.t)
  : list TestScenario.t :=
  match reply with
  | Thrown _ => generateFallbackScenarios userStory
  | Returned response =>
      match parseScenarios JSON_parse response with
      | Returned scenarios => scenarios
      | Thrown _ => generateFallbackScenarios userStory
      end
  end.

End Expand.

End AgentA.

(* ================================================================== *)
(** ** Knowledge retriever ([RAGRetriever]) *)

Module Retriever.

(** The test of the innermost loop of [findRelevantSelectors] and
    [findRelevantEndpoints]. *)
Definition matches (keyword category name : string) : bool :=
  JS.includes name (JS.toLowerCase keyword)
  || JS.includes category (JS.toLowerCase keyword)
  || JS.includes (JS.toLowerCase keyword) name
  || JS.includes (JS.toLowerCase keyword) category.

(** [relevant[key] = v] on an object used as a map: an existing key keeps
    its place and takes the new value, a new key goes last. *)
Fixpoint assign (key v : string) (relevant : list (string * string))
  : list (string * string) :=
  match relevant with
  | [] => [(key, v)]
  | (k, old) :: rest =>
      if String.eqb k key then (k, v) :: rest
      else (k, old) :: assign key v rest
  end.

Section Loops.

Context {R : Type}.
(** The body run for a matching entry: it updates the accumulator. *)
Variable hit : string -> string -> string -> R -> R.

Fixpoint scan_names (keyword category : string)
  (entries : list (string * string)) (acc : R) : R :=
  match entries with
  | [] => acc
  | (name, expr) :: rest =>
      scan_names keyword category rest
        (if matches keyword category name then hit category name expr acc
         else acc)
  end.

Fixpoint scan_categories (keyword : string) (cat : KnowledgeBase.catalog)
  (acc : R) : R :=
  match cat with
  | [] => acc
  | (category, entries) :: rest =>
      scan_categories keyword rest (scan_names keyword category entries acc)
  end.

Fixpoint scan_keywords (keywords : list string) (cat : KnowledgeBase.catalog)
  (acc : R) : R :=
  match keywords with
  | [] => acc
  | keyword :: rest =>
      scan_keywords rest cat (scan_categories keyword cat acc)
  end.

End Loops.

(** [findRelevantSelectors(keywords)] *)
Definition findRelevantSelectors (kb : KnowledgeBase.t) (keywords : list string)
  : list (string * string) :=
  scan_keywords
    (fun category name selector relevant =>
       assign (category ++ "." ++ name) selector relevant)
    keywords (KnowledgeBase.selectors kb) [].

(** [findRelevantEndpoints(keywords)] *)
Definition findRelevantEndpoints (kb : KnowledgeBase.t) (keywords : list string)
  : list string :=
  scan_keywords
    (fun category name endpoint relevant =>
       (relevant ++ [(category ++ "." ++ name ++ ": " ++ endpoint)%string])%list)
    keywords (KnowledgeBase.endpoints kb) [].

Definition commonWords : list string :=
  ["the"; "a"; "an"; "and"; "or"; "but"; "in"; "on"; "at"; "to"; "for";
   "of"; "with"; "by"; "user"; "should"; "can"; "will"].

(** [extractKeywords(text)] *)
Definition extractKeywords (text : string) : list string :=
  filter
    (fun word => (2 <? String.length word)%nat
                 && negb (JS.includes_str commonWords word))
    (JS.split_ws
       (JS.replace_class (fun c => negb (JS.is_word c || JS.is_space c)) " "
          (JS.toLowerCase text))).

End Retriever.

(* ================================================================== *)
(** ** Agent B: scenario validation ([LangChainAgentB]) *)

Module AgentB.

(** [{ ...scenario, selectors, api_endpoints, validation_notes }] *)
Definition extend (scenario : TestScenario.t)
  (selectors api_endpoints validation_notes : value) : ValidatedScenario.t :=
  ValidatedScenario.mk
    (TestScenario.title scenario)
    (TestScenario.type scenario)
    (TestScenario.description scenario)
    (TestScenario.steps scenario)
    (TestScenario.expected_outcome scenario)
    (TestScenario.device scenario)
    selectors api_endpoints validation_notes.

(** The object [parseValidationResponse] returns. *)
Record Validation : Type := mkValidation {
  relevant_selectors : value;
  relevant_endpoints : value;
  validation_notes : value;
  confidence_score : value
}.

Definition cleanResponse (response : string) : string :=
  JS.trim (JS.strip_marker "```" (JS.strip_marker "```json" response)).

(** [generateValidationNotes(scenario, selectors, endpoints)] *)
Definition generateValidationNotes (scenario : TestScenario.t)
  (selectors : list (string * string)) (endpoints : list string)
  : list string :=
  ((if (List.length selectors =? 0)%nat
   then ["WARNING: No matching selectors found - may need to add custom selectors"]
   else [("Found " ++ JS.string_of_nat (List.length selectors)
          ++ " relevant selectors")%string])
  ++
  (if (List.length endpoints =? 0)%nat
   then ["WARNING: No matching API endpoints found - may need API mocking"]
   else [("Found " ++ JS.string_of_nat (List.length endpoints)
          ++ " relevant API endpoints")%string])
  ++
  (if Value.is_string (TestScenario.device scenario) "mobile"
   then ["Mobile-specific: Ensure responsive selectors and touch interactions"]
   else [])
  ++
  (match TestScenario.type scenario with
   | negative =>
       ["Negative test: Ensure error selectors and validation messages are available"]
   | edge => ["Edge case: Consider network simulation and error handling"]
   | _ => []
   end))%list.

Section Validate.

Variable JSON_parse : string -> outcome value.
Variable kb : KnowledgeBase.t.

(** [parseValidationResponse(response)] *)
Definition parseValidationResponse (response : string) : outcome Validation :=
  match JSON_parse (cleanResponse response) with
  | Thrown e => Thrown e
  | Returned VNull =>
      Thrown (TypeError
                "Cannot read properties of null (reading 'relevant_selectors')")
  | Returned validation =>
      Returned
        (mkValidation
           (Value.or_else (Value.get validation "relevant_selectors") (VObject []))
           (Value.or_else (Value.get validation "relevant_endpoints") (VArray []))
           (Value.or_else (Value.get validation "validation_notes") (VArray []))
           (Value.or_else (Value.get validation "confidence_score") (VNumber 0)))
  end.

(** [performFallbackValidation(scenario)] *)
Definition performFallbackValidation (scenario : TestScenario.t)
  : ValidatedScenario.t :=
  let keywords :=
    Retriever.extractKeywords
      (Value.toString (TestScenario.title scenario) ++ " "
       ++ Value.toString (TestScenario.description scenario) ++ " "
       ++ Value.join " " (TestScenario.steps scenario)) in
  let relevantSelectors := Retriever.findRelevantSelectors kb keywords in
  let relevantEndpoints := Retriever.findRelevantEndpoints kb keywords in
  let validationNotes :=
    generateValidationNotes scenario relevantSelectors relevantEndpoints in
  extend scenario
    (VObject (map (fun kv => (fst kv, VString (snd kv))) relevantSelectors))
    (VArray (map VString relevantEndpoints))
    (VArray (map VString validationNotes)).

(** [validateScenario(scenario)]; [reply] is the outcome of the call
    [this.llmClient.generateWithTemplate(AGENT_B_TEMPLATE, ...)]. *)
Definition validateScenario (reply : outcome string) (scenario : TestScenario.t)
  : ValidatedScenario.t :=
  let performLLMValidation :=
    match reply with
    | Thrown e => Thrown e
    | Returned response => parseValidationResponse response
    end in
  match performLLMValidation with
  | Returned validation =>
      extend scenario
        (Value.or_else (relevant_selectors validation) (VObject []))
        (Value.or_else (relevant_endpoints validation) (VArray []))
        (Value.or_else (validation_notes validation) (VArray []))
  | Thrown _ => performFallbackValidation scenario
  end.

(** [validateScenarios(scenarios)]: one reply per scenario. *)
Definition validateScenarios (replies : TestScenario.t -> outcome string)
  (scenarios : list TestScenario.t) : list ValidatedScenario.t :=
  map (fun scenario => validateScenario (replies scenario) scenario) scenarios.

End Validate.

End AgentB.

(* ================================================================== *)
(** ** Agent C: test generation ([LangChainAgentC]) *)

Module AgentC.

Definition is_hyphen (c : ascii) : bool := Ascii.eqb c "-".

(** The complement of the class [[a-z0-9\s-]]. *)
Definition not_filename_char (c : ascii) : bool :=
  negb (JS.is_lower c || JS.is_digit c || JS.is_space c || is_hyphen c).

(** The chain of calls applied to [scenario.title]. *)
Definition sanitize (title : string) : string :=
  JS.trim
    (JS.collapse_runs is_hyphen "-"
       (JS.collapse_runs JS.is_space "-"
          (JS.remove_class not_filename_char (JS.toLowerCase title)))).

(** [generateFilename(scenario)] *)
Definition generateFilename (scenario : ValidatedScenario.t) : outcome string :=
  match ValidatedScenario.title scenario with
  | VString title =>
      let sanitized := sanitize title in
      let device :=
        if Value.truthy (ValidatedScenario.device scenario)
        then "-" ++ Value.toString (ValidatedScenario.device scenario)
        else EmptyString in
      Returned (sanitized ++ device ++ ".spec.ts")
  | VUndefined =>
      Thrown (TypeError "Cannot read properties of undefined (reading 'toLowerCase')")
  | VNull =>
      Thrown (TypeError "Cannot read properties of null (reading 'toLowerCase')")
  | _ => Thrown (TypeError "scenario.title.toLowerCase is not a function")
  end.

(** The clean-up of the reply in [generateLLMTestContent]. *)
Definition cleanResponse (response : string) : string :=
  JS.trim
    (JS.strip_marker "```"
       (JS.strip_marker "```ts"
          (JS.strip_marker "```typescript" response))).

(** [scenario.api_endpoints.join('\n')], an argument of the call of the
    model: only an array has a [join]. *)
Definition join_endpoints (v : value) : outcome string :=
  match v with
  | VArray xs => Returned (Value.join (String (ascii_of_nat 10) EmptyString) xs)
  | VUndefined =>
      Thrown (TypeError "Cannot read properties of undefined (reading 'join')")
  | VNull =>
      Thrown (TypeError "Cannot read properties of null (reading 'join')")
  | _ => Thrown (TypeError "scenario.api_endpoints.join is not a function")
  end.

(** [generateLLMTestContent(scenario)]; [reply] is the outcome of the call
    [this.llmClient.generateWithTemplate(AGENT_C_TEMPLATE, ...)], which is
    made once its arguments are evaluated. *)
Definition generateLLMTestContent (reply : outcome string)
  (scenario : ValidatedScenario.t) : outcome string :=
  match join_endpoints (ValidatedScenario.api_endpoints scenario) with
  | Thrown e => Thrown e
  | Returned _ =>
      match reply with
      | Returned response => Returned (cleanResponse response)
      | Thrown e => Thrown e
      end
  end.

Section Generate.

(** [generateFallbackTestContent], the template rendering of the
    fallback path; the file name does not depend on it. *)
Variable generateFallbackTestContent : ValidatedScenario.t -> outcome string.

(** [generateSingleTest(scenario)]. The file name is computed before the
    [try]; whatever is thrown inside it, by the model or by the
    evaluation of the arguments of the call, leads to the fallback. *)
Definition generateSingleTest (reply : outcome string)
  (scenario : ValidatedScenario.t) : outcome PlaywrightTest.t :=
  match generateFilename scenario with
  | Thrown e => Thrown e
  | Returned filename =>
      match generateLLMTestContent reply scenario with
      | Returned content => Returned (PlaywrightTest.mk filename content)
      | Thrown _ =>
          match generateFallbackTestContent scenario with
          | Returned content => Returned (PlaywrightTest.mk filename content)
          | Thrown e => Thrown e
          end
      end
  end.

End Generate.

End AgentC.

(* ================================================================== *)
(** ** Model client ([LangChainClient]) *)

Module Client.

(** What an observer of the client sees: the calls of the underlying
    model and the timers that were awaited. *)
Inductive event : Type :=
| Invoke (systemPrompt userPrompt : string)
| Sleep (milliseconds : Z).

Record world : Type := mkWorld { calls : nat; trace : list event }.

Definition start : world := mkWorld 0 [].

Definition record_event (e : event) (w : world) : world :=
  mkWorld (calls w) (trace w ++ [e])%list.

(** [a || b] on numbers: [undefined], [NaN] (both [None]) and 0 are falsy. *)
Definition or_number (a : option Z) (b : Z) : Z :=
  match a with
  | Some n => if (n =? 0)%Z then b else n
  | None => b
  end.

Section Model.

(** [this.model.invoke(messages)]: the outcome of the call number [n]
    (counted from 0) on the given prompts. *)
Variable model_invoke : nat -> string -> string -> outcome string.

(** [this.config.maxRetries] *)
Variable config_maxRetries : option Z.

(** [generateResponse(systemPrompt, userPrompt)] *)
Definition generateResponse (systemPrompt userPrompt : string) (w : world)
  : outcome string * world :=
  let w' := mkWorld (S (calls w))
                    (trace w ++ [Invoke systemPrompt userPrompt])%list in
  match model_invoke (calls w) systemPrompt userPrompt with
  | Returned content => (Returned content, w')
  | Thrown error =>
      (Thrown (Error ("Failed to generate LLM response: "
                      ++ error_toString error)), w')
  end.

(** The statement after the loop of [generateWithRetry]. *)
Definition fail_after_loop (retries : Z) (lastError : option js_error)
  : outcome string :=
  match lastError with
  | Some e =>
      Thrown (Error ("LLM failed after " ++ JS.string_of_Z retries
                     ++ " attempts. Last error: " ++ err_message e))
  | None =>
      Thrown (TypeError "Cannot read properties of undefined (reading 'message')")
  end.

(** The [for] loop of [generateWithRetry]: [remaining] is the number of
    values of [attempt] still to run, [retries - attempt + 1]. *)
Fixpoint retry_loop (remaining : nat) (attempt retries : Z)
  (systemPrompt userPrompt : string) (lastError : option js_error)
  (w : world) : outcome string * world :=
  match remaining with
  | O => (fail_after_loop retries lastError, w)
  | S remaining' =>
      match generateResponse systemPrompt userPrompt w with
      | (Returned text, w1) => (Returned text, w1)
      | (Thrown error, w1) =>
          let w2 :=
            if (attempt <? retries)%Z
            then record_event (Sleep (2 ^ attempt * 1000)%Z) w1
            else w1 in
          retry_loop remaining' (attempt + 1)%Z retries
                     systemPrompt userPrompt (Some error) w2
      end
  end.

(** [generateWithRetry(systemPrompt, userPrompt, maxRetries)] *)
Definition generateWithRetry (systemPrompt userPrompt : string)
  (maxRetries : option Z) (w : world) : outcome string * world :=
  let retries := or_number maxRetries (or_number config_maxRetries 3) in
  retry_loop (Z.to_nat retries) 1 retries systemPrompt userPrompt None w.

End Model.

End Client.

(* ================================================================== *)
(** ** Agent G: quality analysis ([AnalysisAgentG]) *)

Module Severity.
Inductive t : Type := error | warning | info | success.
Definition eqb (a b : t) : bool :=
  match a, b with
  | error, error | warning, warning | info, info | success, success => true
  | _, _ => false
  end.
End Severity.

Module Impact.
Inductive t : Type := high | medium | low.
End Impact.

Module SyntaxError.
Record t : Type := mk {
  line : Z; character : Z; message : string; severity : Severity.t; code : Z
}.
End SyntaxError.

Module PlaywrightAPIIssue.
Inductive kind : Type :=
  deprecated_api | missing_await | inefficient_selector | missing_error_handling.
Record t : Type := mk {
  line : Z; type : kind; message : string; severity : Severity.t;
  suggestion : string
}.
End PlaywrightAPIIssue.

Module SelectorQualityIssue.
Inductive kind : Type :=
  brittle_selector | class_based_selector | case_sensitive_text | good_selector.
Definition kind_eqb (a b : kind) : bool :=
  match a, b with
  | brittle_selector, brittle_selector
  | class_based_selector, class_based_selector
  | case_sensitive_text, case_sensitive_text
  | good_selector, good_selector => true
  | _, _ => false
  end.
Record t : Type := mk {
  line : Z; type : kind; message : string; severity : Severity.t;
  robustnessScore : Z; suggestion : string
}.
End SelectorQualityIssue.

Module PerformanceIssue.
Inductive kind : Type := excessive_wait | networkidle_usage | multiple_navigations.
Definition kind_eqb (a b : kind) : bool :=
  match a, b with
  | excessive_wait, excessive_wait
  | networkidle_usage, networkidle_usage
  | multiple_navigations, multiple_navigations => true
  | _, _ => false
  end.
Record t : Type := mk {
  line : Z; type : kind; message : string; severity : Severity.t;
  impact : Impact.t; suggestion : string
}.
End PerformanceIssue.

Module MaintainabilityIssue.
Inductive kind : Type :=
  hardcoded_values | hardcoded_assertions | missing_describe_block.
Record t : Type := mk {
  line : Z; type : kind; message : string; severity : Severity.t;
  suggestion : string
}.
End MaintainabilityIssue.

Module BestPracticeIssue.
Inductive kind : Type := missing_imports | test_only_usage | no_assertions.
Record t : Type := mk {
  line : Z; type : kind; message : string; severity : Severity.t;
  suggestion : string
}.
End BestPracticeIssue.

Module TestAnalysisResult.
Record t : Type := mk {
  filename : string;
  syntaxErrors : list SyntaxError.t;
  warningsAndBestPractices : list BestPracticeIssue.t;
  playwrightApiIssues : list PlaywrightAPIIssue.t;
  selectorQualityIssues : list SelectorQualityIssue.t;
  performanceIssues : list PerformanceIssue.t;
  maintainabilityIssues : list MaintainabilityIssue.t;
  overallScore : Z;
  recommendedFixes : list string
}.
End TestAnalysisResult.

Module AgentG.

Definition LF : ascii := ascii_of_nat 10.

(** [content.split('\n')] *)
Definition lines_of (content : string) : list string := JS.split_char LF content.

(** [lines.forEach((line, index) => body)] where the body pushes issues:
    the issues pushed for each line, in order; the body sees
    [lineNum = index + 1]. *)
Fixpoint forEach_line {A : Type} (body : string -> Z -> list A)
  (lines : list string) (index : Z) : list A :=
  match lines with
  | [] => []
  | line :: rest =>
      (body line (index + 1)%Z ++ forEach_line body rest (index + 1)%Z)%list
  end.

(** [if (cond) issues.push(issue)] *)
Definition push_if {A : Type} (cond : bool) (issue : A) : list A :=
  if cond then [issue] else [].

(** [analyzePlaywrightAPI(content)] *)
Definition analyzePlaywrightAPI (content : string) : list PlaywrightAPIIssue.t :=
  forEach_line
    (fun line lineNum =>
       push_if (JS.includes line "page.waitForSelector(")
         (PlaywrightAPIIssue.mk lineNum PlaywrightAPIIssue.deprecated_api
            "waitForSelector() is deprecated, use locator.waitFor() instead"
            Severity.warning
            "Replace with: await page.locator(selector).waitFor()")
       ++
       push_if (JS.includes line "page." && negb (JS.includes line "await")
                && negb (JS.includes line "return"))
         (PlaywrightAPIIssue.mk lineNum PlaywrightAPIIssue.missing_await
            "Playwright method call missing await keyword"
            Severity.error
            "Add await before Playwright method calls")
       ++
       push_if (JS.includes line "page.locator(" && JS.includes line "nth(")
         (PlaywrightAPIIssue.mk lineNum PlaywrightAPIIssue.inefficient_selector
            "Using nth() selector which can be brittle"
            Severity.warning
            "Consider using more specific selectors like getByRole() or getByTestId()")
       ++
       push_if (JS.includes line ".click()" && negb (JS.includes content "try")
                && negb (JS.includes content "catch"))
         (PlaywrightAPIIssue.mk lineNum PlaywrightAPIIssue.missing_error_handling
            "Interactive actions should have error handling"
            Severity.info
            "Consider wrapping in try-catch or using soft assertions"))%list
    (lines_of content) 0.

(** [analyzeSelectorQuality(content)] *)
Definition analyzeSelectorQuality (content : string)
  : list SelectorQualityIssue.t :=
  forEach_line
    (fun line lineNum =>
       push_if (JS.includes line "css=" || JS.includes line "xpath=")
         (SelectorQualityIssue.mk lineNum SelectorQualityIssue.brittle_selector
            "CSS/XPath selectors are brittle and hard to maintain"
            Severity.warning 3
            "Use semantic selectors like getByRole(), getByLabel(), or getByTestId()")
       ++
       push_if (JS.includes line ".locator(" && JS.includes line ".")
         (SelectorQualityIssue.mk lineNum SelectorQualityIssue.class_based_selector
            "Class-based selectors can break with CSS changes"
            Severity.info 5
            "Consider using data-testid or semantic selectors")
       ++
       push_if (JS.includes line "text=" && negb (JS.includes line "/i"))
         (SelectorQualityIssue.mk lineNum SelectorQualityIssue.case_sensitive_text
            "Text selector is case-sensitive"
            Severity.info 6
            "Use case-insensitive regex: /text/i")
       ++
       push_if (JS.includes line "getByRole(" || JS.includes line "getByTestId("
                || JS.includes line "getByLabel(")
         (SelectorQualityIssue.mk lineNum SelectorQualityIssue.good_selector
            "Good use of semantic selector"
            Severity.success 9
            "Keep using semantic selectors for better maintainability"))%list
    (lines_of content) 0.

(** [analyzePerformanceIssues(content)] *)
Definition analyzePerformanceIssues (content : string)
  : list PerformanceIssue.t :=
  forEach_line
    (fun line lineNum =>
       push_if (JS.includes line "waitForTimeout" && JS.includes line "5000")
         (PerformanceIssue.mk lineNum PerformanceIssue.excessive_wait
            "Long timeout may slow down test execution"
            Severity.warning Impact.medium
            "Use specific waitFor conditions instead of fixed timeouts")
       ++
       push_if (JS.includes line "networkidle")
         (PerformanceIssue.mk lineNum PerformanceIssue.networkidle_usage
            "networkidle can cause unnecessary delays"
            Severity.info Impact.low
            "Consider using domcontentloaded or specific element waits")
       ++
       (let navigateCount := JS.count_occurrences content "goto(" in
        push_if (1 <? navigateCount)%nat
          (PerformanceIssue.mk lineNum PerformanceIssue.multiple_navigations
             "Multiple page navigations detected"
             Severity.info Impact.medium
             "Consider combining related actions in single page context")))%list
    (lines_of content) 0.

(** [analyzeMaintainabilityIssues(content)] *)
Definition analyzeMaintainabilityIssues (content : string)
  : list MaintainabilityIssue.t :=
  (forEach_line
     (fun line lineNum =>
        push_if (JS.includes line "fill("
                 && (JS.includes line (JS.DQUOTE ++ "test") || JS.includes line "'test"))
          (MaintainabilityIssue.mk lineNum MaintainabilityIssue.hardcoded_values
             "Hardcoded test data detected"
             Severity.warning
             "Use test data from configuration or fixtures")
        ++
        push_if (JS.includes line "expect(" && JS.includes line "toBe("
                 && JS.includes line JS.DQUOTE)
          (MaintainabilityIssue.mk lineNum MaintainabilityIssue.hardcoded_assertions
             "Hardcoded assertion values"
             Severity.info
             "Consider using dynamic assertions or constants"))%list
     (lines_of content) 0
   ++
   push_if (negb (JS.includes content "test.describe("))
     (MaintainabilityIssue.mk 1 MaintainabilityIssue.missing_describe_block
        "Missing test.describe() block for better organization"
        Severity.info
        "Wrap related tests in describe blocks"))%list.

(** [content.indexOf(needle)] when [needle] occurs in [content]. *)
Fixpoint indexOf (content needle : string) : Z :=
  if String.prefix needle content then 0%Z
  else match content with
       | EmptyString => (-1)%Z
       | String _ rest =>
           if JS.includes rest needle then (1 + indexOf rest needle)%Z
           else (-1)%Z
       end.

(** [analyzeBestPractices(content)] *)
Definition analyzeBestPractices (content : string) : list BestPracticeIssue.t :=
  (push_if
     (negb (JS.includes content "import { test, expect } from '@playwright/test'"))
     (BestPracticeIssue.mk 1 BestPracticeIssue.missing_imports
        "Missing proper Playwright imports"
        Severity.error
        "Add: import { test, expect } from '@playwright/test'")
   ++
   push_if (JS.includes content "test.only(")
     (BestPracticeIssue.mk (indexOf content "test.only(")
        BestPracticeIssue.test_only_usage
        "test.only() found - should not be committed"
        Severity.warning
        "Replace test.only() with test()")
   ++
   (let assertionCount := JS.count_occurrences content "expect(" in
    push_if (assertionCount =? 0)%nat
      (BestPracticeIssue.mk 1 BestPracticeIssue.no_assertions
         "No assertions found in test"
         Severity.error
         "Add expect() assertions to verify test outcomes")))%list.

(** [calculateQualityScore(analysis)]: the successive updates of [score]. *)
Definition calculateQualityScore (analysis : TestAnalysisResult.t) : Z :=
  let len {A : Type} (xs : list A) : Z := Z.of_nat (List.length xs) in
  let score := 100%Z in
  let score := (score - len (TestAnalysisResult.syntaxErrors analysis) * 15)%Z in
  let score :=
    (score - len (filter (fun i => Severity.eqb (PlaywrightAPIIssue.severity i)
                                                Severity.error)
                         (TestAnalysisResult.playwrightApiIssues analysis)) * 10)%Z in
  let score :=
    (score - len (filter (fun i => Severity.eqb (PlaywrightAPIIssue.severity i)
                                                Severity.warning)
                         (TestAnalysisResult.playwrightApiIssues analysis)) * 5)%Z in
  let score :=
    (score - len (filter (fun i => Severity.eqb (SelectorQualityIssue.severity i)
                                                Severity.warning)
                         (TestAnalysisResult.selectorQualityIssues analysis)) * 3)%Z in
  let score := (score - len (TestAnalysisResult.performanceIssues analysis) * 2)%Z in
  let score := (score - len (TestAnalysisResult.maintainabilityIssues analysis) * 2)%Z in
  let score :=
    (score + len (filter (fun i => SelectorQualityIssue.kind_eqb
                                     (SelectorQualityIssue.type i)
                                     SelectorQualityIssue.good_selector)
                         (TestAnalysisResult.selectorQualityIssues analysis)) * 2)%Z in
  Z.max 0 (Z.min 100 score).

Definition fallbackRecommendations : list string :=
  ["Could not generate LLM recommendations";
   "Please review the detected issues manually";
   "Focus on fixing syntax errors first";
   "Then address Playwright API usage issues";
   "Finally optimize selectors and performance"].

(** [generateLLMRecommendations(test, analysis)]; [reply] is the outcome
    of the call [this.llmClient.generateResponse(...)], made only when
    some issue was counted. *)
Definition generateLLMRecommendations (reply : outcome string)
  (analysis : TestAnalysisResult.t) : list string :=
  let totalIssues :=
    (List.length (TestAnalysisResult.syntaxErrors analysis)
     + List.length (TestAnalysisResult.playwrightApiIssues analysis)
     + List.length (TestAnalysisResult.selectorQualityIssues analysis))%nat in
  if (totalIssues =? 0)%nat then ["Test looks good! No major issues detected."]
  else match reply with
       | Returned response =>
           JS.slice0 5
             (filter (fun line => (0 <? String.length (JS.trim line))%nat)
                     (lines_of response))
       | Thrown _ => fallbackRecommendations
       end.

Section Analyze.

(** [analyzeSyntaxErrors(content)]: the diagnostics of the TypeScript
    compiler on the file, after [shouldIgnoreDiagnostic]. *)
Variable analyzeSyntaxErrors : string -> list SyntaxError.t.


End Analyze.

End AgentG.

(* ================================================================== *)
(** ** The scoring rule in the words of the specification *)

Module ScoreSpec.

(** Points taken away by one issue of each list, and points given by one
    locator-quality record. *)
Definition syntax_penalty (_ : SyntaxError.t) : Z := 15.

Definition api_penalty (i : PlaywrightAPIIssue.t) : Z :=
  match PlaywrightAPIIssue.severity i with
  | Severity.error => 10
  | Severity.warning => 5
  | _ => 0
  end.

Definition selector_penalty (i : SelectorQualityIssue.t) : Z :=
  match SelectorQualityIssue.severity i with
  | Severity.warning => 3
  | _ => 0
  end.

Definition selector_bonus (i : SelectorQualityIssue.t) : Z :=
  match SelectorQualityIssue.type i with
  | SelectorQualityIssue.good_selector => 2
  | _ => 0
  end.

Definition performance_penalty (_ : PerformanceIssue.t) : Z := 2.
Definition maintainability_penalty (_ : MaintainabilityIssue.t) : Z := 2.

(** The sum of [f] over a list of issues. *)
Fixpoint total {A : Type} (f : A -> Z) (issues : list A) : Z :=
  match issues with
  | [] => 0
  | i :: rest => f i + total f rest
  end.

Definition clamp (lo hi x : Z) : Z :=
  if (x <? lo)%Z then lo else if (hi <? x)%Z then hi else x.

(** Start at 100, subtract per issue, add per positive signal. *)
Definition raw (a : TestAnalysisResult.t) : Z :=
  100
  - total syntax_penalty (TestAnalysisResult.syntaxErrors a)
  - total api_penalty (TestAnalysisResult.playwrightApiIssues a)
  - total selector_penalty (TestAnalysisResult.selectorQualityIssues a)
  - total performance_penalty (TestAnalysisResult.performanceIssues a)
  - total maintainability_penalty (TestAnalysisResult.maintainabilityIssues a)
  + total selector_bonus (TestAnalysisResult.selectorQualityIssues a).

Definition score (a : TestAnalysisResult.t) : Z := clamp 0 100 (raw a).

End ScoreSpec.

(** A positive locator-quality signal, as [analyzeSelectorQuality] records
    it: type [good_selector], severity [success]. *)
Definition positive_signal (i : SelectorQualityIssue.t) : Prop :=
  SelectorQualityIssue.type i = SelectorQualityIssue.good_selector /\
  SelectorQualityIssue.severity i = Severity.success.

(** A locator-quality issue proper: any record that is not of type
    [good_selector]. *)
Definition selector_issue (i : SelectorQualityIssue.t) : Prop :=
  SelectorQualityIssue.type i <> SelectorQualityIssue.good_selector.

Module Update.
(** An analysis with one of its lists replaced. *)
Definition with_syntaxErrors (a : TestAnalysisResult.t) l :=
  TestAnalysisResult.mk
    (TestAnalysisResult.filename a) l
    (TestAnalysisResult.warningsAndBestPractices a)
    (TestAnalysisResult.playwrightApiIssues a)
    (TestAnalysisResult.selectorQualityIssues a)
    (TestAnalysisResult.performanceIssues a)
    (TestAnalysisResult.maintainabilityIssues a)
    (TestAnalysisResult.overallScore a)
    (TestAnalysisResult.recommendedFixes a).
Definition with_warningsAndBestPractices (a : TestAnalysisResult.t) l :=
  TestAnalysisResult.mk
    (TestAnalysisResult.filename a)
    (TestAnalysisResult.syntaxErrors a) l
    (TestAnalysisResult.playwrightApiIssues a)
    (TestAnalysisResult.selectorQualityIssues a)
    (TestAnalysisResult.performanceIssues a)
    (TestAnalysisResult.maintainabilityIssues a)
    (TestAnalysisResult.overallScore a)
    (TestAnalysisResult.recommendedFixes a).
Definition with_playwrightApiIssues (a : TestAnalysisResult.t) l :=
  TestAnalysisResult.mk
    (TestAnalysisResult.filename a)
    (TestAnalysisResult.syntaxErrors a)
    (TestAnalysisResult.warningsAndBestPractices a) l
    (TestAnalysisResult.selectorQualityIssues a)
    (TestAnalysisResult.performanceIssues a)
    (TestAnalysisResult.maintainabilityIssues a)
    (TestAnalysisResult.overallScore a)
    (TestAnalysisResult.recommendedFixes a).
Definition with_selectorQualityIssues (a : TestAnalysisResult.t) l :=
  TestAnalysisResult.mk
    (TestAnalysisResult.filename a)
    (TestAnalysisResult.syntaxErrors a)
    (TestAnalysisResult.warningsAndBestPractices a)
    (TestAnalysisResult.playwrightApiIssues a) l
    (TestAnalysisResult.performanceIssues a)
    (TestAnalysisResult.maintainabilityIssues a)
    (TestAnalysisResult.overallScore a)
    (TestAnalysisResult.recommendedFixes a).
Definition with_performanceIssues (a : TestAnalysisResult.t) l :=
  TestAnalysisResult.mk
    (TestAnalysisResult.filename a)
    (TestAnalysisResult.syntaxErrors a)
    (TestAnalysisResult.warningsAndBestPractices a)
    (TestAnalysisResult.playwrightApiIssues a)
    (TestAnalysisResult.selectorQualityIssues a) l
    (TestAnalysisResult.maintainabilityIssues a)
    (TestAnalysisResult.overallScore a)
    (TestAnalysisResult.recommendedFixes a).
Definition with_maintainabilityIssues (a : TestAnalysisResult.t) l :=
  TestAnalysisResult.mk
    (TestAnalysisResult.filename a)
    (TestAnalysisResult.syntaxErrors a)
    (TestAnalysisResult.warningsAndBestPractices a)
    (TestAnalysisResult.playwrightApiIssues a)
    (TestAnalysisResult.selectorQualityIssues a)
    (TestAnalysisResult.performanceIssues a) l
    (TestAnalysisResult.overallScore a)
    (TestAnalysisResult.recommendedFixes a).
End Update.


(* ================================================================== *)
(** ** Vocabulary of the statements and sample data *)

(** A model whose call number [n] throws [errors n]. *)
Definition always_failing (errors : nat -> js_error)
  : nat -> string -> string -> outcome string :=
  fun n _ _ => Thrown (errors n).




(** A complete scenario object, as a model may send it. *)
Definition sample_scenario : value :=
  VObject [("title", VString "Sign in");
           ("type", VString "positive");
           ("description", VString "User signs in with valid credentials");
           ("steps", VArray [VString "Open the sign in page";
                             VString "Submit valid credentials"]);
           ("expected_outcome", VString "User reaches the dashboard")].

(** A JSON string literal and a JSON member with a string value. *)
Definition quoted (s : string) : string := JS.DQUOTE ++ s ++ JS.DQUOTE.
Definition member (k v : string) : string := quoted k ++ ":" ++ quoted v.

(** The JSON text of the array holding [sample_scenario] alone. *)
Definition sample_reply : string :=
  "[{" ++ member "title" "Sign in" ++ ","
  ++ member "type" "positive" ++ ","
  ++ member "description" "User signs in with valid credentials" ++ ","
  ++ quoted "steps" ++ ":[" ++ quoted "Open the sign in page" ++ ","
  ++ quoted "Submit valid credentials" ++ "],"
  ++ member "expected_outcome" "User reaches the dashboard" ++ "}]".


Definition sample_story : UserStory.t :=
  UserStory.mk "User signs in to their account" None.

(** The line numbers of the [multiple_navigations] issues of a list. *)
Definition flagged_navigation_lines (issues : list PerformanceIssue.t) : list Z :=
  map PerformanceIssue.line
    (filter (fun i => PerformanceIssue.kind_eqb (PerformanceIssue.type i)
                        PerformanceIssue.multiple_navigations) issues).

(** The numbers of the lines that hold a navigation call. *)
Definition navigation_lines (content : string) : list Z :=
  AgentG.forEach_line
    (fun line lineNum => AgentG.push_if (JS.includes line "goto(") lineNum)
    (AgentG.lines_of content) 0.

(** A file of three lines: two navigations and one other statement. *)
Definition two_navigations : string :=
  JS.join (String AgentG.LF EmptyString)
    ["await page.goto('/a');"; "await page.goto('/b');"; "console.log('done');"].

(** Every required field of a parsed scenario holds a truthy value. *)
Definition complete (scenario : value) : Prop :=
  forall field, In field AgentA.requiredFields ->
                Value.truthy (Value.get scenario field) = true.

(** The required fields whose value is absent or falsy, as
    [validateScenario] lists them. *)
Definition missing_fields (scenario : value) : list string :=
  filter (fun field => negb (Value.truthy (Value.get scenario field)))
         AgentA.requiredFields.

(** A scenario object without [type] and [description]. *)
Definition incomplete_scenario : value :=
  VObject [("title", VString "Sign in");
           ("steps", VString "Open the sign in page");
           ("expected_outcome", VString "User reaches the dashboard")].

(** [s] contains [t] as a substring. *)
Definition contains (s t : string) : Prop := exists a b, s = a ++ t ++ b.

(** A knowledge base with the single locator entry
    (category [forms], name [sign_in]). *)
Definition forms_kb : KnowledgeBase.t :=
  KnowledgeBase.mk [("forms", [("sign_in", "#sign-in-form")])] [].

(** The keys of an object used as a map. *)
Definition keys (relevant : list (string * string)) : list string :=
  map fst relevant.

(** The key under which [findRelevantSelectors] stores an entry. *)
Definition selector_key (category name : string) : string :=
  category ++ "." ++ name.

(* ================================================================== *)
(** ** The file-name rule in the words of the specification *)

Module FilenameSpec.

Definition is_alphanumeric (c : ascii) : bool :=
  JS.is_lower c || JS.is_upper c || JS.is_digit c.

(** The title lower-cased, each run of non-alphanumeric characters
    collapsed to one hyphen. *)
Definition sanitize (title : string) : string :=
  JS.collapse_runs (fun c => negb (is_alphanumeric c)) "-" (JS.toLowerCase title).

End FilenameSpec.

(** ** The file-name rule of the code, written over the segments of a title *)

Module FilenameRule.

Definition upper_letters : string := "ABCDEFGHIJKLMNOPQRSTUVWXYZ".
Definition lower_letters : string := "abcdefghijklmnopqrstuvwxyz".
Definition digits : string := "0123456789".

(** The place of [c] in [s], counted from 0. *)
Fixpoint position (c : ascii) (s : string) : option nat :=
  match s with
  | EmptyString => None
  | String d s' =>
      if Ascii.eqb c d then Some O
      else match position c s' with
           | Some i => Some (S i)
           | None => None
           end
  end.

Definition member (c : ascii) (s : string) : bool :=
  match position c s with
  | Some _ => true
  | None => false
  end.

(** The lower-case form of a character: a capital letter becomes the
    small letter at the same place of the alphabet, any other character
    is kept. *)
Definition lower (c : ascii) : ascii :=
  match position c upper_letters with
  | Some i =>
      match String.get i lower_letters with
      | Some l => l
      | None => c
      end
  | None => c
  end.

Definition is_letter_or_digit (c : ascii) : bool :=
  member c upper_letters || member c lower_letters || member c digits.

(** The separators: tab, line feed, vertical tab, form feed, carriage
    return, space, and the hyphen. *)
Definition is_separator (c : ascii) : bool :=
  existsb (fun n => Ascii.eqb c (ascii_of_nat n)) [9; 10; 11; 12; 13; 32; 45]%nat.

(** The segments of a title: the maximal runs of letters and digits, in
    lower case, that the runs of separators cut it into. A character that
    is neither a letter, a digit nor a separator is passed over: it
    neither ends a segment nor belongs to one. A title that begins or
    ends with a separator has an empty first or last segment. [cur] is
    the segment being read and [in_sep] tells that the last character
    that counted was a separator. *)
Fixpoint segments_from (cur : string) (in_sep : bool) (s : string)
  : list string :=
  match s with
  | EmptyString => [cur]
  | String c s' =>
      if is_letter_or_digit c
      then segments_from (cur ++ String (lower c) EmptyString) false s'
      else if is_separator c
      then if in_sep then segments_from cur true s'
           else cur :: segments_from EmptyString true s'
      else segments_from cur in_sep s'
  end.

Definition segments (title : string) : list string :=
  segments_from EmptyString false title.

(** The segments joined by single hyphens. *)
Definition base (title : string) : string := JS.join "-" (segments title).

End FilenameRule.

(** The characters a sanitized title is made of: [a-z], [0-9] and the
    hyphen. *)
Definition filename_char (c : ascii) : bool :=
  JS.is_lower c || JS.is_digit c || AgentC.is_hyphen c.

(** [s] is made of file-name characters and holds no two hyphens in a
    row; [after_hyphen] tells that the character before [s] is a hyphen. *)
Fixpoint normal_from (after_hyphen : bool) (s : string) : bool :=
  match s with
  | EmptyString => true
  | String c s' =>
      filename_char c && negb (after_hyphen && AgentC.is_hyphen c)
      && normal_from (AgentC.is_hyphen c) s'
  end.

(** A title already in the form of a sanitized title. *)
Definition normal_title (title : string) : bool := normal_from false title.

(** The suffix [generateFilename] derives from the device. *)
Definition device_suffix (device : value) : string :=
  if Value.truthy device then "-" ++ Value.toString device else EmptyString.

(** A validated scenario with the given title and device. *)
Definition titled (title device : string) : ValidatedScenario.t :=
  ValidatedScenario.mk (VString title) positive (VString "Description")
    [VString "Navigate to the application"] (VString "Expected outcome")
    (VString device) (VObject []) (VArray []) (VArray []).

(** The characters of a segment: anything but the hyphen. *)
Definition not_hyphen (c : ascii) : bool := negb (AgentC.is_hyphen c).

(** A fallback renderer, for sample runs of [generateSingleTest]. *)
Definition sample_renderer (s : ValidatedScenario.t) : outcome string :=
  Returned "import { test, expect, devices } from '@playwright/test';".

(** Every character of [s] is in the class [p]. *)
Fixpoint all_chars (p : ascii -> bool) (s : string) : bool :=
  match s with
  | EmptyString => true
  | String c s' => p c && all_chars p s'
  end.

(** The test of the missing-await heuristic on one line. *)
Definition missing_await_line (line : string) : bool :=
  JS.includes line "page." && negb (JS.includes line "await")
  && negb (JS.includes line "return").

(** The issue [analyzePlaywrightAPI] records for a missing await. *)
Definition missing_await_issue (lineNum : Z) : PlaywrightAPIIssue.t :=
  PlaywrightAPIIssue.mk lineNum PlaywrightAPIIssue.missing_await
    "Playwright method call missing await keyword"
    Severity.error
    "Add await before Playwright method calls".







(** An analysis with one issue in four of its lists. *)
Definition sample_analysis : TestAnalysisResult.t :=
  TestAnalysisResult.mk "opens-desktop.spec.ts"
    [SyntaxError.mk 3 9 "';' expected." Severity.error 1005]
    []
    [missing_await_issue 4]
    [SelectorQualityIssue.mk 5 SelectorQualityIssue.brittle_selector
       "CSS/XPath selectors are brittle and hard to maintain"
       Severity.warning 3
       "Use semantic selectors like getByRole(), getByLabel(), or getByTestId()"]
    []
    [MaintainabilityIssue.mk 1 MaintainabilityIssue.missing_describe_block
       "Missing test.describe() block for better organization"
       Severity.info "Wrap related tests in describe blocks"]
    0 [].

Definition sample_class_issue : SelectorQualityIssue.t :=
  SelectorQualityIssue.mk 6 SelectorQualityIssue.class_based_selector
    "Class-based selectors can break with CSS changes"
    Severity.info 5 "Consider using data-testid or semantic selectors".

Definition sample_good_selector : SelectorQualityIssue.t :=
  SelectorQualityIssue.mk 7 SelectorQualityIssue.good_selector
    "Good use of semantic selector"
    Severity.success 9
    "Keep using semantic selectors for better maintainability".

(** The delays of the timers of a trace, in order. *)
Definition sleeps (trace : list Client.event) : list Z :=
  flat_map (fun e => match e with
                     | Client.Sleep ms => [ms]
                     | Client.Invoke _ _ => []
                     end) trace.

(** The delays [2^attempt * 1000], [2^(attempt+1) * 1000], ... ([n] of
    them). *)
Definition backoff_delays (attempt : Z) (n : nat) : list Z :=
  map (fun k => (2 ^ (attempt + Z.of_nat k) * 1000)%Z) (seq 0 n).

(* ================================================================== *)
(** ** Vocabulary of the further properties *)

(** A parsed element that [validateScenario] refuses: [null], or a value
    with a required field absent or falsy. *)
Definition refused (scenario : value) : Prop :=
  scenario = VNull \/ scenario = VUndefined \/ missing_fields scenario <> [].

(** The JSON object that holds the fields of a scenario. *)
Definition scenario_object (s : TestScenario.t) : value :=
  VObject [("title", TestScenario.title s);
           ("type", VString (ScenarioType_name (TestScenario.type s)));
           ("description", TestScenario.description s);
           ("steps", VArray (TestScenario.steps s));
           ("expected_outcome", TestScenario.expected_outcome s);
           ("device", TestScenario.device s)].

(** A reply wrapped in a Markdown code fence with the given language
    tag. *)
Definition fenced (tag body : string) : string :=
  "```" ++ tag ++ String AgentG.LF EmptyString ++ body
  ++ String AgentG.LF EmptyString ++ "```".

Definition not_backtick (c : ascii) : bool := negb (Ascii.eqb c "`").

(** What is left of a fenced reply once its opening fence is removed by
    a pass that does not match the closing fence. *)
Definition fence_rest (body : string) : string :=
  match JS.trimStart body with
  | EmptyString => "```"
  | u => u ++ String AgentG.LF EmptyString ++ "```"
  end.

(** The line [findRelevantEndpoints] records for an entry. *)
Definition endpoint_line (category : string) (entry : string * string) : string :=
  category ++ "." ++ fst entry ++ ": " ++ snd entry.

(** The entries of the catalog that a keyword matches, category by
    category, each rendered as an endpoint line. *)
Definition matching_endpoints (cat : KnowledgeBase.catalog) (keyword : string)
  : list string :=
  flat_map
    (fun ce : string * list (string * string) =>
       map (endpoint_line (fst ce))
           (filter (fun e => Retriever.matches keyword (fst ce) (fst e)) (snd ce)))
    cat.

(** The characters of a keyword: [a-z], [0-9] and the underscore. *)
Definition keyword_char (c : ascii) : bool :=
  JS.is_lower c || JS.is_digit c || (JS.code c =? 95)%nat.

(** The strings of an array of string values (other values are left
    out). *)
Definition strings_of (v : value) : list string :=
  match v with
  | VArray xs =>
      flat_map (fun x => match x with VString s => [s] | _ => [] end) xs
  | _ => []
  end.

Definition no_selectors_warning : string :=
  "WARNING: No matching selectors found - may need to add custom selectors".

Definition no_endpoints_warning : string :=
  "WARNING: No matching API endpoints found - may need API mocking".

(** A model that throws on its first [k] calls and then answers
    [text]. *)
Definition fails_then_answers (k : nat) (errors : nat -> js_error)
  (text : string) : nat -> string -> string -> outcome string :=
  fun n _ _ => if (n <? k)%nat then Thrown (errors n) else Returned text.

(** The sum of a list of delays. *)
Definition total_delay (delays : list Z) : Z := fold_right Z.add 0%Z delays.

(* ================================================================== *)
(** ** Construction of the model client ([LangChainClient]) *)

Module ClientSetup.

(** The variables of [process.env] that the client reads. *)
Record Env : Type := mkEnv {
  LLM_PROVIDER : option string;
  MAX_RETRIES : option string;
  OPENAI_MODEL : option string;
  ANTHROPIC_MODEL : option string;
  OLLAMA_MODEL : option string;
  OPENAI_API_KEY : option string;
  ANTHROPIC_API_KEY : option string;
  OLLAMA_BASE_URL : option string
}.

(** Modelled from the spec: the declaration of [LLMConfig] in
    [src/llm/types] is not among the sources; the configuration holds a
    provider selector, a model identifier, a credential, a retry ceiling
    and an optional base URL. [PartialConfig] is [Partial<LLMConfig>]. *)
Record PartialConfig : Type := mkPartial {
  p_provider : option string;
  p_maxRetries : option Z;
  p_model : option string;
  p_apiKey : option string;
  p_baseUrl : option string
}.

Record LLMConfig : Type := mkConfig {
  provider : string;
  maxRetries : option Z;
  model : string;
  apiKey : option string;
  baseUrl : option string
}.

(** The model object built by [initializeModel], with the arguments of
    its constructor; the temperature is in hundredths. *)
Inductive Model : Type :=
| ChatOpenAI (openAIApiKey modelName : string) (temperature maxTokens : Z)
    (maxRetries : option Z)
| ChatAnthropic (anthropicApiKey modelName : string) (temperature maxTokens : Z)
    (maxRetries : option Z)
| Ollama (baseUrl model : string) (temperature : Z).

(** Truthiness of an optional string: [undefined] and the empty string
    are falsy. *)
Definition truthy (a : option string) : bool :=
  match a with
  | Some s => negb (String.eqb s EmptyString)
  | None => false
  end.

(** [a || b] on optional strings. *)
Definition or_string (a b : option string) : option string :=
  if truthy a then a else b.

(** [a || 'literal'] *)
Definition or_literal (a : option string) (b : string) : string :=
  match a with
  | Some s => if String.eqb s EmptyString then b else s
  | None => b
  end.

Section Environment.

Variable env : Env.

(** [parseInt]; [None] is [NaN]. *)
Variable parseInt : string -> option Z.

(** [getDefaultModel(provider)] *)
Definition getDefaultModel (provider : string) : outcome string :=
  if String.eqb provider "openai" then
    Returned (or_literal (OPENAI_MODEL env) "gpt-4-turbo-preview")
  else if String.eqb provider "anthropic" then
    Returned (or_literal (ANTHROPIC_MODEL env) "claude-3-sonnet-20240229")
  else if String.eqb provider "ollama" then
    Returned (or_literal (OLLAMA_MODEL env) "llama2")
  else Thrown (Error ("Unsupported provider: " ++ provider)).

(** [getApiKey(provider)] *)
Definition getApiKey (provider : string) : option string :=
  if String.eqb provider "openai" then OPENAI_API_KEY env
  else if String.eqb provider "anthropic" then ANTHROPIC_API_KEY env
  else None.

(** [createConfig(config)] *)
Definition createConfig (config : PartialConfig) : outcome LLMConfig :=
  let provider :=
    or_literal (or_string (p_provider config) (LLM_PROVIDER env)) "openai" in
  let maxRetries :=
    match p_maxRetries config with
    | Some n => if (n =? 0)%Z then parseInt (or_literal (MAX_RETRIES env) "3")
                else Some n
    | None => parseInt (or_literal (MAX_RETRIES env) "3")
    end in
  let model :=
    if truthy (p_model config)
    then Returned (or_literal (p_model config) EmptyString)
    else getDefaultModel provider in
  match model with
  | Thrown e => Thrown e
  | Returned model =>
      Returned
        (mkConfig provider maxRetries model
           (or_string (p_apiKey config) (getApiKey provider))
           (or_string (p_baseUrl config) (OLLAMA_BASE_URL env)))
  end.

(** [initializeModel()] *)
Definition initializeModel (config : LLMConfig) : outcome Model :=
  if String.eqb (provider config) "openai" then
    if negb (truthy (apiKey config))
    then Thrown (Error "OPENAI_API_KEY environment variable is required")
    else Returned (ChatOpenAI (or_literal (apiKey config) EmptyString)
                              (model config) 70 2000 (maxRetries config))
  else if String.eqb (provider config) "anthropic" then
    if negb (truthy (apiKey config))
    then Thrown (Error "ANTHROPIC_API_KEY environment variable is required")
    else Returned (ChatAnthropic (or_literal (apiKey config) EmptyString)
                                 (model config) 70 2000 (maxRetries config))
  else if String.eqb (provider config) "ollama" then
    Returned (Ollama (or_literal (baseUrl config) "http://localhost:11434")
                     (model config) 70)
  else Thrown (Error ("Unsupported LLM provider: " ++ provider config)).

(** [new LangChainClient(config)] *)
Definition construct (config : PartialConfig) : outcome (LLMConfig * Model) :=
  match createConfig config with
  | Thrown e => Thrown e
  | Returned c =>
      match initializeModel c with
      | Thrown e => Thrown e
      | Returned m => Returned (c, m)
      end
  end.

(** [getModelInfo()] *)
Definition getModelInfo (config : LLMConfig) : string * string :=
  (provider config, model config).

End Environment.

End ClientSetup.

(** The provider that [createConfig] resolves. *)
Definition resolved_provider (env : ClientSetup.Env)
  (config : ClientSetup.PartialConfig) : string :=
  ClientSetup.or_literal
    (ClientSetup.or_string (ClientSetup.p_provider config)
       (ClientSetup.LLM_PROVIDER env)) "openai".

(** The credential that [createConfig] resolves. *)
Definition resolved_key (env : ClientSetup.Env)
  (config : ClientSetup.PartialConfig) : option string :=
  ClientSetup.or_string (ClientSetup.p_apiKey config)
    (ClientSetup.getApiKey env (resolved_provider env config)).

(** An environment with no variable set, and an empty configuration. *)
Definition empty_env : ClientSetup.Env :=
  ClientSetup.mkEnv None None None None None None None None.

Definition no_config : ClientSetup.PartialConfig :=
  ClientSetup.mkPartial None None None None None.

(** A decimal reader for the sample runs. *)
Definition parse_three : string -> option Z :=
  fun s => if String.eqb s "3" then Some 3%Z else None.

(* ================================================================== *)
(** ** Agent C: the fallback renderer ([LangChainAgentC], continued) *)

Module AgentCFallback.

Definition NL : string := String AgentG.LF EmptyString.

(** [xs.map(f)] where [f] may throw: the first exception ends the
    traversal. *)
Fixpoint map_outcome {A B : Type} (f : A -> outcome B) (xs : list A)
  : outcome (list B) :=
  match xs with
  | [] => Returned []
  | x :: rest =>
      match f x with
      | Thrown e => Thrown e
      | Returned y =>
          match map_outcome f rest with
          | Thrown e => Thrown e
          | Returned ys => Returned (y :: ys)
          end
      end
  end.

(** The elements of an array with their indices as property names. *)
Fixpoint indexed (xs : list value) (index : nat) : list (string * value) :=
  match xs with
  | [] => []
  | x :: rest => (JS.string_of_nat index, x) :: indexed rest (S index)
  end.

(** [Object.entries(v)]; the properties of an object are listed in the
    order of its list. *)
Definition entries (v : value) : outcome (list (string * value)) :=
  match v with
  | VUndefined | VNull =>
      Thrown (TypeError "Cannot convert undefined or null to object")
  | VObject props => Returned props
  | VArray xs => Returned (indexed xs 0)
  | VString s =>
      Returned (indexed (map (fun c => VString (String c EmptyString))
                             (list_ascii_of_string s)) 0)
  | VBool _ | VNumber _ => Returned []
  end.

(** [v.toLowerCase()] *)
Definition lower (what : string) (v : value) : outcome string :=
  match v with
  | VString s => Returned (JS.toLowerCase s)
  | VUndefined =>
      Thrown (TypeError "Cannot read properties of undefined (reading 'toLowerCase')")
  | VNull =>
      Thrown (TypeError "Cannot read properties of null (reading 'toLowerCase')")
  | _ => Thrown (TypeError (what ++ ".toLowerCase is not a function"))
  end.

(** [generateImports()] *)
Definition generateImports : string :=
  "import { test, expect, devices } from '@playwright/test';".

(** The array a [.map] is called on. *)
Definition array_of (what : string) (v : value) : outcome (list value) :=
  match v with
  | VArray xs => Returned xs
  | VUndefined =>
      Thrown (TypeError "Cannot read properties of undefined (reading 'map')")
  | VNull =>
      Thrown (TypeError "Cannot read properties of null (reading 'map')")
  | _ => Thrown (TypeError (what ++ ".map is not a function"))
  end.

(** [generateTestDescription(scenario)] *)
Definition generateTestDescription (scenario : ValidatedScenario.t)
  : outcome string :=
  let deviceConfig :=
    if Value.is_string (ValidatedScenario.device scenario) "mobile"
    then ".use({ ...devices['iPhone 13'] })" else EmptyString in
  match array_of "scenario.validation_notes"
          (ValidatedScenario.validation_notes scenario) with
  | Thrown e => Thrown e
  | Returned notes =>
      Returned
        ("test.describe('" ++ Value.toString (ValidatedScenario.title scenario)
         ++ "', () => {" ++ NL
         ++ "  // Scenario Type: "
         ++ ScenarioType_name (ValidatedScenario.type scenario) ++ NL
         ++ "  // Description: "
         ++ Value.toString (ValidatedScenario.description scenario) ++ NL
         ++ "  // Expected Outcome: "
         ++ Value.toString (ValidatedScenario.expected_outcome scenario) ++ NL
         ++ "  "
         ++ JS.join NL (map (fun note => "  // " ++ Value.toString note) notes)
         ++ NL ++ NL
         ++ "  test('" ++ Value.toString (ValidatedScenario.title scenario)
         ++ "'" ++ deviceConfig ++ ", async ({ page }) => {")
  end.

(** [findBestSelector(step, selectors, fallback)] for a string [step]. *)
Definition findBestSelector (step : string) (selectors : value)
  (fallback : string) : outcome value :=
  let stepLower := JS.toLowerCase step in
  match entries selectors with
  | Thrown e => Thrown e
  | Returned es =>
      Returned
        (match
            find (fun ns : string * value =>
                    let name := JS.toLowerCase (fst ns) in
                    JS.includes stepLower name
                    || JS.includes name "login" && JS.includes stepLower "login"
                    || JS.includes name "submit" && JS.includes stepLower "submit")
                 es
          with
          | Some (_, selector) => selector
          | None => VString fallback
          end)
  end.

(** [generateStepCode(step, index, scenario)] *)
Definition generateStepCode (step : value) (scenario : ValidatedScenario.t)
  : outcome string :=
  let stepComment := "    // Given/When/Then: " ++ Value.toString step in
  match lower "step" step with
  | Thrown e => Thrown e
  | Returned l =>
      let text := match step with VString s => s | _ => EmptyString end in
      if JS.includes l "navigate" then
        Returned (stepComment ++ NL
                  ++ "    await page.goto('/'); // TODO: Replace with actual URL")
      else if JS.includes l "click" || JS.includes l "button" then
        match findBestSelector text (ValidatedScenario.selectors scenario)
                "button" with
        | Thrown e => Thrown e
        | Returned found =>
            let selector := Value.or_else found (VString "button") in
            Returned (stepComment ++ NL
                      ++ "    await page.click('" ++ Value.toString selector
                      ++ "');")
        end
      else if JS.includes l "fill" || JS.includes l "enter" then
        match findBestSelector text (ValidatedScenario.selectors scenario)
                "input" with
        | Thrown e => Thrown e
        | Returned found =>
            let selector := Value.or_else found (VString "input") in
            Returned (stepComment ++ NL
                      ++ "    await page.fill('" ++ Value.toString selector
                      ++ "', 'test-data'); // TODO: Replace with actual test data")
        end
      else if JS.includes l "wait" || JS.includes l "load" then
        Returned (stepComment ++ NL
                  ++ "    await page.waitForLoadState('networkidle');")
      else if JS.includes l "verify" || JS.includes l "check" then
        Returned (stepComment ++ NL
                  ++ "    // TODO: Add specific verification logic" ++ NL
                  ++ "    await expect(page).toHaveURL(/.*\/expected-page/);")
      else
        Returned (stepComment ++ NL
                  ++ "    // TODO: Implement step logic for: "
                  ++ Value.toString step)
  end.

(** [generateOutcomeVerification(scenario)] *)
Definition generateOutcomeVerification (scenario : ValidatedScenario.t)
  : outcome string :=
  match ValidatedScenario.type scenario with
  | negative =>
      Returned ("// Verify error handling" ++ NL
                ++ "    await expect(page.locator('.error-message, .alert-error, [role="
                ++ JS.DQUOTE ++ "alert" ++ JS.DQUOTE ++ "]')).toBeVisible();")
  | _ =>
      match lower "scenario.expected_outcome"
              (ValidatedScenario.expected_outcome scenario) with
      | Thrown e => Thrown e
      | Returned l =>
          if JS.includes l "success" then
            Returned ("// Verify successful completion" ++ NL
                      ++ "    await expect(page.locator('.success-message, .alert-success')).toBeVisible();")
          else
            Returned ("// TODO: Add specific outcome verification based on: "
                      ++ Value.toString (ValidatedScenario.expected_outcome scenario)
                      ++ NL ++ "    await expect(page).toHaveURL(/.*\/success/);")
      end
  end.

Section Coercion.

(** [v > 0] for a string, an array or an object [v]: the comparison
    converts [v] to a number first. *)
Variable greater_than_zero : value -> bool.

(** [scenario.api_endpoints.length > 0] and, when it holds, the array the
    [.map] is called on. *)
Definition endpoints_to_list (v : value) : outcome (list value) :=
  let not_an_array :=
    Thrown (TypeError "scenario.api_endpoints.map is not a function") in
  match v with
  | VArray xs => Returned xs
  | VString s => if (0 <? String.length s)%nat then not_an_array else Returned []
  | VUndefined =>
      Thrown (TypeError "Cannot read properties of undefined (reading 'length')")
  | VNull =>
      Thrown (TypeError "Cannot read properties of null (reading 'length')")
  | VObject props =>
      match Value.lookup "length" props with
      | VUndefined | VNull => Returned []
      | VBool b => if b then not_an_array else Returned []
      | VNumber n => if (0 <? n)%Z then not_an_array else Returned []
      | length => if greater_than_zero length then not_an_array else Returned []
      end
  | VBool _ | VNumber _ => Returned []
  end.

(** [generateTestBody(scenario)] *)
Definition generateTestBody (scenario : ValidatedScenario.t) : outcome string :=
  match map_outcome (fun step => generateStepCode step scenario)
          (ValidatedScenario.steps scenario) with
  | Thrown e => Thrown e
  | Returned codes =>
      let steps := JS.join (NL ++ NL) codes in
      match entries (ValidatedScenario.selectors scenario) with
      | Thrown e => Thrown e
      | Returned es =>
          let selectorComments :=
            if (0 <? List.length es)%nat
            then NL ++ "    // Available selectors:" ++ NL
                 ++ JS.join NL
                      (map (fun ns : string * value =>
                              "    // " ++ fst ns ++ ": " ++ Value.toString (snd ns))
                           es)
            else EmptyString in
          match endpoints_to_list (ValidatedScenario.api_endpoints scenario) with
          | Thrown e => Thrown e
          | Returned endpoints =>
              let apiComments :=
                if (0 <? List.length endpoints)%nat
                then NL ++ "    // Relevant API endpoints:" ++ NL
                     ++ JS.join NL
                          (map (fun endpoint => "    // " ++ Value.toString endpoint)
                               endpoints)
                else EmptyString in
              match generateOutcomeVerification scenario with
              | Thrown e => Thrown e
              | Returned outcome_check =>
                  Returned (selectorComments ++ apiComments ++ NL ++ NL
                            ++ "    " ++ steps ++ NL ++ NL
                            ++ "    // Verify expected outcome" ++ NL
                            ++ "    " ++ outcome_check)
              end
          end
      end
  end.

(** [generateFallbackTestContent(scenario)] *)
Definition generateFallbackTestContent (scenario : ValidatedScenario.t)
  : outcome string :=
  let imports := generateImports in
  match generateTestDescription scenario with
  | Thrown e => Thrown e
  | Returned testDescription =>
      match generateTestBody scenario with
      | Thrown e => Thrown e
      | Returned testBody =>
          Returned (imports ++ NL ++ NL ++ testDescription ++ NL ++ testBody
                    ++ NL ++ "});")
      end
  end.

(** [generateSingleTest] with the renderer above on its fallback path. *)
Definition generateSingleTest (reply : outcome string)
  (scenario : ValidatedScenario.t) : outcome PlaywrightTest.t :=
  AgentC.generateSingleTest generateFallbackTestContent reply scenario.

(** [generatePlaywrightTests(validatedScenarios)]: one reply per scenario;
    [Promise.all] rejects with the first exception. *)
Definition generatePlaywrightTests (replies : ValidatedScenario.t -> outcome string)
  (validatedScenarios : list ValidatedScenario.t)
  : outcome (list PlaywrightTest.t) :=
  map_outcome (fun scenario => generateSingleTest (replies scenario) scenario)
              validatedScenarios.

End Coercion.

End AgentCFallback.

(** A validated scenario whose fields have the declared types: string
    steps, an array of notes, an object of locators, an array of routes
    and a string expected outcome. *)
Record well_typed (v : ValidatedScenario.t) : Prop := {
  wt_steps :
    forall step, In step (ValidatedScenario.steps v) -> exists s, step = VString s;
  wt_notes : exists notes, ValidatedScenario.validation_notes v = VArray notes;
  wt_selectors : exists props, ValidatedScenario.selectors v = VObject props;
  wt_endpoints : exists routes, ValidatedScenario.api_endpoints v = VArray routes;
  wt_outcome : exists o, ValidatedScenario.expected_outcome v = VString o
}.

(** A comparison for the sample runs of the renderer. *)
Definition never_positive : value -> bool := fun _ => false.

(** A validated scenario as the fallback of Agent B builds it. *)
Definition sample_validated : ValidatedScenario.t :=
  ValidatedScenario.mk (VString "Sign in - Happy Path") positive
    (VString "User signs in") [VString "Navigate to the application";
                               VString "Click login button"]
    (VString "User successfully signs in") (VString "desktop")
    (VObject [("forms.login_button", VString "button.login")])
    (VArray []) (VArray [VString "Found 1 relevant selectors"]).

(** The numbers of the lines of [content] that satisfy [p], in order. *)
Definition lines_where (p : string -> bool) (content : string) : list Z :=
  AgentG.forEach_line (fun line lineNum => AgentG.push_if (p line) lineNum)
    (AgentG.lines_of content) 0.

Definition is_missing_await (i : PlaywrightAPIIssue.t) : bool :=
  match PlaywrightAPIIssue.type i with
  | PlaywrightAPIIssue.missing_await => true
  | _ => false
  end.

Definition is_class_based (i : SelectorQualityIssue.t) : bool :=
  SelectorQualityIssue.kind_eqb (SelectorQualityIssue.type i)
    SelectorQualityIssue.class_based_selector.

(** The number of lines of a file. *)
Definition line_count (content : string) : Z :=
  Z.of_nat (List.length (AgentG.lines_of content)).

Definition is_describe_issue (i : MaintainabilityIssue.t) : bool :=
  match MaintainabilityIssue.type i with
  | MaintainabilityIssue.missing_describe_block => true
  | _ => false
  end.

Definition is_no_assertions (i : BestPracticeIssue.t) : bool :=
  match BestPracticeIssue.type i with
  | BestPracticeIssue.no_assertions => true
  | _ => false
  end.

Definition is_test_only (i : BestPracticeIssue.t) : bool :=
  match BestPracticeIssue.type i with
  | BestPracticeIssue.test_only_usage => true
  | _ => false
  end.

(** [pre] is what comes before the first occurrence of [needle] in
    [content]. *)
Definition before_first (content needle pre : string) : Prop :=
  (exists post, content = pre ++ needle ++ post) /\
  forall pre' post', content = pre' ++ needle ++ post' ->
                     (String.length pre <= String.length pre')%nat.

(** A file whose second line holds a focused test. *)
Definition focused_file : string :=
  "import { test } from '@playwright/test';" ++ AgentCFallback.NL
  ++ "test.only('signs in', async () => {});".

(** An analysis with one performance issue and nothing else. *)
Definition slow_analysis : TestAnalysisResult.t :=
  TestAnalysisResult.mk "slow.spec.ts" [] [] [] []
    [PerformanceIssue.mk 3 PerformanceIssue.networkidle_usage
       "networkidle can cause unnecessary delays" Severity.info Impact.low
       "Consider using domcontentloaded or specific element waits"]
    [] 0 [].

(* ================================================================== *)
(** ** Agent G: the compiler diagnostics ([analyzeSyntaxErrors]) *)

Module Diagnostic.
(** A diagnostic of the TypeScript compiler as the loop of
    [analyzeSyntaxErrors] reads it: [position] is [None] when
    [diagnostic.file] is undefined, and otherwise holds the zero-based line
    and character [getLineAndCharacterOfPosition] gives for
    [diagnostic.start]; [message] is the flattened message text. *)
Record t : Type := mk {
  position : option (Z * Z);
  message : string;
  code : Z
}.
End Diagnostic.

Module AgentGSyntax.

Definition domErrors : list string :=
  ["Cannot find name 'document'";
   "Cannot find name 'HTMLElement'";
   "Cannot find name 'HTMLInputElement'";
   "Cannot find name 'window'";
   "Cannot find name 'Element'"].

Definition pathMappingErrors : list string :=
  ["Cannot find module '@pages'";
   "Cannot find module '@utils'";
   "Cannot find module '@/'"].

(** [shouldIgnoreDiagnostic(message, content)] *)
Definition shouldIgnoreDiagnostic (message content : string) : bool :=
  let pathMapping :=
    if JS.some (fun error => JS.includes message error) pathMappingErrors
    then true else false in
  if JS.some (fun error => JS.includes message error) domErrors then
    let hasDOMUsage :=
      JS.includes content "document." || JS.includes content "window."
      || JS.includes content "HTMLElement"
      || JS.includes content "HTMLInputElement" in
    if negb hasDOMUsage then true else pathMapping
  else pathMapping.

(** [diagnostics.forEach(diagnostic => ...)]: the errors pushed. *)
Definition forEach_diagnostic (diagnostics : list Diagnostic.t)
  (content : string) : list SyntaxError.t :=
  flat_map
    (fun diagnostic =>
       match Diagnostic.position diagnostic with
       | Some (line, character) =>
           if shouldIgnoreDiagnostic (Diagnostic.message diagnostic) content
           then []
           else [SyntaxError.mk (line + 1) (character + 1)
                   (Diagnostic.message diagnostic) Severity.error
                   (Diagnostic.code diagnostic)]
       | None => []
       end)
    diagnostics.

Section Compiler.

(** The calls of the compiler API up to [ts.getPreEmitDiagnostics(program)]
    on the text of a file: the diagnostics, or the exception thrown. *)
Variable getPreEmitDiagnostics : string -> outcome (list Diagnostic.t).

(** [analyzeSyntaxErrors(content)] *)
Definition analyzeSyntaxErrors (content : string) : list SyntaxError.t :=
  match getPreEmitDiagnostics content with
  | Returned diagnostics => forEach_diagnostic diagnostics content
  | Thrown error =>
      [SyntaxError.mk 1 1
         ("TypeScript compilation failed: " ++ error_toString error)
         Severity.error (-1)]
  end.

End Compiler.

End AgentGSyntax.

Definition not_quote (c : ascii) : bool := negb (Ascii.eqb c "'").

Definition declarations_tail : string :=
  " or its corresponding type declarations.".

(** The text of the compiler's diagnostic for an import that does not
    resolve. *)
Definition module_not_found (specifier : string) : string :=
  "Cannot find module '" ++ specifier ++ "'" ++ declarations_tail.

(** A compiler that reports one unresolved import and one type error on
    every file. *)
Definition two_diagnostics : string -> outcome (list Diagnostic.t) :=
  fun _ =>
    Returned
      [Diagnostic.mk (Some (0, 9)%Z) (module_not_found "@pages/SignInPage") 2307;
       Diagnostic.mk (Some (4, 2)%Z)
                     "Type 'number' is not assignable to type 'string'." 2322].

(* ================================================================== *)
(** ** Agent G: the prioritized actions of the report *)

Module Priority.
Inductive t : Type := high | medium | low.
End Priority.

Module Effort.
Inductive t : Type := low | medium | high.
End Effort.

Module ActionImpact.
Inductive t : Type := blocking | functional | optimization.
End ActionImpact.

Module PrioritizedAction.
Inductive kind : Type := syntax_error | api_error | performance | maintainability.
Record t : Type := mk {
  priority : Priority.t;
  type : kind;
  filename : string;
  line : Z;
  description : string;
  estimatedEffort : Effort.t;
  impact : ActionImpact.t
}.
End PrioritizedAction.

Module AgentGReport.

(** [xs.sort(compare)]. The sort of the language is stable, and for a
    comparator that is a weak order every stable sort returns the same
    array; it is written here as an insertion sort, where an element
    moves behind another one only when [compare] is positive. *)
Fixpoint insert {A : Type} (compare : A -> A -> Z) (x : A) (sorted : list A)
  : list A :=
  match sorted with
  | [] => [x]
  | y :: rest =>
      if (compare x y <=? 0)%Z then x :: y :: rest
      else y :: insert compare x rest
  end.

Definition sort {A : Type} (compare : A -> A -> Z) (xs : list A) : list A :=
  fold_right (insert compare) [] xs.

Definition priorityOrder (p : Priority.t) : Z :=
  match p with
  | Priority.high => 3
  | Priority.medium => 2
  | Priority.low => 1
  end.

(** The actions pushed by the first loop for one analysis. *)
Definition syntax_actions (result : TestAnalysisResult.t)
  : list PrioritizedAction.t :=
  map (fun error =>
         PrioritizedAction.mk Priority.high PrioritizedAction.syntax_error
           (TestAnalysisResult.filename result) (SyntaxError.line error)
           (SyntaxError.message error) Effort.low ActionImpact.blocking)
      (TestAnalysisResult.syntaxErrors result).

(** The actions pushed by the second loop for one analysis. *)
Definition api_actions (result : TestAnalysisResult.t)
  : list PrioritizedAction.t :=
  map (fun issue =>
         PrioritizedAction.mk Priority.medium PrioritizedAction.api_error
           (TestAnalysisResult.filename result) (PlaywrightAPIIssue.line issue)
           (PlaywrightAPIIssue.message issue) Effort.medium
           ActionImpact.functional)
      (filter (fun i => Severity.eqb (PlaywrightAPIIssue.severity i) Severity.error)
              (TestAnalysisResult.playwrightApiIssues result)).

(** The actions pushed by the third loop for one analysis. *)
Definition performance_actions (result : TestAnalysisResult.t)
  : list PrioritizedAction.t :=
  map (fun issue =>
         PrioritizedAction.mk Priority.low PrioritizedAction.performance
           (TestAnalysisResult.filename result) (PerformanceIssue.line issue)
           (PerformanceIssue.message issue) Effort.low
           ActionImpact.optimization)
      (TestAnalysisResult.performanceIssues result).

(** [generatePrioritizedActions(analysisResults)] *)
Definition generatePrioritizedActions (analysisResults : list TestAnalysisResult.t)
  : list PrioritizedAction.t :=
  let actions :=
    (flat_map syntax_actions analysisResults
     ++ flat_map api_actions analysisResults
     ++ flat_map performance_actions analysisResults)%list in
  sort (fun a b =>
          (priorityOrder (PrioritizedAction.priority b)
           - priorityOrder (PrioritizedAction.priority a))%Z)
       actions.

End AgentGReport.

Definition has_priority (p : Priority.t) (a : PrioritizedAction.t) : Prop :=
  PrioritizedAction.priority a = p.

(** The number of entries [f] selects over all analyses. *)
Definition total_over {A : Type} (f : TestAnalysisResult.t -> list A)
  (results : list TestAnalysisResult.t) : nat :=
  list_sum (map (fun r => List.length (f r)) results).

Definition error_api_issues (r : TestAnalysisResult.t) : list PlaywrightAPIIssue.t :=
  filter (fun i => Severity.eqb (PlaywrightAPIIssue.severity i) Severity.error)
         (TestAnalysisResult.playwrightApiIssues r).

(* ================================================================== *)
(** ** Agent C with the protocol server ([MCPEnhancedAgentC]) *)

Module MCPAgentC.

Definition NL : string := AgentCFallback.NL.

(** [generateFilename(scenario)]: the chain of calls of
    [LangChainAgentC.generateFilename]. *)
Definition generateFilename (scenario : ValidatedScenario.t) : outcome string :=
  AgentC.generateFilename scenario.

(** [cleanResponse(response)] *)
Definition cleanResponse (response : string) : string :=
  JS.trim
    (JS.strip_marker "```"
       (JS.strip_marker "```ts"
          (JS.strip_marker "```typescript" response))).

(** [steps.map((step, i) => `${i + 1}. ${step}`)] from index [i]. *)
Fixpoint numbered (steps : list value) (i : nat) : list string :=
  match steps with
  | [] => []
  | step :: rest =>
      (JS.string_of_nat (i + 1) ++ ". " ++ Value.toString step)
        :: numbered rest (S i)
  end.

(** [scenario.api_endpoints.join('\n')] *)
Definition join_endpoints (v : value) : outcome string :=
  match v with
  | VArray xs => Returned (Value.join NL xs)
  | VUndefined =>
      Thrown (TypeError "Cannot read properties of undefined (reading 'join')")
  | VNull =>
      Thrown (TypeError "Cannot read properties of null (reading 'join')")
  | _ => Thrown (TypeError "scenario.api_endpoints.join is not a function")
  end.

(** [createMCPPrompt(scenario)] *)
Definition createMCPPrompt (scenario : ValidatedScenario.t) : outcome string :=
  let steps := JS.join NL (numbered (ValidatedScenario.steps scenario) 0) in
  match AgentCFallback.entries (ValidatedScenario.selectors scenario) with
  | Thrown e => Thrown e
  | Returned es =>
      let selectors :=
        JS.join NL
          (map (fun ns : string * value =>
                  fst ns ++ ": " ++ Value.toString (snd ns)) es) in
      match join_endpoints (ValidatedScenario.api_endpoints scenario) with
      | Thrown e => Thrown e
      | Returned endpoints =>
          Returned
            ("Generate a Playwright TypeScript test that FOLLOWS THE EXACT STEPS from this scenario:"
             ++ NL ++ NL
             ++ "CRITICAL: Implement EACH ACTION specified in the scenario steps - do not create generic tests."
             ++ NL ++ NL
             ++ "Title: " ++ Value.toString (ValidatedScenario.title scenario) ++ NL
             ++ "Type: " ++ ScenarioType_name (ValidatedScenario.type scenario) ++ NL
             ++ "Device: " ++ Value.toString (ValidatedScenario.device scenario) ++ NL
             ++ "Description: "
             ++ Value.toString (ValidatedScenario.description scenario) ++ NL
             ++ "Expected Outcome: "
             ++ Value.toString (ValidatedScenario.expected_outcome scenario) ++ NL
             ++ NL
             ++ "SCENARIO IMPLEMENTATION RULES:" ++ NL
             ++ "- READ each step carefully and implement ALL actions" ++ NL
             ++ "- If step says " ++ JS.DQUOTE ++ "clicks on Credit" ++ JS.DQUOTE
             ++ " - you MUST include that click action" ++ NL
             ++ "- If step says " ++ JS.DQUOTE ++ "clicks on Free Credit Report link"
             ++ JS.DQUOTE ++ " - you MUST include that click action  " ++ NL
             ++ "- If step says " ++ JS.DQUOTE ++ "views information page" ++ JS.DQUOTE
             ++ " - you MUST verify that page content" ++ NL
             ++ "- DO NOT create generic homepage tests - follow the exact user journey"
             ++ NL ++ NL
             ++ "Steps:" ++ NL ++ steps ++ NL ++ NL
             ++ "Available Selectors:" ++ NL ++ selectors ++ NL ++ NL
             ++ "API Endpoints:" ++ NL ++ endpoints ++ NL ++ NL
             ++ "Requirements:" ++ NL
             ++ "- Use https://www.experian.com as base URL" ++ NL
             ++ "- Include proper error handling" ++ NL
             ++ "- Add meaningful assertions" ++ NL
             ++ "- Use device-specific configuration if mobile" ++ NL
             ++ "- Include TODO comments for customization" ++ NL
             ++ "- Generate ONLY valid TypeScript code" ++ NL
             ++ "- NO explanatory text after code blocks")
      end
  end.

(** [generateMCPValidatedTestContent(scenario)]; [reply] maps the prompt
    to the outcome of the call [this.llmClient.generateResponse(...)]. *)
Definition generateMCPValidatedTestContent (reply : string -> outcome string)
  (scenario : ValidatedScenario.t) : outcome string :=
  match createMCPPrompt scenario with
  | Thrown e => Thrown e
  | Returned mcpEnhancedPrompt =>
      match reply mcpEnhancedPrompt with
      | Thrown e => Thrown e
      | Returned response => Returned (cleanResponse response)
      end
  end.

(** [validateSyntaxWithMCP(testContent)] *)
Definition validateSyntaxWithMCP (testContent : string) : string := testContent.

(** [validateWithMCP(testContent, scenario)]: the prompt and the scenario
    built first are not used, and building them does not throw on an
    array of steps. *)
Definition validateWithMCP (testContent : string) (scenario : ValidatedScenario.t)
  : string :=
  let correctedContent := validateSyntaxWithMCP testContent in
  if negb (String.eqb correctedContent EmptyString) then correctedContent
  else testContent.

Section Generate.

(** [validateAndFixPlaywrightSyntax(content)], a chain of replacements by
    regular expressions. *)
Variable validateAndFixPlaywrightSyntax : string -> string.

(** [generateSingleTest(scenario)]; [first] and [second] answer the call
    of the model in the [try] block and the one in the [catch] block. *)
Definition generateSingleTest (first second : string -> outcome string)
  (scenario : ValidatedScenario.t) : outcome PlaywrightTest.t :=
  match generateFilename scenario with
  | Thrown e => Thrown e
  | Returned filename =>
      match generateMCPValidatedTestContent first scenario with
      | Returned initialContent =>
          let mcpValidatedContent := validateWithMCP initialContent scenario in
          Returned (PlaywrightTest.mk filename mcpValidatedContent)
      | Thrown _ =>
          match generateMCPValidatedTestContent second scenario with
          | Thrown e => Thrown e
          | Returned content =>
              Returned (PlaywrightTest.mk filename
                          (validateAndFixPlaywrightSyntax content))
          end
      end
  end.

(** [generatePlaywrightTests(validatedScenarios)]; [initialize] and
    [disconnect] are the outcomes of the two calls of the protocol client,
    and [replies] gives the answers of the model for each scenario. *)
Definition generatePlaywrightTests (initialize disconnect : outcome unit)
  (replies : ValidatedScenario.t
             -> (string -> outcome string) * (string -> outcome string))
  (validatedScenarios : list ValidatedScenario.t)
  : outcome (list PlaywrightTest.t) :=
  match initialize with
  | Thrown e => Thrown e
  | Returned _ =>
      match AgentCFallback.map_outcome
              (fun scenario =>
                 generateSingleTest (fst (replies scenario))
                   (snd (replies scenario)) scenario)
              validatedScenarios with
      | Thrown e => Thrown e
      | Returned tests =>
          match disconnect with
          | Thrown e => Thrown e
          | Returned _ => Returned tests
          end
      end
  end.

End Generate.

End MCPAgentC.

(* ================================================================== *)
(** ** The pipeline ([TestGenerator] of [scripts/generate-tests.ts]) *)

Module TestGenerator.

(** [process.env.USE_MCP_AGENT === 'true' || true] *)
Definition useMCP (USE_MCP_AGENT : option string) : bool :=
  match USE_MCP_AGENT with
  | Some flag => String.eqb flag "true"
  | None => false
  end || true.

Section Pipeline.

Variable JSON_parse : string -> outcome value.
Variable kb : KnowledgeBase.t.
Variable greater_than_zero : value -> bool.
Variable validateAndFixPlaywrightSyntax : string -> string.
Variable USE_MCP_AGENT : option string.

(** [fs.writeFileSync(path.join(this.outputDir, filename), content)] *)
Variable writeFileSync : string -> string -> outcome unit.

(** What follows the writing of the files: the analysis of Agent G and
    the summary report. *)
Variable review : list PlaywrightTest.t -> list ValidatedScenario.t -> outcome unit.

(** The loop that writes the files: the names pushed on [writtenFiles]
    and how the loop ended. *)
Fixpoint write_files (playwrightTests : list PlaywrightTest.t)
  : list string * outcome unit :=
  match playwrightTests with
  | [] => ([], Returned tt)
  | test :: rest =>
      match writeFileSync (PlaywrightTest.filename test)
                          (PlaywrightTest.content test) with
      | Thrown e => ([], Thrown e)
      | Returned _ =>
          let (writtenFiles, ended) := write_files rest in
          (PlaywrightTest.filename test :: writtenFiles, ended)
      end
  end.

(** [generateTests(userStoryDescription)]: the names of the files written
    and the outcome of the call. The arguments before the description are
    the answers of the model to the three agents and the outcomes of the
    calls of the protocol client. *)
Definition generateTests (replyA : outcome string)
  (repliesB : TestScenario.t -> outcome string)
  (initialize disconnect : outcome unit)
  (repliesC : ValidatedScenario.t
              -> (string -> outcome string) * (string -> outcome string))
  (repliesC_template : ValidatedScenario.t -> outcome string)
  (userStoryDescription : string) : list string * outcome unit :=
  let userStory := UserStory.mk userStoryDescription None in
  let scenarios := AgentA.expandUserStory JSON_parse replyA userStory in
  let validatedScenarios :=
    AgentB.validateScenarios JSON_parse kb repliesB scenarios in
  let generated :=
    if useMCP USE_MCP_AGENT
    then MCPAgentC.generatePlaywrightTests validateAndFixPlaywrightSyntax
           initialize disconnect repliesC validatedScenarios
    else AgentCFallback.generatePlaywrightTests greater_than_zero
           repliesC_template validatedScenarios in
  match generated with
  | Thrown e => ([], Thrown e)
  | Returned playwrightTests =>
      match write_files playwrightTests with
      | (writtenFiles, Thrown e) => (writtenFiles, Thrown e)
      | (writtenFiles, Returned _) =>
          (writtenFiles, review playwrightTests validatedScenarios)
      end
  end.

End Pipeline.

End TestGenerator.

(** A model that fails whatever the prompt is. *)
Definition model_down (e : js_error) : string -> outcome string :=
  fun _ => Thrown e.

(** A model that answers [response] whatever the prompt is. *)
Definition model_answers (response : string) : string -> outcome string :=
  fun _ => Returned response.

(** A clean-up for the sample runs. *)
Definition keep_content : string -> string := fun content => content.

(** A parser for runs in which nothing is parsed. *)
Definition always_thrown_parse : string -> outcome value :=
  fun _ => Thrown (mkError "SyntaxError" "Unexpected end of JSON input").

(* ================================================================== *)
(** ** The missing-await heuristic in the words of the specification *)

Module AwaitSpec.



End AwaitSpec.

(** ** The score of a file, counted on its lines *)



















(* ================================================================== *)
(** * Properties *)

(** ** Strings *)

Lemma append_assoc (a b c : string) : (a ++ b) ++ c = a ++ (b ++ c).
Proof.
  induction a as [|x a IH]; simpl; [reflexivity | rewrite IH; reflexivity].
Qed.

Lemma append_empty_r (a : string) : a ++ EmptyString = a.
Proof.
  induction a as [|x a IH]; simpl; [reflexivity | rewrite IH; reflexivity].
Qed.

Lemma prefix_iff (t s : string) :
  String.prefix t s = true <-> exists b, s = t ++ b.
Proof.
  revert s. induction t as [|x t IH]; intros s.
  - destruct s; simpl; split; intros; eauto.
  - destruct s as [|y s]; simpl.
    + split; [discriminate | intros [b H]; discriminate].
    + destruct (ascii_dec x y) as [->|N].
      * rewrite IH. split; intros [b H]; exists b; congruence.
      * split; [discriminate | intros [b H]; congruence].
Qed.

(** [includes] decides substring containment. *)
Lemma includes_iff (s t : string) :
  JS.includes s t = true <-> contains s t.
Proof.
  unfold contains. induction s as [|x s IH].
  - cbn [JS.includes]. rewrite orb_false_r, prefix_iff. split.
    + intros [b H]. exists EmptyString, b. exact H.
    + intros (a & b & H). destruct a; [exists b; exact H|discriminate].
  - cbn [JS.includes]. rewrite orb_true_iff, IH, prefix_iff. split.
    + intros [[b H]|(a & b & H)].
      * exists EmptyString, b. exact H.
      * exists (String x a), b. simpl. congruence.
    + intros (a & b & H). destruct a as [|y a].
      * left. exists b. exact H.
      * right. exists a, b. simpl in H. congruence.
Qed.

Lemma contains_refl (s : string) : contains s s.
Proof.
  exists EmptyString, EmptyString. simpl. rewrite append_empty_r. reflexivity.
Qed.

Lemma contains_app_l (p s t : string) : contains s t -> contains (p ++ s) t.
Proof.
  intros (a & b & ->). exists (p ++ a), b. rewrite append_assoc. reflexivity.
Qed.

Lemma contains_app_r (s q t : string) : contains s t -> contains (s ++ q) t.
Proof.
  intros (a & b & ->). exists a, (b ++ q). rewrite !append_assoc. reflexivity.
Qed.

(** A joined list contains each of its elements. *)
Lemma join_contains (sep : string) (xs : list string) (x : string) :
  In x xs -> contains (JS.join sep xs) x.
Proof.
  unfold JS.join. induction xs as [|y ys IH]; [intros []|].
  intros [->|H].
  - destruct ys; [apply contains_refl|].
    cbn [String.concat]. apply contains_app_r, contains_refl.
  - destruct ys as [|z zs]; [destruct H|].
    cbn [String.concat]. do 2 apply contains_app_l. apply IH, H.
Qed.

Lemma all_chars_app (p : ascii -> bool) (a b : string) :
  all_chars p (a ++ b) = all_chars p a && all_chars p b.
Proof.
  induction a as [|c a IH]; simpl; [reflexivity|].
  rewrite IH. apply andb_assoc.
Qed.

(** ** Agent A *)







(** ** Validation of a parsed scenario *)

Lemma type_of_value_name (t : ScenarioType) :
  AgentA.type_of_value (VString (ScenarioType_name t)) = Some t.
Proof.
  destruct t; reflexivity.
Qed.

Lemma type_of_value_some (v : value) (t : ScenarioType) :
  AgentA.type_of_value v = Some t -> v = VString (ScenarioType_name t).
Proof.
  destruct v; try discriminate. unfold AgentA.type_of_value. intros H.
  apply find_some in H. destruct H as [_ H].
  apply String.eqb_eq in H. congruence.
Qed.

Lemma complete_no_missing (scenario : value) :
  complete scenario -> missing_fields scenario = [].
Proof.
  unfold complete, missing_fields.
  induction AgentA.requiredFields as [|f fs IH]; intros C; [reflexivity|].
  simpl. rewrite (C f) by (left; reflexivity). simpl.
  apply IH. intros g G. apply C. right. exact G.
Qed.

Lemma complete_object (scenario : value) :
  complete scenario -> exists props, scenario = VObject props.
Proof.
  intros C. specialize (C "title" (or_introl eq_refl)).
  destruct scenario; try discriminate C. eauto.
Qed.

(** C8. [validateScenario] on a parsed scenario. If every required field
    is present: the scenario is accepted with its title, description and
    expected outcome; a [type] among the four kinds is kept and any other
    value becomes [positive]; [steps] is kept when it is an array and
    otherwise becomes the one-element array holding it; [device] is kept
    when given and otherwise is [mobile] for a cross-device scenario and
    [desktop] for the others. If some required field is missing, an error
    is thrown whose message lists the missing fields, each by its name. *)
Theorem C8_validate_scenario (scenario : value) (index : nat) :
  (complete scenario ->
   exists r,
     AgentA.validateScenario scenario index = Returned r /\
     TestScenario.title r = Value.get scenario "title" /\
     TestScenario.description r = Value.get scenario "description" /\
     TestScenario.expected_outcome r = Value.get scenario "expected_outcome" /\
     (forall t, Value.get scenario "type" = VString (ScenarioType_name t) ->
                TestScenario.type r = t) /\
     ((forall t, Value.get scenario "type" <> VString (ScenarioType_name t)) ->
      TestScenario.type r = positive) /\
     (forall xs, Value.get scenario "steps" = VArray xs ->
                 TestScenario.steps r = xs) /\
     ((forall xs, Value.get scenario "steps" <> VArray xs) ->
      TestScenario.steps r = [Value.get scenario "steps"]) /\
     (Value.truthy (Value.get scenario "device") = true ->
      TestScenario.device r = Value.get scenario "device") /\
     (Value.truthy (Value.get scenario "device") = false ->
      TestScenario.device r
      = VString (match TestScenario.type r with
                 | cross_device => "mobile"
                 | _ => "desktop"
                 end)))
  /\
  (scenario <> VNull -> scenario <> VUndefined ->
   missing_fields scenario <> [] ->
   exists message,
     AgentA.validateScenario scenario index = Thrown (Error message) /\
     message = "Scenario " ++ JS.string_of_nat index ++ " missing fields: "
               ++ JS.join ", " (missing_fields scenario) /\
     (forall field,
         In field AgentA.requiredFields ->
         Value.truthy (Value.get scenario field) = false ->
         JS.includes message field = true)).
Proof.
  split.
  - intros C.
    destruct (complete_object _ C) as [props ->].
    pose proof (complete_no_missing _ C) as M. unfold missing_fields in M.
    pose proof (C "steps" (or_intror (or_intror (or_intror (or_introl eq_refl)))))
      as St.
    unfold AgentA.validateScenario. rewrite M. cbn [List.length Nat.ltb Nat.leb].
    cbv zeta. eexists. split; [reflexivity|].
    cbn [TestScenario.title TestScenario.description TestScenario.expected_outcome
         TestScenario.type TestScenario.steps TestScenario.device].
    repeat match goal with |- _ /\ _ => split end; try reflexivity.
    + intros t E. rewrite E, type_of_value_name. reflexivity.
    + intros N.
      destruct (AgentA.type_of_value (Value.get (VObject props) "type")) as [t|] eqn:E;
        [|reflexivity].
      apply type_of_value_some in E. destruct (N t E).
    + intros xs E. rewrite E. reflexivity.
    + intros N.
      destruct (Value.get (VObject props) "steps") as [| |b|n|s|xs|ps] eqn:E;
        try discriminate St;
        try (simpl; simpl in St; rewrite ?St; reflexivity).
      destruct (N xs eq_refl).
    + intros T. unfold Value.or_else. rewrite T. reflexivity.
    + intros T. unfold Value.or_else. rewrite T.
      destruct (match AgentA.type_of_value _ with Some t => t | None => positive end);
        reflexivity.
  - intros N1 N2 M. eexists. split; [|split; [reflexivity|]].
    + unfold AgentA.validateScenario. fold (missing_fields scenario).
      destruct (missing_fields scenario) as [|f fs] eqn:E; [destruct (M eq_refl)|].
      destruct scenario; try congruence; reflexivity.
    + intros field I F. apply includes_iff.
      rewrite <- !append_assoc. apply contains_app_l, join_contains.
      unfold missing_fields. apply filter_In. split; [exact I|].
      rewrite F. reflexivity.
Qed.

Lemma C8_witness :
  (exists r,
      AgentA.validateScenario sample_scenario 0 = Returned r /\
      TestScenario.type r = positive /\
      TestScenario.device r = VString "desktop") /\
  (exists message,
      AgentA.validateScenario incomplete_scenario 2 = Thrown (Error message) /\
      JS.includes message "type" = true /\
      JS.includes message "description" = true).
Proof.
  split.
  - destruct (proj1 (C8_validate_scenario sample_scenario 0))
      as (r & E & _ & _ & _ & T & _ & _ & _ & _ & D).
    + intros field I. simpl in I.
      repeat (destruct I as [<-|I]; [reflexivity|]). destruct I.
    + exists r. split; [exact E|].
      assert (TestScenario.type r = positive) as Ty by (apply T; reflexivity).
      split; [exact Ty|]. rewrite (D eq_refl), Ty. reflexivity.
  - destruct (proj2 (C8_validate_scenario incomplete_scenario 2))
      as (message & E & _ & I); try discriminate.
    exists message. split; [exact E|].
    split; apply I; simpl; auto.
Defined.

(** ** Retrieval matching *)

Lemma assign_keys (key v : string) (relevant : list (string * string)) (x : string) :
  In x (keys (Retriever.assign key v relevant)) <-> x = key \/ In x (keys relevant).
Proof.
  unfold keys. induction relevant as [|[k old] rest IH]; simpl.
  - intuition congruence.
  - destruct (String.eqb_spec k key) as [->|N]; simpl.
    + intuition congruence.
    + rewrite IH. intuition congruence.
Qed.

Section SelectorScan.

Let hit := fun category name selector relevant =>
             Retriever.assign (category ++ "." ++ name) selector relevant.

Lemma scan_names_keys keyword category entries : forall acc x,
  In x (keys (Retriever.scan_names hit keyword category entries acc)) <->
  In x (keys acc) \/
  exists name selector,
    In (name, selector) entries /\
    Retriever.matches keyword category name = true /\
    x = selector_key category name.
Proof.
  induction entries as [|[name selector] rest IH]; intros acc x; simpl.
  - split; [auto | intros [H|(n & s & [] & _)]; exact H].
  - rewrite IH. destruct (Retriever.matches keyword category name) eqn:M.
    + unfold hit at 1. rewrite assign_keys. split.
      * intros [[->|H]|(n & s & I & Mn & ->)].
        -- right. exists name, selector. auto.
        -- left. exact H.
        -- right. exists n, s. auto.
      * intros [H|(n & s & [E|I] & Mn & ->)].
        -- left. right. exact H.
        -- injection E as <- <-. left. left. reflexivity.
        -- right. exists n, s. auto.
    + split.
      * intros [H|(n & s & I & Mn & ->)].
        -- left. exact H.
        -- right. exists n, s. auto.
      * intros [H|(n & s & [E|I] & Mn & ->)].
        -- left. exact H.
        -- injection E as <- <-. congruence.
        -- right. exists n, s. auto.
Qed.

Lemma scan_categories_keys keyword cat : forall acc x,
  In x (keys (Retriever.scan_categories hit keyword cat acc)) <->
  In x (keys acc) \/
  exists category entries name selector,
    In (category, entries) cat /\ In (name, selector) entries /\
    Retriever.matches keyword category name = true /\
    x = selector_key category name.
Proof.
  induction cat as [|[category entries] rest IH]; intros acc x; simpl.
  - split; [auto | intros [H|(c & es & n & s & [] & _)]; exact H].
  - rewrite IH, scan_names_keys. split.
    + intros [[H|(n & s & I & M & ->)]|(c & es & n & s & I & J & M & ->)].
      * left. exact H.
      * right. exists category, entries, n, s. auto.
      * right. exists c, es, n, s. auto.
    + intros [H|(c & es & n & s & [E|I] & J & M & ->)].
      * left. left. exact H.
      * injection E as <- <-. left. right. exists n, s. auto.
      * right. exists c, es, n, s. auto.
Qed.

Lemma scan_keywords_keys keywords cat : forall acc x,
  In x (keys (Retriever.scan_keywords hit keywords cat acc)) <->
  In x (keys acc) \/
  exists keyword category entries name selector,
    In keyword keywords /\
    In (category, entries) cat /\ In (name, selector) entries /\
    Retriever.matches keyword category name = true /\
    x = selector_key category name.
Proof.
  induction keywords as [|keyword rest IH]; intros acc x; simpl.
  - split; [auto | intros [H|(k & c & es & n & s & [] & _)]; exact H].
  - rewrite IH, scan_categories_keys. split.
    + intros [[H|(c & es & n & s & I & J & M & ->)]
             |(k & c & es & n & s & K & I & J & M & ->)].
      * left. exact H.
      * right. exists keyword, c, es, n, s. auto.
      * right. exists k, c, es, n, s. auto.
    + intros [H|(k & c & es & n & s & [<-|K] & I & J & M & ->)].
      * left. left. exact H.
      * left. right. exists c, es, n, s. auto.
      * right. exists k, c, es, n, s. auto.
Qed.

End SelectorScan.

(** C5, as the code has it. The keyword [signin] does not match the entry
    (category [forms], name [sign_in]): names are compared as they are
    stored, nothing strips their punctuation, and the retriever returns no
    locator for it. The keyword [xyz] does not match that entry either.
    In general an entry (category, name) matches a keyword exactly when,
    for the lower-cased keyword k, name contains k, category contains k,
    k contains name, or k contains category; and the keys returned by
    [findRelevantSelectors] are those of the entries some keyword
    matches. *)
Theorem C5_matching_rule :
  Retriever.matches "signin" "forms" "sign_in" = false /\
  Retriever.findRelevantSelectors forms_kb ["signin"] = [] /\
  Retriever.matches "xyz" "forms" "sign_in" = false /\
  (forall keyword category name,
      Retriever.matches keyword category name = true <->
      contains name (JS.toLowerCase keyword) \/
      contains category (JS.toLowerCase keyword) \/
      contains (JS.toLowerCase keyword) name \/
      contains (JS.toLowerCase keyword) category) /\
  (forall kb keywords key,
      In key (keys (Retriever.findRelevantSelectors kb keywords)) <->
      exists keyword category entries name selector,
        In keyword keywords /\
        In (category, entries) (KnowledgeBase.selectors kb) /\
        In (name, selector) entries /\
        Retriever.matches keyword category name = true /\
        key = selector_key category name).
Proof.
  refine (conj eq_refl (conj eq_refl (conj eq_refl (conj _ _)))).
  - intros keyword category name. unfold Retriever.matches.
    rewrite !orb_true_iff, !includes_iff. tauto.
  - intros kb keywords key. unfold Retriever.findRelevantSelectors.
    rewrite scan_keywords_keys. simpl. tauto.
Qed.

(** The claim C5 as it is written fails: the keyword [signin] does not
    match the entry (category [forms], name [sign_in]), and retrieval with
    that keyword returns no locator. *)
Lemma C5_counterexample :
  Retriever.matches "signin" "forms" "sign_in" = false /\
  keys (Retriever.findRelevantSelectors forms_kb ["signin"]) = [].
Proof.
  split; reflexivity.
Qed.

(** ** Agent B *)

(** C10. On the model path and on the fallback path alike, the validated
    scenario is the input scenario extended with [selectors],
    [api_endpoints] and [validation_notes]: its title, type, description,
    steps, expected outcome and device are those of the input. *)
Theorem C10_validation_preserves_scenario
  (JSON_parse : string -> outcome value) (kb : KnowledgeBase.t)
  (reply : outcome string) (scenario : TestScenario.t) :
  let v := AgentB.validateScenario JSON_parse kb reply scenario in
  v = AgentB.extend scenario (ValidatedScenario.selectors v)
        (ValidatedScenario.api_endpoints v)
        (ValidatedScenario.validation_notes v) /\
  ValidatedScenario.title v = TestScenario.title scenario /\
  ValidatedScenario.type v = TestScenario.type scenario /\
  ValidatedScenario.description v = TestScenario.description scenario /\
  ValidatedScenario.steps v = TestScenario.steps scenario /\
  ValidatedScenario.expected_outcome v = TestScenario.expected_outcome scenario /\
  ValidatedScenario.device v = TestScenario.device scenario.
Proof.
  unfold AgentB.validateScenario.
  destruct reply as [response|e].
  - destruct (AgentB.parseValidationResponse JSON_parse response) as [validation|e];
      cbv zeta; repeat split.
  - cbv zeta; repeat split.
Qed.

(** ** File names *)

Lemma length_append (a b : string) :
  String.length (a ++ b) = (String.length a + String.length b)%nat.
Proof.
  induction a as [|x a IH]; simpl; [reflexivity | rewrite IH; reflexivity].
Qed.

Lemma append_cancel_r (a b x : string) : a ++ x = b ++ x -> a = b.
Proof.
  intros H.
  assert (String.length a = String.length b) as L.
  { apply (f_equal String.length) in H. rewrite !length_append in H. lia. }
  revert b H L. induction a as [|c a IH]; intros [|d b] H L; try discriminate L.
  - reflexivity.
  - simpl in H. injection H as -> H. f_equal. apply IH; [exact H|].
    simpl in L. lia.
Qed.

(** Decides a goal about the character classes from the facts on the
    code of the character. *)
Ltac class_facts :=
  unfold filename_char, AgentC.not_filename_char, JS.is_space, JS.is_upper,
    JS.is_lower, JS.is_digit, JS.between in *;
  repeat match goal with
         | |- context [(?a <=? ?b)%nat] => destruct (Nat.leb_spec a b)
         | |- context [(?a =? ?b)%nat] => destruct (Nat.eqb_spec a b)
         | H : context [(?a <=? ?b)%nat] |- _ => destruct (Nat.leb_spec a b)
         | H : context [(?a =? ?b)%nat] |- _ => destruct (Nat.eqb_spec a b)
         end;
  simpl in *; try reflexivity; try discriminate; try lia.

Lemma is_hyphen_eq (c : ascii) : AgentC.is_hyphen c = true -> c = "-"%char.
Proof.
  apply Ascii.eqb_eq.
Qed.

Lemma filename_char_classes (c : ascii) :
  filename_char c = true ->
  JS.is_upper c = false /\ JS.is_space c = false /\
  AgentC.not_filename_char c = false.
Proof.
  destruct (AgentC.is_hyphen c) eqn:Hy.
  - apply is_hyphen_eq in Hy. subst c. intros _. repeat split.
  - intros H. unfold filename_char, AgentC.not_filename_char in *.
    rewrite Hy in *. repeat split; class_facts.
Qed.

Lemma normal_from_chars (b : bool) (s : string) :
  normal_from b s = true ->
  match s with
  | EmptyString => True
  | String c s' =>
      filename_char c = true /\ (b && AgentC.is_hyphen c = false) /\
      normal_from (AgentC.is_hyphen c) s' = true
  end.
Proof.
  destruct s as [|c s']; simpl; [trivial|].
  rewrite !andb_true_iff, negb_true_iff. tauto.
Qed.

Lemma toLowerCase_normal (s : string) : forall b,
  normal_from b s = true -> JS.toLowerCase s = s.
Proof.
  induction s as [|c s IH]; intros b H; [reflexivity|].
  apply normal_from_chars in H. destruct H as (F & _ & N).
  apply filename_char_classes in F. destruct F as (U & _ & _).
  simpl. unfold JS.lower_char. rewrite U. f_equal. eapply IH, N.
Qed.

Lemma remove_class_normal (s : string) : forall b,
  normal_from b s = true -> JS.remove_class AgentC.not_filename_char s = s.
Proof.
  induction s as [|c s IH]; intros b H; [reflexivity|].
  apply normal_from_chars in H. destruct H as (F & _ & N).
  apply filename_char_classes in F. destruct F as (_ & _ & R).
  simpl. rewrite R. f_equal. eapply IH, N.
Qed.

Lemma collapse_space_normal (s : string) : forall b r,
  normal_from b s = true -> JS.collapse_from JS.is_space "-" r s = s.
Proof.
  induction s as [|c s IH]; intros b r H; [reflexivity|].
  apply normal_from_chars in H. destruct H as (F & _ & N).
  apply filename_char_classes in F. destruct F as (_ & Sp & _).
  simpl. rewrite Sp. f_equal. eapply IH, N.
Qed.

Lemma collapse_hyphen_normal (s : string) : forall b,
  normal_from b s = true -> JS.collapse_from AgentC.is_hyphen "-" b s = s.
Proof.
  induction s as [|c s IH]; intros b H; [reflexivity|].
  apply normal_from_chars in H. destruct H as (_ & D & N).
  simpl. destruct (AgentC.is_hyphen c) eqn:Hy.
  - rewrite andb_true_r in D. subst b.
    apply is_hyphen_eq in Hy. subst c. f_equal. apply IH, N.
  - f_equal. apply IH, N.
Qed.

Lemma trimEnd_normal (s : string) : forall b,
  normal_from b s = true -> JS.trimEnd s = s.
Proof.
  induction s as [|c s IH]; intros b H; [reflexivity|].
  apply normal_from_chars in H. destruct H as (F & _ & N).
  apply filename_char_classes in F. destruct F as (_ & Sp & _).
  simpl. rewrite (IH _ N), Sp. destruct s; reflexivity.
Qed.

Lemma trim_normal (s : string) : normal_title s = true -> JS.trim s = s.
Proof.
  intros H. unfold JS.trim.
  assert (JS.trimStart s = s) as ->.
  { destruct s as [|c s]; [reflexivity|].
    apply normal_from_chars in H. destruct H as (F & _ & _).
    apply filename_char_classes in F. destruct F as (_ & Sp & _).
    simpl. rewrite Sp. reflexivity. }
  eapply trimEnd_normal, H.
Qed.

(** A title in normal form is its own sanitized form. *)
Lemma sanitize_normal (title : string) :
  normal_title title = true -> AgentC.sanitize title = title.
Proof.
  intros H. unfold AgentC.sanitize, JS.collapse_runs.
  rewrite (toLowerCase_normal _ _ H), (remove_class_normal _ _ H),
    (collapse_space_normal _ _ _ H), (collapse_hyphen_normal _ _ H).
  apply trim_normal, H.
Qed.

Lemma remove_class_all (cls : ascii -> bool) (s : string) :
  all_chars (fun c => negb (cls c)) (JS.remove_class cls s) = true.
Proof.
  induction s as [|c s IH]; [reflexivity|].
  simpl. destruct (cls c) eqn:E; [exact IH|].
  simpl. rewrite E, IH. reflexivity.
Qed.

Lemma collapse_space_all (s : string) : forall r,
  all_chars (fun c => negb (AgentC.not_filename_char c)) s = true ->
  all_chars filename_char (JS.collapse_from JS.is_space "-" r s) = true.
Proof.
  induction s as [|c s IH]; intros r H; [reflexivity|].
  simpl in H. apply andb_true_iff in H. destruct H as [A H].
  simpl. destruct (JS.is_space c) eqn:Sp.
  - destruct r; simpl; apply IH, H.
  - simpl. rewrite (IH _ H), andb_true_r.
    unfold AgentC.not_filename_char in A. rewrite Sp, negb_involutive in A.
    unfold filename_char. rewrite orb_false_r in A. exact A.
Qed.

Lemma collapse_hyphen_is_normal (s : string) : forall b,
  all_chars filename_char s = true ->
  normal_from b (JS.collapse_from AgentC.is_hyphen "-" b s) = true.
Proof.
  induction s as [|c s IH]; intros b H; [reflexivity|].
  simpl in H. apply andb_true_iff in H. destruct H as [F H].
  simpl. destruct (AgentC.is_hyphen c) eqn:Hy.
  - destruct b; [apply IH, H|].
    simpl. apply IH, H.
  - simpl. rewrite F, Hy, andb_false_r. simpl. apply IH, H.
Qed.

(** A sanitized title is made of [a-z], [0-9] and single hyphens. *)
Lemma sanitize_is_normal (title : string) :
  normal_title (AgentC.sanitize title) = true.
Proof.
  unfold AgentC.sanitize, JS.collapse_runs.
  set (t := JS.collapse_from AgentC.is_hyphen "-" false _).
  assert (normal_title t = true) as N.
  { apply collapse_hyphen_is_normal, collapse_space_all, remove_class_all. }
  rewrite (trim_normal _ N). exact N.
Qed.

(** The chain of replacements without the final [trim], which finds no
    white space left. *)
Lemma sanitize_untrimmed (title : string) :
  AgentC.sanitize title
  = JS.collapse_from AgentC.is_hyphen "-" false
      (JS.collapse_from JS.is_space "-" false
         (JS.remove_class AgentC.not_filename_char (JS.toLowerCase title))).
Proof.
  unfold AgentC.sanitize, JS.collapse_runs.
  apply trim_normal.
  apply collapse_hyphen_is_normal, collapse_space_all, remove_class_all.
Qed.

(** How the code and the rule sort one character. *)
Lemma character_sorts (c : ascii) :
  let c' := JS.lower_char c in
  (FilenameRule.is_letter_or_digit c = true /\
   FilenameRule.lower c = c' /\
   AgentC.not_filename_char c' = false /\
   JS.is_space c' = false /\ AgentC.is_hyphen c' = false)
  \/
  (FilenameRule.is_letter_or_digit c = false /\
   FilenameRule.is_separator c = true /\
   AgentC.not_filename_char c' = false /\
   JS.is_space c' = true)
  \/
  (FilenameRule.is_letter_or_digit c = false /\
   FilenameRule.is_separator c = true /\
   AgentC.not_filename_char c' = false /\
   JS.is_space c' = false /\ AgentC.is_hyphen c' = true)
  \/
  (FilenameRule.is_letter_or_digit c = false /\
   FilenameRule.is_separator c = false /\
   AgentC.not_filename_char c' = true).
Proof.
  destruct c as [[] [] [] [] [] [] [] []]; vm_compute; tauto.
Qed.

Lemma segments_from_not_nil (s : string) : forall cur in_sep,
  FilenameRule.segments_from cur in_sep s <> [].
Proof.
  induction s as [|c s IH]; intros cur in_sep; cbn [FilenameRule.segments_from].
  - discriminate.
  - destruct (FilenameRule.is_letter_or_digit c); [apply IH|].
    destruct (FilenameRule.is_separator c); [|apply IH].
    destruct in_sep; [apply IH|discriminate].
Qed.

Lemma join_cons (sep x : string) (xs : list string) :
  xs <> [] -> JS.join sep (x :: xs) = x ++ sep ++ JS.join sep xs.
Proof.
  destruct xs as [|y xs]; [congruence|]. intros _. reflexivity.
Qed.

(** The chain of replacements of the code, started in the middle of a
    title, gives the segments joined by hyphens. [in_space] and
    [in_hyphen] are the states of the two replacements of runs. *)
Lemma chain_is_join (s : string) : forall cur in_space in_hyphen,
  (in_space = true -> in_hyphen = true) ->
  cur ++ JS.collapse_from AgentC.is_hyphen "-" in_hyphen
           (JS.collapse_from JS.is_space "-" in_space
              (JS.remove_class AgentC.not_filename_char (JS.toLowerCase s)))
  = JS.join "-" (FilenameRule.segments_from cur in_hyphen s).
Proof.
  induction s as [|c s IH]; intros cur in_space in_hyphen Inv.
  - cbn. apply append_empty_r.
  - cbn [JS.toLowerCase JS.remove_class FilenameRule.segments_from].
    destruct (character_sorts c)
      as [(L & Lo & N & Sp & Hy)|[(L & Se & N & Sp)|[(L & Se & N & Sp & Hy)
                                                     |(L & Se & N)]]];
      cbv zeta in *; rewrite L, N.
    + rewrite Lo. cbn [JS.collapse_from]. rewrite Sp. cbn [JS.collapse_from].
      rewrite Hy. rewrite <- IH with (in_space := false) by discriminate.
      rewrite append_assoc. reflexivity.
    + rewrite Se. cbn [JS.collapse_from]. rewrite Sp.
      destruct in_space.
      * rewrite (Inv eq_refl). apply IH. reflexivity.
      * destruct in_hyphen.
        -- cbn [JS.collapse_from]. change (AgentC.is_hyphen "-") with true.
           cbv iota. apply IH. reflexivity.
        -- cbn [JS.collapse_from]. change (AgentC.is_hyphen "-") with true.
           cbv iota. rewrite join_cons by apply segments_from_not_nil.
           rewrite <- IH with (in_space := true) by reflexivity.
           reflexivity.
    + rewrite Se. cbn [JS.collapse_from]. rewrite Sp. cbn [JS.collapse_from].
      rewrite Hy. destruct in_hyphen.
      * apply IH. discriminate.
      * rewrite join_cons by apply segments_from_not_nil.
        rewrite <- IH with (in_space := false) by discriminate.
        reflexivity.
    + rewrite Se. apply IH. exact Inv.
Qed.

(** The sanitized title of the code is the segments of the title joined
    by single hyphens. *)
Lemma sanitize_is_base (title : string) :
  AgentC.sanitize title = FilenameRule.base title.
Proof.
  rewrite sanitize_untrimmed. unfold FilenameRule.base, FilenameRule.segments.
  rewrite <- chain_is_join with (in_space := false) by discriminate.
  reflexivity.
Qed.

Lemma lower_not_hyphen (c : ascii) :
  FilenameRule.is_letter_or_digit c = true ->
  not_hyphen (FilenameRule.lower c) = true.
Proof.
  destruct c as [[] [] [] [] [] [] [] []]; vm_compute; auto.
Qed.

Lemma segments_from_no_hyphen (s : string) : forall cur in_sep,
  all_chars not_hyphen cur = true ->
  Forall (fun w => all_chars not_hyphen w = true)
         (FilenameRule.segments_from cur in_sep s).
Proof.
  induction s as [|c s IH]; intros cur in_sep H; cbn [FilenameRule.segments_from].
  - constructor; [exact H|constructor].
  - destruct (FilenameRule.is_letter_or_digit c) eqn:L.
    + apply IH. rewrite all_chars_app, H. cbn [all_chars].
      rewrite (lower_not_hyphen c L). reflexivity.
    + destruct (FilenameRule.is_separator c); [|apply IH; exact H].
      destruct in_sep; [apply IH; exact H|].
      constructor; [exact H|]. apply IH. reflexivity.
Qed.

(** Two hyphen-free words followed by a hyphen: the first hyphen tells
    where the word ends. *)
Lemma first_hyphen (x : string) : forall y r1 r2,
  all_chars not_hyphen x = true -> all_chars not_hyphen y = true ->
  x ++ String "-" r1 = y ++ String "-" r2 -> x = y /\ r1 = r2.
Proof.
  induction x as [|a x IH]; intros [|b y] r1 r2 Hx Hy E; cbn [append] in E.
  - injection E as E. split; [reflexivity|exact E].
  - injection E as <- _. cbn [all_chars] in Hy. discriminate Hy.
  - injection E as -> _. cbn [all_chars] in Hx. discriminate Hx.
  - injection E as -> E. cbn [all_chars] in Hx, Hy.
    apply andb_true_iff in Hx. apply andb_true_iff in Hy.
    destruct (IH y r1 r2 (proj2 Hx) (proj2 Hy) E) as [-> ->]. split; reflexivity.
Qed.

Lemma no_hyphen_inside (x y r : string) :
  all_chars not_hyphen x = true -> x = y ++ String "-" r -> False.
Proof.
  intros H ->. rewrite all_chars_app in H. apply andb_true_iff in H.
  destruct H as [_ H]. cbn [all_chars] in H. discriminate H.
Qed.

(** Joining hyphen-free words by hyphens loses nothing. *)
Lemma join_hyphen_injective (xs : list string) : forall ys,
  xs <> [] -> ys <> [] ->
  Forall (fun w => all_chars not_hyphen w = true) xs ->
  Forall (fun w => all_chars not_hyphen w = true) ys ->
  JS.join "-" xs = JS.join "-" ys -> xs = ys.
Proof.
  induction xs as [|x xs IH]; intros [|y ys] Nx Ny Fx Fy E; try congruence.
  inversion Fx as [|? ? Hx Fx']. inversion Fy as [|? ? Hy Fy']. subst.
  destruct xs as [|x' xs]; destruct ys as [|y' ys].
  - cbn in E. congruence.
  - exfalso. change (JS.join "-" [x]) with x in E.
    rewrite join_cons in E by discriminate.
    eapply no_hyphen_inside; [exact Hx|exact E].
  - exfalso. change (JS.join "-" [y]) with y in E.
    rewrite join_cons in E by discriminate. symmetry in E.
    eapply no_hyphen_inside; [exact Hy|exact E].
  - rewrite !join_cons in E by discriminate.
    destruct (first_hyphen x y _ _ Hx Hy E) as [-> E'].
    f_equal. apply IH; try discriminate; assumption.
Qed.

Lemma base_injective (t1 t2 : string) :
  FilenameRule.base t1 = FilenameRule.base t2 ->
  FilenameRule.segments t1 = FilenameRule.segments t2.
Proof.
  unfold FilenameRule.base, FilenameRule.segments.
  apply join_hyphen_injective;
    try apply segments_from_not_nil;
    apply segments_from_no_hyphen; reflexivity.
Qed.

Lemma character_sorts_lower (c : ascii) :
  FilenameRule.is_letter_or_digit (JS.lower_char c)
  = FilenameRule.is_letter_or_digit c /\
  FilenameRule.is_separator (JS.lower_char c) = FilenameRule.is_separator c /\
  FilenameRule.lower (JS.lower_char c) = FilenameRule.lower c.
Proof.
  destruct c as [[] [] [] [] [] [] [] []]; vm_compute; auto.
Qed.

(** The segments do not see the case of the letters. *)
Lemma segments_from_toLowerCase (s : string) : forall cur in_sep,
  FilenameRule.segments_from cur in_sep (JS.toLowerCase s)
  = FilenameRule.segments_from cur in_sep s.
Proof.
  induction s as [|c s IH]; intros cur in_sep; [reflexivity|].
  cbn [JS.toLowerCase FilenameRule.segments_from].
  destruct (character_sorts_lower c) as (-> & -> & ->).
  rewrite !IH. reflexivity.
Qed.

(** The segments do not see a character that is neither a letter, a
    digit nor a separator. *)
Lemma segments_from_passes_over (a : string) (c : ascii) (b : string) :
  FilenameRule.is_letter_or_digit c = false ->
  FilenameRule.is_separator c = false ->
  forall cur in_sep,
  FilenameRule.segments_from cur in_sep (a ++ String c b)
  = FilenameRule.segments_from cur in_sep (a ++ b).
Proof.
  intros L Se. induction a as [|d a IH]; intros cur in_sep.
  - cbn [append FilenameRule.segments_from]. rewrite L, Se. reflexivity.
  - cbn [append FilenameRule.segments_from]. rewrite !IH. reflexivity.
Qed.

(** The segments do not see the length of a run of separators. *)
Lemma segments_from_run (a : string) (c1 c2 : ascii) (b : string) :
  FilenameRule.is_separator c1 = true ->
  FilenameRule.is_separator c2 = true ->
  forall cur in_sep,
  FilenameRule.segments_from cur in_sep (a ++ String c1 (String c2 b))
  = FilenameRule.segments_from cur in_sep (a ++ String c1 b).
Proof.
  intros S1 S2.
  assert (FilenameRule.is_letter_or_digit c1 = false) as L1
    by (revert S1; destruct c1 as [[] [] [] [] [] [] [] []]; vm_compute; congruence).
  assert (FilenameRule.is_letter_or_digit c2 = false) as L2
    by (revert S2; destruct c2 as [[] [] [] [] [] [] [] []]; vm_compute; congruence).
  induction a as [|d a IH]; intros cur in_sep.
  - cbn [append FilenameRule.segments_from]. rewrite L1, S1, L2, S2.
    destruct in_sep; reflexivity.
  - cbn [append FilenameRule.segments_from]. rewrite !IH. reflexivity.
Qed.

(** C9, as the code has it. The file name is a function of the title and
    the device alone, and the same on the model path and on the fallback
    path. It is made of the segments of the title - its maximal runs of
    letters and digits, lower-cased, cut by the runs of white space and
    hyphens, every other character being passed over - joined by single
    hyphens, then [-device] when a device is given, then [.spec.ts]. Two
    titles with the same device get the same file name exactly when they
    have the same segments: titles that differ by the case of letters, by
    a character that is passed over or by the length of a run of
    separators collide, and titles with different segments never do. *)
Theorem C9_filename_derivation :
  (forall s s' : ValidatedScenario.t,
      ValidatedScenario.title s = ValidatedScenario.title s' ->
      ValidatedScenario.device s = ValidatedScenario.device s' ->
      AgentC.generateFilename s = AgentC.generateFilename s') /\
  (forall render reply s t,
      AgentC.generateSingleTest render reply s = Returned t ->
      AgentC.generateFilename s = Returned (PlaywrightTest.filename t)) /\
  (forall s title,
      ValidatedScenario.title s = VString title ->
      AgentC.generateFilename s
      = Returned (FilenameRule.base title
                  ++ device_suffix (ValidatedScenario.device s) ++ ".spec.ts")) /\
  (forall s1 s2 title1 title2,
      ValidatedScenario.title s1 = VString title1 ->
      ValidatedScenario.title s2 = VString title2 ->
      ValidatedScenario.device s1 = ValidatedScenario.device s2 ->
      (AgentC.generateFilename s1 = AgentC.generateFilename s2
       <-> FilenameRule.segments title1 = FilenameRule.segments title2)) /\
  (forall title1 title2,
      JS.toLowerCase title1 = JS.toLowerCase title2 ->
      FilenameRule.segments title1 = FilenameRule.segments title2) /\
  (forall a c b,
      FilenameRule.is_letter_or_digit c = false ->
      FilenameRule.is_separator c = false ->
      FilenameRule.segments (a ++ String c b) = FilenameRule.segments (a ++ b)) /\
  (forall a c1 c2 b,
      FilenameRule.is_separator c1 = true ->
      FilenameRule.is_separator c2 = true ->
      FilenameRule.segments (a ++ String c1 (String c2 b))
      = FilenameRule.segments (a ++ String c1 b)).
Proof.
  assert (forall s title,
             ValidatedScenario.title s = VString title ->
             AgentC.generateFilename s
             = Returned (FilenameRule.base title
                         ++ device_suffix (ValidatedScenario.device s)
                         ++ ".spec.ts")) as Rule.
  { intros s title T. unfold AgentC.generateFilename, device_suffix.
    rewrite T, sanitize_is_base. reflexivity. }
  refine (conj _ (conj _ (conj Rule (conj _ (conj _ (conj _ _)))))).
  - intros s s' T D. unfold AgentC.generateFilename. rewrite T, D. reflexivity.
  - intros render reply s t H. unfold AgentC.generateSingleTest in H.
    destruct (AgentC.generateFilename s) as [filename|e]; [|discriminate].
    destruct (AgentC.generateLLMTestContent reply s) as [content|e].
    + injection H as <-. reflexivity.
    + destruct (render s) as [content|e']; [|discriminate].
      injection H as <-. reflexivity.
  - intros s1 s2 title1 title2 T1 T2 D.
    rewrite (Rule s1 title1 T1), (Rule s2 title2 T2), D. split.
    + intros E. injection E as E. apply base_injective.
      eapply append_cancel_r, E.
    + intros E. unfold FilenameRule.base. rewrite E. reflexivity.
  - intros title1 title2 E. unfold FilenameRule.segments.
    rewrite <- (segments_from_toLowerCase title1),
      <- (segments_from_toLowerCase title2), E. reflexivity.
  - intros a c b L Se. apply segments_from_passes_over; assumption.
  - intros a c1 c2 b S1 S2. apply segments_from_run; assumption.
Qed.

(** The claim C9 as it is written fails. An apostrophe is deleted, not
    turned into a hyphen: the title [User's Login] gives [users-login]
    where the rule of the specification gives [user-s-login]. And two
    distinct titles that differ by punctuation get the same file name. *)
Lemma C9_counterexample :
  AgentC.generateFilename (titled "User's Login" "desktop")
  = Returned "users-login-desktop.spec.ts" /\
  FilenameSpec.sanitize "User's Login" = "user-s-login" /\
  "Login: Happy Path" <> "Login - Happy Path" /\
  AgentC.generateFilename (titled "Login: Happy Path" "desktop")
  = AgentC.generateFilename (titled "Login - Happy Path" "desktop").
Proof.
  repeat split; try reflexivity. discriminate.
Qed.

Lemma C9_witness :
  AgentC.generateFilename (titled "Sign in - Happy Path" "desktop")
  = Returned "sign-in-happy-path-desktop.spec.ts" /\
  AgentC.generateFilename (titled "Sign in - Happy Path" "desktop")
  = Returned (PlaywrightTest.filename
                (PlaywrightTest.mk "sign-in-happy-path-desktop.spec.ts"
                   "import { test, expect, devices } from '@playwright/test';")) /\
  AgentC.generateFilename (titled "Sign in - Happy Path" "desktop")
  <> AgentC.generateFilename (titled "Sign in - Invalid Input" "desktop") /\
  AgentC.generateFilename (titled "SIGN IN: happy   path" "desktop")
  = AgentC.generateFilename (titled "Sign in - Happy Path" "desktop").
Proof.
  destruct C9_filename_derivation as (_ & Paths & Rule & Same & _).
  refine (conj _ (conj _ (conj _ _))).
  - rewrite (Rule (titled "Sign in - Happy Path" "desktop")
               "Sign in - Happy Path" eq_refl).
    reflexivity.
  - apply (Paths sample_renderer (Thrown (Error "model unavailable"))).
    reflexivity.
  - intros E.
    apply (Same (titled "Sign in - Happy Path" "desktop")
                (titled "Sign in - Invalid Input" "desktop")
                "Sign in - Happy Path" "Sign in - Invalid Input"
                eq_refl eq_refl eq_refl) in E.
    vm_compute in E. discriminate E.
  - apply (Same (titled "SIGN IN: happy   path" "desktop")
                (titled "Sign in - Happy Path" "desktop")
                "SIGN IN: happy   path" "Sign in - Happy Path"
                eq_refl eq_refl eq_refl).
    vm_compute. reflexivity.
Defined.

(** ** Retry *)

Lemma sleeps_app (t1 t2 : list Client.event) :
  sleeps (t1 ++ t2)%list = (sleeps t1 ++ sleeps t2)%list.
Proof.
  unfold sleeps. apply flat_map_app.
Qed.

Lemma backoff_delays_S (attempt : Z) (n : nat) :
  backoff_delays attempt (S n)
  = ((2 ^ attempt * 1000)%Z :: backoff_delays (attempt + 1) n).
Proof.
  unfold backoff_delays. cbn [seq map]. rewrite Z.add_0_r. f_equal.
  rewrite <- seq_shift, map_map. apply map_ext. intros k.
  do 2 f_equal. lia.
Qed.

(** Against a model that always fails, the loop calls the model once per
    remaining attempt, sleeps [2^attempt] seconds after every failure but
    the last, and ends by throwing. *)
Lemma retry_loop_always_failing (errors : nat -> js_error)
  (systemPrompt userPrompt : string) (retries : Z) :
  forall remaining attempt lastError w,
    retries = (attempt + Z.of_nat remaining - 1)%Z ->
    let result :=
      Client.retry_loop (always_failing errors) remaining attempt retries
        systemPrompt userPrompt lastError w in
    Client.calls (snd result) = (Client.calls w + remaining)%nat /\
    sleeps (Client.trace (snd result))
    = (sleeps (Client.trace w) ++ backoff_delays attempt (remaining - 1))%list /\
    exists e, fst result = Thrown e.
Proof.
  induction remaining as [|remaining IH]; intros attempt lastError w R.
  - cbn [Client.retry_loop fst snd]. unfold backoff_delays. cbn [Nat.sub seq map].
    rewrite Nat.add_0_r, app_nil_r. repeat split.
    unfold Client.fail_after_loop. destruct lastError; eexists; reflexivity.
  - cbn [Client.retry_loop]. unfold Client.generateResponse, always_failing.
    set (w1 := Client.mkWorld _ _).
    set (e1 := Error _).
    assert (Client.calls w1 = S (Client.calls w)) as C1 by reflexivity.
    assert (sleeps (Client.trace w1) = sleeps (Client.trace w)) as S1.
    { subst w1. cbn [Client.trace]. rewrite sleeps_app. cbn [sleeps flat_map app].
      apply app_nil_r. }
    clearbody w1 e1.
    destruct remaining as [|remaining].
    + assert ((attempt <? retries)%Z = false) as -> by (apply Z.ltb_ge; lia).
      cbv beta iota zeta. cbn [Client.retry_loop fst snd]. unfold backoff_delays.
      cbn [Nat.sub seq map]. rewrite C1, S1, app_nil_r. repeat split; [lia|].
      eexists; reflexivity.
    + assert ((attempt <? retries)%Z = true) as -> by (apply Z.ltb_lt; lia).
      specialize (IH (attempt + 1)%Z (Some e1)
                     (Client.record_event (Client.Sleep (2 ^ attempt * 1000)) w1)).
      destruct IH as (C & Sl & T); [lia|].
      cbv beta iota zeta in C, Sl, T |- *. fold (always_failing errors).
      rewrite C, Sl. repeat split.
      * cbn [Client.record_event Client.calls]. lia.
      * cbn [Client.record_event Client.trace].
        rewrite sleeps_app, S1. cbn [sleeps flat_map app].
        replace (Datatypes.S (Datatypes.S remaining) - 1)%nat
          with (Datatypes.S remaining) by lia.
        rewrite backoff_delays_S, <- !app_assoc.
        replace (Datatypes.S remaining - 1)%nat with remaining by lia.
        reflexivity.
      * exact T.
Qed.

(** With a ceiling of [n] attempts and a model that always fails, the
    model is called [n] times, the delays are 2 s, 4 s, ..., [2^(n-1)] s,
    and the call ends by throwing. *)
Lemma generateWithRetry_always_failing (errors : nat -> js_error)
  (config_maxRetries : option Z) (systemPrompt userPrompt : string) (n : Z) :
  (0 < n)%Z ->
  let result :=
    Client.generateWithRetry (always_failing errors) config_maxRetries
      systemPrompt userPrompt (Some n) Client.start in
  Client.calls (snd result) = Z.to_nat n /\
  sleeps (Client.trace (snd result)) = backoff_delays 1 (Z.to_nat n - 1) /\
  exists e, fst result = Thrown e.
Proof.
  intros P. unfold Client.generateWithRetry, Client.or_number.
  assert ((n =? 0)%Z = false) as -> by (apply Z.eqb_neq; lia).
  apply (retry_loop_always_failing errors systemPrompt userPrompt n
           (Z.to_nat n) 1%Z None Client.start).
  lia.
Qed.

(** C4. When the ceiling resolves to 3 attempts (given by the caller, or
    taken from the configuration, or the default) and the model always
    fails, the model is called exactly three times, the timers awaited
    between the calls are of 2000 ms then 4000 ms (none after the last
    call), and the error thrown carries the message of the last
    failure. *)
Theorem C4_retry_three_failures (errors : nat -> js_error)
  (config_maxRetries maxRetries : option Z) (systemPrompt userPrompt : string) :
  Client.or_number maxRetries (Client.or_number config_maxRetries 3) = 3%Z ->
  Client.generateWithRetry (always_failing errors) config_maxRetries
    systemPrompt userPrompt maxRetries Client.start
  = (Thrown (Error ("LLM failed after 3 attempts. Last error: "
                    ++ "Failed to generate LLM response: "
                    ++ error_toString (errors 2%nat))),
     Client.mkWorld 3
       [Client.Invoke systemPrompt userPrompt; Client.Sleep 2000;
        Client.Invoke systemPrompt userPrompt; Client.Sleep 4000;
        Client.Invoke systemPrompt userPrompt]).
Proof.
  intros Three. unfold Client.generateWithRetry. rewrite Three.
  change (Z.to_nat 3) with 3%nat.
  cbn [Client.retry_loop].
  unfold Client.generateResponse, always_failing, Client.record_event.
  cbn [Client.calls Client.trace Client.start app].
  reflexivity.
Qed.

Lemma C4_witness :
  Client.generateWithRetry
    (always_failing (fun n => Error ("timeout " ++ JS.string_of_nat n)))
    None "system" "user" (Some 3%Z) Client.start
  = (Thrown (Error ("LLM failed after 3 attempts. Last error: "
                    ++ "Failed to generate LLM response: "
                    ++ "Error: timeout 2")),
     Client.mkWorld 3
       [Client.Invoke "system" "user"; Client.Sleep 2000;
        Client.Invoke "system" "user"; Client.Sleep 4000;
        Client.Invoke "system" "user"]).
Proof.
  apply (C4_retry_three_failures
           (fun n => Error ("timeout " ++ JS.string_of_nat n))
           None (Some 3%Z) "system" "user").
  reflexivity.
Defined.

(** ** Scoring *)

Section Scoring.

Import ScoreSpec.

Lemma total_app {A : Type} (f : A -> Z) (l1 l2 : list A) :
  total f (l1 ++ l2)%list = (total f l1 + total f l2)%Z.
Proof.
  induction l1 as [|i l1 IH]; simpl; [reflexivity | rewrite IH; lia].
Qed.

Lemma total_insert {A : Type} (f : A -> Z) (l1 l2 : list A) (i : A) :
  total f (l1 ++ i :: l2)%list = (f i + total f (l1 ++ l2)%list)%Z.
Proof.
  rewrite !total_app. simpl. lia.
Qed.

Lemma total_const {A : Type} (k : Z) (l : list A) :
  total (fun _ => k) l = (Z.of_nat (List.length l) * k)%Z.
Proof.
  induction l as [|i l IH]; simpl List.length; simpl total; [reflexivity|].
  rewrite IH. lia.
Qed.

Lemma total_filter {A : Type} (p : A -> bool) (k : Z) (l : list A) :
  (Z.of_nat (List.length (filter p l)) * k)%Z
  = total (fun i => if p i then k else 0%Z) l.
Proof.
  induction l as [|i l IH]; simpl; [reflexivity|].
  destruct (p i); simpl List.length; lia.
Qed.

Lemma total_ext {A : Type} (f g : A -> Z) (l : list A) :
  (forall i, f i = g i) -> total f l = total g l.
Proof.
  intros E. induction l as [|i l IH]; simpl; [reflexivity|].
  rewrite E, IH. reflexivity.
Qed.

Lemma total_sub {A : Type} (f g : A -> Z) (l : list A) :
  (total f l + total g l)%Z = total (fun i => (f i + g i)%Z) l.
Proof.
  induction l as [|i l IH]; simpl; lia.
Qed.

Lemma clamp_max_min (x : Z) : Z.max 0 (Z.min 100 x) = clamp 0 100 x.
Proof.
  unfold clamp.
  destruct (Z.ltb_spec x 0); [lia|].
  destruct (Z.ltb_spec 100 x); lia.
Qed.

Lemma clamp_range (x : Z) : (0 <= clamp 0 100 x <= 100)%Z.
Proof.
  rewrite <- clamp_max_min. lia.
Qed.

Lemma clamp_mono (x y : Z) : (x <= y)%Z -> (clamp 0 100 x <= clamp 0 100 y)%Z.
Proof.
  rewrite <- !clamp_max_min. lia.
Qed.

Lemma api_penalty_split (l : list PlaywrightAPIIssue.t) :
  total api_penalty l
  = (Z.of_nat (List.length
                 (filter (fun i => Severity.eqb (PlaywrightAPIIssue.severity i)
                                                Severity.error) l)) * 10
     + Z.of_nat (List.length
                   (filter (fun i => Severity.eqb (PlaywrightAPIIssue.severity i)
                                                  Severity.warning) l)) * 5)%Z.
Proof.
  rewrite !total_filter, total_sub. apply total_ext.
  intros i. unfold api_penalty.
  destruct (PlaywrightAPIIssue.severity i); reflexivity.
Qed.

Lemma selector_penalty_filter (l : list SelectorQualityIssue.t) :
  total selector_penalty l
  = (Z.of_nat (List.length
                 (filter (fun i => Severity.eqb (SelectorQualityIssue.severity i)
                                                Severity.warning) l)) * 3)%Z.
Proof.
  rewrite total_filter. apply total_ext.
  intros i. unfold selector_penalty.
  destruct (SelectorQualityIssue.severity i); reflexivity.
Qed.

Lemma selector_bonus_filter (l : list SelectorQualityIssue.t) :
  total selector_bonus l
  = (Z.of_nat (List.length
                 (filter (fun i => SelectorQualityIssue.kind_eqb
                                     (SelectorQualityIssue.type i)
                                     SelectorQualityIssue.good_selector) l)) * 2)%Z.
Proof.
  rewrite total_filter. apply total_ext.
  intros i. unfold selector_bonus.
  destruct (SelectorQualityIssue.type i); reflexivity.
Qed.

(** The code's score is the clamped sum of the per-issue points. *)
Lemma calculateQualityScore_raw (a : TestAnalysisResult.t) :
  AgentG.calculateQualityScore a = clamp 0 100 (raw a).
Proof.
  unfold AgentG.calculateQualityScore, raw. cbv zeta.
  rewrite clamp_max_min. f_equal.
  rewrite api_penalty_split, selector_penalty_filter, selector_bonus_filter.
  unfold syntax_penalty, performance_penalty, maintainability_penalty.
  rewrite !total_const. lia.
Qed.

Lemma api_penalty_nonneg i : (0 <= api_penalty i)%Z.
Proof. unfold api_penalty. destruct (PlaywrightAPIIssue.severity i); lia. Qed.

Lemma selector_penalty_nonneg i : (0 <= selector_penalty i)%Z.
Proof. unfold selector_penalty. destruct (SelectorQualityIssue.severity i); lia. Qed.

Lemma selector_bonus_nonneg i : (0 <= selector_bonus i)%Z.
Proof. unfold selector_bonus. destruct (SelectorQualityIssue.type i); lia. Qed.

End Scoring.

(** Unfolds the unclamped score of an updated analysis down to the sums
    over its lists. *)
Ltac unfold_raw :=
  unfold ScoreSpec.raw,
    Update.with_syntaxErrors, Update.with_warningsAndBestPractices,
    Update.with_playwrightApiIssues, Update.with_selectorQualityIssues,
    Update.with_performanceIssues, Update.with_maintainabilityIssues;
  cbn [TestAnalysisResult.syntaxErrors
         TestAnalysisResult.playwrightApiIssues
         TestAnalysisResult.selectorQualityIssues
         TestAnalysisResult.performanceIssues
         TestAnalysisResult.maintainabilityIssues].

(** C2. The overall score is 100, minus 15 per syntax issue, minus 10 per
    API-usage issue of severity error and 5 per API-usage issue of
    severity warning, minus 3 per locator-quality issue of severity
    warning, minus 2 per performance issue and per maintainability issue,
    plus 2 per [good_selector] record, clamped to [0, 100]; and it only
    depends on the five issue lists: the file name, the best-practice
    list, the stored score and the recommended fixes play no part. *)
Theorem C2_score_formula :
  (forall a : TestAnalysisResult.t,
      AgentG.calculateQualityScore a = ScoreSpec.score a) /\
  (forall fn fn' bp bp' sc sc' fx fx' syn api sel perf mnt,
      AgentG.calculateQualityScore
        (TestAnalysisResult.mk fn syn bp api sel perf mnt sc fx)
      = AgentG.calculateQualityScore
          (TestAnalysisResult.mk fn' syn bp' api sel perf mnt sc' fx')).
Proof.
  split.
  - intros a. apply calculateQualityScore_raw.
  - intros. rewrite !calculateQualityScore_raw. reflexivity.
Qed.

(** C6. Scoring is monotonic and bounded: the score lies in [0, 100];
    adding a syntax, API-usage, performance or maintainability issue, or a
    locator-quality issue (a record that is not a [good_selector]), at any
    place of its list never increases the score; adding a best-practice
    issue leaves it unchanged; adding a positive locator-quality signal
    never decreases it. *)
Theorem C6_score_monotone (a : TestAnalysisResult.t) :
  (0 <= AgentG.calculateQualityScore a <= 100)%Z /\
  (forall l1 l2 e,
      TestAnalysisResult.syntaxErrors a = (l1 ++ l2)%list ->
      (AgentG.calculateQualityScore
         (Update.with_syntaxErrors a (l1 ++ e :: l2)%list)
       <= AgentG.calculateQualityScore a)%Z) /\
  (forall l1 l2 i,
      TestAnalysisResult.playwrightApiIssues a = (l1 ++ l2)%list ->
      (AgentG.calculateQualityScore
         (Update.with_playwrightApiIssues a (l1 ++ i :: l2)%list)
       <= AgentG.calculateQualityScore a)%Z) /\
  (forall l1 l2 i,
      TestAnalysisResult.selectorQualityIssues a = (l1 ++ l2)%list ->
      selector_issue i ->
      (AgentG.calculateQualityScore
         (Update.with_selectorQualityIssues a (l1 ++ i :: l2)%list)
       <= AgentG.calculateQualityScore a)%Z) /\
  (forall l1 l2 i,
      TestAnalysisResult.performanceIssues a = (l1 ++ l2)%list ->
      (AgentG.calculateQualityScore
         (Update.with_performanceIssues a (l1 ++ i :: l2)%list)
       <= AgentG.calculateQualityScore a)%Z) /\
  (forall l1 l2 i,
      TestAnalysisResult.maintainabilityIssues a = (l1 ++ l2)%list ->
      (AgentG.calculateQualityScore
         (Update.with_maintainabilityIssues a (l1 ++ i :: l2)%list)
       <= AgentG.calculateQualityScore a)%Z) /\
  (forall l1 l2 i,
      TestAnalysisResult.warningsAndBestPractices a = (l1 ++ l2)%list ->
      AgentG.calculateQualityScore
        (Update.with_warningsAndBestPractices a (l1 ++ i :: l2)%list)
      = AgentG.calculateQualityScore a) /\
  (forall l1 l2 i,
      TestAnalysisResult.selectorQualityIssues a = (l1 ++ l2)%list ->
      positive_signal i ->
      (AgentG.calculateQualityScore a
       <= AgentG.calculateQualityScore
            (Update.with_selectorQualityIssues a (l1 ++ i :: l2)%list))%Z).
Proof.
  rewrite calculateQualityScore_raw.
  split; [apply clamp_range|].
  refine (conj _ (conj _ (conj _ (conj _ (conj _ (conj _ _))))));
    intros l1 l2 i E.
  - rewrite calculateQualityScore_raw. apply clamp_mono.
    unfold_raw; rewrite E, total_insert.
    unfold ScoreSpec.syntax_penalty at 1. lia.
  - rewrite calculateQualityScore_raw. apply clamp_mono.
    unfold_raw; rewrite E, total_insert.
    pose proof (api_penalty_nonneg i). lia.
  - intros Hi. rewrite calculateQualityScore_raw. apply clamp_mono.
    unfold_raw; rewrite E, !total_insert.
    pose proof (selector_penalty_nonneg i).
    assert (ScoreSpec.selector_bonus i = 0%Z) as ->.
    { unfold ScoreSpec.selector_bonus. red in Hi.
      destruct (SelectorQualityIssue.type i); congruence. }
    lia.
  - rewrite calculateQualityScore_raw. apply clamp_mono.
    unfold_raw; rewrite E, total_insert.
    unfold ScoreSpec.performance_penalty at 1. lia.
  - rewrite calculateQualityScore_raw. apply clamp_mono.
    unfold_raw; rewrite E, total_insert.
    unfold ScoreSpec.maintainability_penalty at 1. lia.
  - rewrite calculateQualityScore_raw. unfold_raw. reflexivity.
  - intros [Ht Hs]. rewrite calculateQualityScore_raw. apply clamp_mono.
    unfold_raw; rewrite E, !total_insert.
    assert (ScoreSpec.selector_penalty i = 0%Z) as ->
      by (unfold ScoreSpec.selector_penalty; rewrite Hs; reflexivity).
    assert (ScoreSpec.selector_bonus i = 2%Z) as ->
      by (unfold ScoreSpec.selector_bonus; rewrite Ht; reflexivity).
    lia.
Qed.

Lemma C6_witness :
  (AgentG.calculateQualityScore
     (Update.with_selectorQualityIssues sample_analysis
        (TestAnalysisResult.selectorQualityIssues sample_analysis
         ++ [sample_class_issue])%list)
   <= AgentG.calculateQualityScore sample_analysis)%Z /\
  (AgentG.calculateQualityScore sample_analysis
   <= AgentG.calculateQualityScore
        (Update.with_selectorQualityIssues sample_analysis
           (sample_good_selector
            :: TestAnalysisResult.selectorQualityIssues sample_analysis)))%Z /\
  (AgentG.calculateQualityScore
     (Update.with_syntaxErrors sample_analysis
        (TestAnalysisResult.syntaxErrors sample_analysis
         ++ [SyntaxError.mk 8 1 "'}' expected." Severity.error 1005])%list)
   <= AgentG.calculateQualityScore sample_analysis)%Z.
Proof.
  destruct (C6_score_monotone sample_analysis)
    as (_ & Syn & _ & Sel & _ & _ & _ & Pos).
  split; [|split].
  - apply (Sel (TestAnalysisResult.selectorQualityIssues sample_analysis) []).
    + symmetry. apply app_nil_r.
    + unfold selector_issue. simpl. discriminate.
  - apply (Pos [] (TestAnalysisResult.selectorQualityIssues sample_analysis)).
    + reflexivity.
    + split; reflexivity.
  - apply (Syn (TestAnalysisResult.syntaxErrors sample_analysis) []).
    symmetry. apply app_nil_r.
Defined.

(** ** API-usage analysis *)

Lemma forEach_line_app {A : Type} (body : string -> Z -> list A)
  (l1 l2 : list string) : forall index,
  AgentG.forEach_line body (l1 ++ l2)%list index
  = (AgentG.forEach_line body l1 index
     ++ AgentG.forEach_line body l2 (index + Z.of_nat (List.length l1))%Z)%list.
Proof.
  induction l1 as [|l l1 IH]; intros index.
  - simpl. rewrite Z.add_0_r. reflexivity.
  - cbn [AgentG.forEach_line app List.length]. rewrite IH, <- app_assoc.
    do 3 f_equal. lia.
Qed.

Lemma forEach_line_ext {A : Type} (f g : string -> Z -> list A) (lines : list string) :
  (forall l n, f l n = g l n) ->
  forall index, AgentG.forEach_line f lines index = AgentG.forEach_line g lines index.
Proof.
  intros E. induction lines as [|l lines IH]; intros index; [reflexivity|].
  cbn [AgentG.forEach_line]. rewrite E, IH. reflexivity.
Qed.

Lemma forEach_line_map_filter {A B : Type} (f : A -> B) (q : A -> bool)
  (body : string -> Z -> list A) (lines : list string) : forall index,
  map f (filter q (AgentG.forEach_line body lines index))
  = AgentG.forEach_line (fun l n => map f (filter q (body l n))) lines index.
Proof.
  induction lines as [|l lines IH]; intros index; [reflexivity|].
  cbn [AgentG.forEach_line]. rewrite filter_app, map_app, IH. reflexivity.
Qed.

Lemma forEach_line_In {A : Type} (body : string -> Z -> list A)
  (lines : list string) : forall index i,
  In i (AgentG.forEach_line body lines index) ->
  exists l n, In l lines /\ (index < n <= index + Z.of_nat (List.length lines))%Z /\
              In i (body l n).
Proof.
  induction lines as [|l lines IH]; intros index i I; [destruct I|].
  cbn [AgentG.forEach_line] in I. apply in_app_or in I. destruct I as [I|I].
  - exists l, (index + 1)%Z. cbn [List.length]. repeat split; auto with datatypes; lia.
  - destruct (IH _ _ I) as (l' & n & L & B & Ii).
    exists l', n. cbn [List.length]. repeat split; auto with datatypes; lia.
Qed.
















(** ** Performance analysis *)

Lemma flagged_app (l1 l2 : list PerformanceIssue.t) :
  flagged_navigation_lines (l1 ++ l2)%list
  = (flagged_navigation_lines l1 ++ flagged_navigation_lines l2)%list.
Proof.
  unfold flagged_navigation_lines. rewrite filter_app, map_app. reflexivity.
Qed.

(** Once the file holds two navigations every line is flagged, whatever
    it contains; otherwise no line is. *)
Lemma multiple_navigations_count (content : string) :
  List.length (flagged_navigation_lines (AgentG.analyzePerformanceIssues content))
  = if (1 <? JS.count_occurrences content "goto(")%nat
    then List.length (AgentG.lines_of content) else 0%nat.
Proof.
  unfold AgentG.analyzePerformanceIssues.
  generalize 0%Z as index. generalize (AgentG.lines_of content) as lines.
  induction lines as [|line rest IH]; intros index.
  - simpl. destruct (1 <? _)%nat; reflexivity.
  - cbn [AgentG.forEach_line]. rewrite !flagged_app, !length_app, IH.
    destruct (1 <? JS.count_occurrences content "goto(")%nat;
      destruct (JS.includes line "waitForTimeout" && JS.includes line "5000");
      destruct (JS.includes line "networkidle"); reflexivity.
Qed.

(** C7, on the code: in a file of three lines of which two hold a
    navigation call, the performance analysis flags lines 1, 2 and 3 with
    a multiple-navigations issue, although only lines 1 and 2 hold a
    navigation call. *)
Theorem C7_every_line_is_flagged :
  flagged_navigation_lines (AgentG.analyzePerformanceIssues two_navigations)
  = [1; 2; 3]%Z /\
  navigation_lines two_navigations = [1; 2]%Z.
Proof.
  split; vm_compute; reflexivity.
Qed.

(* ================================================================== *)
(** * Further properties *)

(** ** Agent A: what the parser accepts *)

Lemma no_missing_complete (scenario : value) :
  missing_fields scenario = [] -> complete scenario.
Proof.
  unfold missing_fields, complete. intros M field I.
  destruct (Value.truthy (Value.get scenario field)) eqn:T; [reflexivity|].
  assert (In field []) as [].
  rewrite <- M. apply filter_In. split; [exact I|]. rewrite T. reflexivity.
Qed.

(** [validateScenario] returns exactly on the complete scenarios, and
    then the record is built from the fields of the object. *)
Lemma validateScenario_returned (scenario : value) (index : nat) (r : TestScenario.t) :
  AgentA.validateScenario scenario index = Returned r ->
  complete scenario /\
  TestScenario.title r = Value.get scenario "title" /\
  TestScenario.description r = Value.get scenario "description" /\
  TestScenario.expected_outcome r = Value.get scenario "expected_outcome" /\
  TestScenario.device r
  = Value.or_else (Value.get scenario "device")
      (match TestScenario.type r with
       | cross_device => VString "mobile"
       | _ => VString "desktop"
       end) /\
  TestScenario.steps r
  = match Value.get scenario "steps" with
    | VArray xs => xs
    | v => [v]
    end.
Proof.
  intros H.
  assert (missing_fields scenario = []) as M.
  { unfold AgentA.validateScenario in H. fold (missing_fields scenario) in H.
    destruct (missing_fields scenario) as [|f fs]; [reflexivity|].
    destruct scenario; discriminate H. }
  pose proof (no_missing_complete _ M) as C.
  split; [exact C|].
  pose proof (C "steps" (or_intror (or_intror (or_intror (or_introl eq_refl)))))
    as St.
  unfold AgentA.validateScenario in H. fold (missing_fields scenario) in H.
  rewrite M in H. cbn [List.length Nat.ltb Nat.leb] in H. cbv zeta in H.
  destruct (complete_object _ C) as [props ->].
  injection H as <-;
    cbn [TestScenario.title TestScenario.description TestScenario.expected_outcome
         TestScenario.type TestScenario.steps TestScenario.device];
    repeat split.
  cbn [Value.get] in *.
  destruct (Value.lookup "steps" props); try reflexivity;
    try discriminate St; simpl in St; simpl; rewrite ?St; reflexivity.
Qed.

Lemma validateScenario_complete (scenario : value) (index : nat) :
  complete scenario -> exists r, AgentA.validateScenario scenario index = Returned r.
Proof.
  intros C. destruct (complete_object _ C) as [props ->].
  pose proof (complete_no_missing _ C) as M. unfold missing_fields in M.
  unfold AgentA.validateScenario. rewrite M. eexists. reflexivity.
Qed.

Lemma validateScenario_refused (scenario : value) (index : nat) :
  refused scenario -> exists e, AgentA.validateScenario scenario index = Thrown e.
Proof.
  intros [->|[->|M]]; try (eexists; reflexivity).
  unfold AgentA.validateScenario. fold (missing_fields scenario).
  destruct (missing_fields scenario) as [|f fs]; [destruct (M eq_refl)|].
  destruct scenario; eexists; reflexivity.
Qed.

Lemma validateAll_refused (scenarios : list value) (x : value) :
  In x scenarios -> refused x ->
  forall index, exists e, AgentA.validateAll scenarios index = Thrown e.
Proof.
  intros I R. induction scenarios as [|s rest IH]; [destruct I|].
  intros index. simpl.
  destruct I as [->|I].
  - destruct (validateScenario_refused x index R) as [e ->]. eauto.
  - destruct (AgentA.validateScenario s index) as [v|e]; [|eauto].
    destruct (IH I (S index)) as [e ->]. eauto.
Qed.

Lemma validateAll_first_refused (good : list value) (bad : value) (rest : list value) :
  Forall complete good ->
  forall index e,
    AgentA.validateScenario bad (index + List.length good) = Thrown e ->
    AgentA.validateAll (good ++ bad :: rest)%list index = Thrown e.
Proof.
  induction 1 as [|g good C F IH]; intros index e B.
  - cbn [app List.length AgentA.validateAll] in *. rewrite Nat.add_0_r in B.
    rewrite B. reflexivity.
  - cbn [app List.length AgentA.validateAll] in *.
    destruct (validateScenario_complete g index C) as [r ->].
    rewrite (IH (S index) e); [reflexivity|].
    rewrite <- B. f_equal. lia.
Qed.

(** X1. One refused element anywhere in the parsed array makes
    [expandUserStory] drop the whole reply: the scenarios returned are the
    fallback ones, however many valid elements the array holds. *)
Theorem expand_drops_reply_with_refused_element
  (JSON_parse : string -> outcome value) (userStory : UserStory.t)
  (response : string) (scenarios : list value) (x : value) :
  JSON_parse (AgentA.cleanResponse response) = Returned (VArray scenarios) ->
  In x scenarios -> refused x ->
  AgentA.expandUserStory JSON_parse (Returned response) userStory
  = AgentA.generateFallbackScenarios userStory.
Proof.
  intros P I R.
  unfold AgentA.expandUserStory, AgentA.parseScenarios. rewrite P.
  destruct (validateAll_refused scenarios x I R 0) as [e ->]. reflexivity.
Qed.

Lemma expand_drops_reply_with_refused_element_witness :
  AgentA.expandUserStory
    (fun _ => Returned (VArray [sample_scenario; incomplete_scenario]))
    (Returned sample_reply) sample_story
  = AgentA.generateFallbackScenarios sample_story.
Proof.
  apply (expand_drops_reply_with_refused_element
           (fun _ => Returned (VArray [sample_scenario; incomplete_scenario]))
           sample_story sample_reply
           [sample_scenario; incomplete_scenario] incomplete_scenario).
  - reflexivity.
  - right. left. reflexivity.
  - right. right. discriminate.
Defined.

(** X2. The error of [parseScenarios] names the first refused element by
    its position in the array and lists the fields it lacks: when the
    elements before position [n] are complete and the element at position
    [n] lacks fields, the message is "Failed to parse scenarios: Error:
    Scenario n missing fields: ...". *)
Theorem parseScenarios_names_first_refused
  (JSON_parse : string -> outcome value) (response : string)
  (good : list value) (bad : value) (rest : list value) :
  JSON_parse (AgentA.cleanResponse response)
  = Returned (VArray (good ++ bad :: rest)%list) ->
  Forall complete good ->
  bad <> VNull -> bad <> VUndefined -> missing_fields bad <> [] ->
  AgentA.parseScenarios JSON_parse response
  = Thrown (Error ("Failed to parse scenarios: Error: Scenario "
                   ++ JS.string_of_nat (List.length good)
                   ++ " missing fields: "
                   ++ JS.join ", " (missing_fields bad))).
Proof.
  intros P G N1 N2 M.
  unfold AgentA.parseScenarios. rewrite P.
  rewrite (validateAll_first_refused good bad rest G 0
             (Error ("Scenario " ++ JS.string_of_nat (List.length good)
                     ++ " missing fields: "
                     ++ JS.join ", " (missing_fields bad)))).
  - reflexivity.
  - cbn [Nat.add]. unfold AgentA.validateScenario. fold (missing_fields bad).
    destruct (missing_fields bad) as [|f fs] eqn:E; [destruct (M eq_refl)|].
    destruct bad; try congruence; reflexivity.
Qed.

Lemma parseScenarios_names_first_refused_witness :
  AgentA.parseScenarios
    (fun _ => Returned (VArray [sample_scenario; incomplete_scenario]))
    sample_reply
  = Thrown (Error ("Failed to parse scenarios: Error: Scenario 1"
                   ++ " missing fields: type, description")).
Proof.
  apply (parseScenarios_names_first_refused
           (fun _ => Returned (VArray [sample_scenario; incomplete_scenario]))
           sample_reply [sample_scenario] incomplete_scenario []).
  - reflexivity.
  - constructor; [|constructor]. intros field I. simpl in I.
    repeat (destruct I as [<-|I]; [reflexivity|]). destruct I.
  - discriminate.
  - discriminate.
  - discriminate.
Defined.

Lemma accepted_fields (scenario : value) (index : nat) (r : TestScenario.t) :
  AgentA.validateScenario scenario index = Returned r ->
  Value.truthy (TestScenario.title r) = true /\
  Value.truthy (TestScenario.description r) = true /\
  Value.truthy (TestScenario.expected_outcome r) = true /\
  Value.truthy (TestScenario.device r) = true /\
  (TestScenario.steps r = [] -> Value.get scenario "steps" = VArray []).
Proof.
  intros H. destruct (validateScenario_returned _ _ _ H) as (C & T & D & E & Dv & St).
  rewrite T, D, E, Dv, St.
  repeat split; try (apply C; simpl; tauto).
  - unfold Value.or_else.
    destruct (Value.truthy (Value.get scenario "device")) eqn:G; [exact G|].
    destruct (TestScenario.type r); reflexivity.
  - destruct (Value.get scenario "steps"); try discriminate. congruence.
Qed.

(** X3. A scenario that [validateScenario] accepts has a truthy title,
    description, expected outcome and device; its list of steps is empty
    only when the reply gave the empty array for [steps]. *)
Theorem accepted_scenario_is_filled (scenario : value) (index : nat)
  (r : TestScenario.t) :
  AgentA.validateScenario scenario index = Returned r ->
  Value.truthy (TestScenario.title r) = true /\
  Value.truthy (TestScenario.description r) = true /\
  Value.truthy (TestScenario.expected_outcome r) = true /\
  Value.truthy (TestScenario.device r) = true /\
  (TestScenario.steps r = [] -> Value.get scenario "steps" = VArray []).
Proof.
  apply accepted_fields.
Qed.

Lemma accepted_scenario_is_filled_witness :
  Value.truthy (VString "Sign in") = true /\
  Value.truthy (VString "User signs in with valid credentials") = true /\
  Value.truthy (VString "User reaches the dashboard") = true /\
  Value.truthy (VString "desktop") = true.
Proof.
  destruct (accepted_scenario_is_filled sample_scenario 0
              (TestScenario.mk
                 (VString "Sign in") positive
                 (VString "User signs in with valid credentials")
                 [VString "Open the sign in page"; VString "Submit valid credentials"]
                 (VString "User reaches the dashboard") (VString "desktop"))
              eq_refl)
    as (T & D & E & Dv & _).
  repeat split; assumption.
Defined.

Lemma validate_scenario_object (s : TestScenario.t) (index : nat) :
  Value.truthy (TestScenario.title s) = true ->
  Value.truthy (TestScenario.description s) = true ->
  Value.truthy (TestScenario.expected_outcome s) = true ->
  Value.truthy (TestScenario.device s) = true ->
  AgentA.validateScenario (scenario_object s) index = Returned s.
Proof.
  intros T D E Dv. destruct s as [t ty d st e dv].
  cbn [TestScenario.title TestScenario.description TestScenario.expected_outcome
       TestScenario.device] in *.
  unfold AgentA.validateScenario, scenario_object.
  cbn [TestScenario.title TestScenario.description TestScenario.expected_outcome
       TestScenario.device TestScenario.type TestScenario.steps].
  change (Value.get (VObject ?p) ?k) with (Value.lookup k p).
  cbn [AgentA.requiredFields filter].
  cbn [Value.lookup String.eqb Ascii.eqb Bool.eqb].
  rewrite T, D, E. cbn [negb List.length Nat.ltb Nat.leb Value.truthy].
  rewrite type_of_value_name. unfold Value.or_else. rewrite Dv.
  destruct ty; reflexivity.
Qed.

(** X4. Validation is idempotent: putting an accepted scenario back in a
    JSON object and validating it again returns it unchanged. *)
Theorem validateScenario_idempotent (scenario : value) (index index' : nat)
  (r : TestScenario.t) :
  AgentA.validateScenario scenario index = Returned r ->
  AgentA.validateScenario (scenario_object r) index' = Returned r.
Proof.
  intros H. destruct (accepted_fields _ _ _ H) as (T & D & E & Dv & _).
  apply validate_scenario_object; assumption.
Qed.

Lemma validateScenario_idempotent_witness :
  AgentA.validateScenario
    (scenario_object
       (TestScenario.mk
          (VString "Sign in") positive
          (VString "User signs in with valid credentials")
          [VString "Open the sign in page"; VString "Submit valid credentials"]
          (VString "User reaches the dashboard") (VString "desktop"))) 7
  = Returned
      (TestScenario.mk
         (VString "Sign in") positive
         (VString "User signs in with valid credentials")
         [VString "Open the sign in page"; VString "Submit valid credentials"]
         (VString "User reaches the dashboard") (VString "desktop")).
Proof.
  apply (validateScenario_idempotent sample_scenario 0 7). reflexivity.
Defined.

Lemma append_not_empty (a b : string) (c : ascii) :
  String.eqb (a ++ String c b) EmptyString = false.
Proof.
  destruct a; reflexivity.
Qed.

(** X5. The fallback scenarios meet the validator of the model path: each
    of them, written as a JSON object, is accepted by [validateScenario]
    and returned unchanged, whatever the story. *)
Theorem fallback_scenarios_pass_validation (userStory : UserStory.t)
  (s : TestScenario.t) (index : nat) :
  In s (AgentA.generateFallbackScenarios userStory) ->
  AgentA.validateScenario (scenario_object s) index = Returned s.
Proof.
  intros I. apply validate_scenario_object;
    unfold AgentA.generateFallbackScenarios in I; cbv zeta in I;
    repeat (destruct I as [<-|I];
            [cbn [TestScenario.title TestScenario.description
                    TestScenario.expected_outcome TestScenario.device
                    Value.truthy];
             try reflexivity; rewrite ?append_not_empty; reflexivity|]);
    destruct I.
Qed.

Lemma fallback_scenarios_pass_validation_witness :
  AgentA.validateScenario
    (scenario_object
       (TestScenario.mk
          (VString "signs - Mobile Experience") cross_device
          (VString "User completes User signs in to their account on mobile device")
          (map VString (AgentA.generatePositiveSteps "User signs in to their account"))
          (VString "Mobile interface provides equivalent functionality with responsive design")
          (VString "mobile"))) 3
  = Returned
      (TestScenario.mk
         (VString "signs - Mobile Experience") cross_device
         (VString "User completes User signs in to their account on mobile device")
         (map VString (AgentA.generatePositiveSteps "User signs in to their account"))
         (VString "Mobile interface provides equivalent functionality with responsive design")
         (VString "mobile")).
Proof.
  apply (fallback_scenarios_pass_validation sample_story).
  do 3 right. left. reflexivity.
Defined.

(** ** Code fences *)

Lemma prefix_backtick_false (m : string) (c : ascii) (s : string) :
  not_backtick c = true -> String.prefix (String "`" m) (String c s) = false.
Proof.
  unfold not_backtick. intros H. cbn [String.prefix].
  destruct (ascii_dec "`" c) as [<-|N]; [discriminate H | reflexivity].
Qed.

(** Outside a match, a text without back-tick goes through unchanged. *)
Lemma strip_marker_plain (m s t : string) :
  all_chars not_backtick s = true ->
  JS.strip_marker_from (String "`" m) 0 false (s ++ t)
  = s ++ JS.strip_marker_from (String "`" m) 0 false t.
Proof.
  induction s as [|c s IH]; intros H; [reflexivity|].
  simpl in H. apply andb_true_iff in H. destruct H as [C H].
  cbn [append JS.strip_marker_from andb].
  rewrite (prefix_backtick_false m c _ C), (IH H). reflexivity.
Qed.

(** Right after a match, its leading white space is dropped first. *)
Lemma strip_marker_after_match (m s t : string) :
  all_chars not_backtick s = true ->
  JS.strip_marker_from (String "`" m) 0 true (s ++ t)
  = match JS.trimStart s with
    | EmptyString => JS.strip_marker_from (String "`" m) 0 true t
    | u => u ++ JS.strip_marker_from (String "`" m) 0 false t
    end.
Proof.
  induction s as [|c s IH]; intros H.
  - cbn [append JS.trimStart]. reflexivity.
  - pose proof H as H'. simpl in H. apply andb_true_iff in H. destruct H as [C H].
    cbn [append JS.strip_marker_from JS.trimStart andb].
    destruct (JS.is_space c) eqn:Sp.
    + apply IH, H.
    + rewrite (prefix_backtick_false m c _ C).
      rewrite (strip_marker_plain m s t H). reflexivity.
Qed.

Lemma trimStart_all (p : ascii -> bool) (s : string) :
  all_chars p s = true -> all_chars p (JS.trimStart s) = true.
Proof.
  induction s as [|c s IH]; intros H; [reflexivity|].
  simpl. destruct (JS.is_space c); [|exact H].
  simpl in H. apply andb_true_iff in H. apply IH, H.
Qed.

Lemma trimStart_fixed (s : string) : JS.trimStart (JS.trimStart s) = JS.trimStart s.
Proof.
  induction s as [|c s IH]; [reflexivity|].
  simpl. destruct (JS.is_space c) eqn:Sp; [exact IH|].
  simpl. rewrite Sp. reflexivity.
Qed.

Lemma trimStart_app_nonempty (s t : string) :
  JS.trimStart s <> EmptyString -> JS.trimStart (s ++ t) = JS.trimStart s ++ t.
Proof.
  induction s as [|c s IH]; intros N; [destruct (N eq_refl)|].
  simpl in *. destruct (JS.is_space c); [apply IH, N | reflexivity].
Qed.

Lemma trimEnd_space (s : string) (c : ascii) :
  JS.is_space c = true ->
  JS.trimEnd (s ++ String c EmptyString) = JS.trimEnd s.
Proof.
  intros Sp. induction s as [|d s IH].
  - simpl. rewrite Sp. reflexivity.
  - cbn [append JS.trimEnd]. rewrite IH. reflexivity.
Qed.

Lemma trim_after_line (u : string) :
  u <> EmptyString -> JS.trimStart u = u ->
  JS.trim (u ++ String AgentG.LF EmptyString) = JS.trimEnd u.
Proof.
  intros N F. unfold JS.trim.
  rewrite trimStart_app_nonempty by (rewrite F; exact N).
  rewrite F. apply trimEnd_space. reflexivity.
Qed.


(** The last pass, which removes the bare fence, on what the earlier
    passes leave of a fenced reply. *)
Lemma strip_closing_fence (body : string) :
  all_chars not_backtick body = true ->
  JS.trim (JS.strip_marker "```" (fence_rest body)) = JS.trim body.
Proof.
  intros H. pose proof (trimStart_all _ _ H) as Hu.
  pose proof (trimStart_fixed body) as F.
  unfold JS.trim at 2, fence_rest.
  destruct (JS.trimStart body) as [|c u] eqn:E; [reflexivity|].
  unfold JS.strip_marker. rewrite (strip_marker_plain "``" _ _ Hu).
  change (JS.strip_marker_from "```" 0 false (String AgentG.LF EmptyString ++ "```"))
    with (String AgentG.LF EmptyString).
  apply trim_after_line; [discriminate | exact F].
Qed.

(** A pass whose marker is the opening fence of the reply. *)
Lemma strip_opening_fence (m body : string) :
  all_chars not_backtick body = true ->
  JS.strip_marker_from (String "`" m) 0 true (String AgentG.LF EmptyString ++ "```")
  = "```" ->
  JS.strip_marker_from (String "`" m) 0 false (String AgentG.LF EmptyString ++ "```")
  = String AgentG.LF EmptyString ++ "```" ->
  JS.strip_marker_from (String "`" m) 0 true
    (body ++ String AgentG.LF EmptyString ++ "```")
  = fence_rest body.
Proof.
  intros H T F. rewrite (strip_marker_after_match m body _ H), T, F. reflexivity.
Qed.

(** A pass whose marker occurs nowhere in what is left. *)
Lemma strip_other_marker (m body : string) :
  all_chars not_backtick body = true ->
  JS.strip_marker (String "`" m) "```" = "```" ->
  JS.strip_marker_from (String "`" m) 0 false (String AgentG.LF EmptyString ++ "```")
  = String AgentG.LF EmptyString ++ "```" ->
  JS.strip_marker (String "`" m) (fence_rest body) = fence_rest body.
Proof.
  intros H T F. pose proof (trimStart_all _ _ H) as Hu.
  unfold fence_rest. destruct (JS.trimStart body) as [|c u]; [exact T|].
  unfold JS.strip_marker. rewrite (strip_marker_plain m _ _ Hu), F. reflexivity.
Qed.

Lemma open_json (rest : string) :
  JS.strip_marker "```json" ("```json" ++ String AgentG.LF rest)
  = JS.strip_marker_from "```json" 0 true rest.
Proof. vm_compute. reflexivity. Qed.

Lemma open_bare (rest : string) :
  JS.strip_marker "```" ("```" ++ String AgentG.LF rest)
  = JS.strip_marker_from "```" 0 true rest.
Proof. vm_compute. reflexivity. Qed.

Lemma skip_bare_json (rest : string) :
  JS.strip_marker "```json" ("```" ++ String AgentG.LF rest)
  = "```" ++ String AgentG.LF (JS.strip_marker_from "```json" 0 false rest).
Proof. vm_compute. reflexivity. Qed.

(** X6. The clean-up of Agent A and of Agent B unwraps a fenced reply: for
    a body without back-tick, the body itself, the body in a [```json]
    fence and the body in a bare fence all clean to the trimmed body. *)
Theorem cleanResponse_unwraps_json_fence (body : string) :
  all_chars not_backtick body = true ->
  AgentA.cleanResponse body = JS.trim body /\
  AgentA.cleanResponse (fenced "json" body) = JS.trim body /\
  AgentA.cleanResponse (fenced EmptyString body) = JS.trim body /\
  AgentB.cleanResponse (fenced "json" body) = JS.trim body.
Proof.
  intros H.
  assert (forall m, JS.strip_marker (String "`" m) body = body) as Plain.
  { intros m. unfold JS.strip_marker.
    rewrite <- (append_empty_r body) at 1.
    rewrite (strip_marker_plain m body EmptyString H). apply append_empty_r. }
  assert (AgentA.cleanResponse (fenced "json" body) = JS.trim body) as Json.
  { unfold AgentA.cleanResponse.
    replace (JS.strip_marker "```json" (fenced "json" body)) with (fence_rest body).
    - apply strip_closing_fence, H.
    - symmetry. etransitivity; [apply open_json|].
      apply strip_opening_fence; [exact H | reflexivity | reflexivity]. }
  refine (conj _ (conj Json (conj _ Json))).
  - unfold AgentA.cleanResponse. rewrite !Plain. reflexivity.
  - unfold AgentA.cleanResponse.
    replace (JS.strip_marker "```json" (fenced EmptyString body))
      with (fenced EmptyString body).
    + replace (JS.strip_marker "```" (fenced EmptyString body))
        with (match JS.trimStart body with
              | EmptyString => EmptyString
              | u => u ++ String AgentG.LF EmptyString
              end).
      * pose proof (trimStart_fixed body) as F. unfold JS.trim at 2.
        destruct (JS.trimStart body) as [|c u] eqn:E; [reflexivity|].
        apply trim_after_line; [discriminate | exact F].
      * change (fenced EmptyString body)
          with ("```" ++ String AgentG.LF
                           (body ++ String AgentG.LF EmptyString ++ "```")).
        rewrite open_bare, (strip_marker_after_match "``" body _ H). reflexivity.
    + change (fenced EmptyString body)
        with ("```" ++ String AgentG.LF
                         (body ++ String AgentG.LF EmptyString ++ "```")).
      rewrite skip_bare_json, (strip_marker_plain "``json" body _ H). reflexivity.
Qed.

Lemma cleanResponse_unwraps_json_fence_witness :
  AgentA.cleanResponse (fenced "json" "[1, 2]") = "[1, 2]".
Proof.
  apply (proj1 (proj2 (cleanResponse_unwraps_json_fence "[1, 2]" eq_refl))).
Defined.

Lemma open_typescript (rest : string) :
  JS.strip_marker "```typescript" ("```typescript" ++ String AgentG.LF rest)
  = JS.strip_marker_from "```typescript" 0 true rest.
Proof. vm_compute. reflexivity. Qed.

Lemma open_ts (rest : string) :
  JS.strip_marker "```ts" ("```ts" ++ String AgentG.LF rest)
  = JS.strip_marker_from "```ts" 0 true rest.
Proof. vm_compute. reflexivity. Qed.

Lemma skip_ts_typescript (rest : string) :
  JS.strip_marker "```typescript" ("```ts" ++ String AgentG.LF rest)
  = "```ts" ++ String AgentG.LF (JS.strip_marker_from "```typescript" 0 false rest).
Proof. vm_compute. reflexivity. Qed.

Lemma skip_bare_typescript (rest : string) :
  JS.strip_marker "```typescript" ("```" ++ String AgentG.LF rest)
  = "```" ++ String AgentG.LF (JS.strip_marker_from "```typescript" 0 false rest).
Proof. vm_compute. reflexivity. Qed.

Lemma skip_bare_ts (rest : string) :
  JS.strip_marker "```ts" ("```" ++ String AgentG.LF rest)
  = "```" ++ String AgentG.LF (JS.strip_marker_from "```ts" 0 false rest).
Proof. vm_compute. reflexivity. Qed.

(** X7. The clean-up of Agent C unwraps a fenced reply: for a body
    without back-tick, the body itself and the body in a [```typescript],
    a [```ts] or a bare fence all clean to the trimmed body. *)
Theorem cleanResponse_unwraps_typescript_fence (body : string) :
  all_chars not_backtick body = true ->
  AgentC.cleanResponse body = JS.trim body /\
  AgentC.cleanResponse (fenced "typescript" body) = JS.trim body /\
  AgentC.cleanResponse (fenced "ts" body) = JS.trim body /\
  AgentC.cleanResponse (fenced EmptyString body) = JS.trim body.
Proof.
  intros H.
  assert (forall m, JS.strip_marker (String "`" m) body = body) as Plain.
  { intros m. unfold JS.strip_marker.
    rewrite <- (append_empty_r body) at 1.
    rewrite (strip_marker_plain m body EmptyString H). apply append_empty_r. }
  refine (conj _ (conj _ (conj _ _))); unfold AgentC.cleanResponse.
  - rewrite !Plain. reflexivity.
  - change (fenced "typescript" body)
      with ("```typescript" ++ String AgentG.LF
              (body ++ String AgentG.LF EmptyString ++ "```")).
    rewrite open_typescript.
    rewrite (strip_opening_fence "``typescript" body H eq_refl eq_refl).
    rewrite (strip_other_marker "``ts" body H eq_refl eq_refl).
    apply strip_closing_fence, H.
  - change (fenced "ts" body)
      with ("```ts" ++ String AgentG.LF
              (body ++ String AgentG.LF EmptyString ++ "```")).
    rewrite skip_ts_typescript, (strip_marker_plain "``typescript" body _ H).
    change (JS.strip_marker_from "```typescript" 0 false
              (String AgentG.LF EmptyString ++ "```"))
      with (String AgentG.LF EmptyString ++ "```").
    rewrite open_ts.
    rewrite (strip_opening_fence "``ts" body H eq_refl eq_refl).
    apply strip_closing_fence, H.
  - change (fenced EmptyString body)
      with ("```" ++ String AgentG.LF
              (body ++ String AgentG.LF EmptyString ++ "```")).
    rewrite skip_bare_typescript, (strip_marker_plain "``typescript" body _ H).
    change (JS.strip_marker_from "```typescript" 0 false
              (String AgentG.LF EmptyString ++ "```"))
      with (String AgentG.LF EmptyString ++ "```").
    rewrite skip_bare_ts, (strip_marker_plain "``ts" body _ H).
    change (JS.strip_marker_from "```ts" 0 false
              (String AgentG.LF EmptyString ++ "```"))
      with (String AgentG.LF EmptyString ++ "```").
    rewrite open_bare, (strip_marker_after_match "``" body _ H).
    pose proof (trimStart_fixed body) as F. unfold JS.trim at 2.
    change (JS.strip_marker_from "```" 0 true (String AgentG.LF EmptyString ++ "```"))
      with EmptyString.
    change (JS.strip_marker_from "```" 0 false (String AgentG.LF EmptyString ++ "```"))
      with (String AgentG.LF EmptyString).
    destruct (JS.trimStart body) as [|c u] eqn:E; [reflexivity|].
    apply trim_after_line; [discriminate | exact F].
Qed.

Lemma cleanResponse_unwraps_typescript_fence_witness :
  AgentC.cleanResponse (fenced "ts" "test('opens', async () => {});")
  = "test('opens', async () => {});".
Proof.
  apply (proj1 (proj2 (proj2 (cleanResponse_unwraps_typescript_fence
                                "test('opens', async () => {});" eq_refl)))).
Defined.

(** ** Retriever *)

Section ScanInvariant.

Context {R : Type}.
Variable hit : string -> string -> string -> R -> R.
Variable P : R -> Prop.
Variable keywords : list string.
Variable cat : KnowledgeBase.catalog.

(** [hit] keeps [P] whenever it is run for an entry of the catalog that a
    keyword of the list matches. *)
Hypothesis hit_keeps :
  forall keyword category entries name expr acc,
    In keyword keywords -> In (category, entries) cat ->
    In (name, expr) entries ->
    Retriever.matches keyword category name = true ->
    P acc -> P (hit category name expr acc).

Lemma scan_names_invariant keyword category entries :
  In keyword keywords -> In (category, entries) cat ->
  forall es acc, incl es entries -> P acc ->
                 P (Retriever.scan_names hit keyword category es acc).
Proof.
  intros K C. induction es as [|[name expr] es IH]; intros acc I H; [exact H|].
  simpl. apply IH; [intros x X; apply I; right; exact X|].
  destruct (Retriever.matches keyword category name) eqn:M; [|exact H].
  apply (hit_keeps keyword category entries); auto. apply I. left. reflexivity.
Qed.

Lemma scan_categories_invariant keyword :
  In keyword keywords ->
  forall cs acc, incl cs cat -> P acc ->
                 P (Retriever.scan_categories hit keyword cs acc).
Proof.
  intros K. induction cs as [|[category entries] cs IH]; intros acc I H; [exact H|].
  simpl. apply IH; [intros x X; apply I; right; exact X|].
  apply (scan_names_invariant keyword category entries); auto.
  - apply I. left. reflexivity.
  - apply incl_refl.
Qed.

Lemma scan_keywords_invariant :
  forall ks acc, incl ks keywords -> P acc ->
                 P (Retriever.scan_keywords hit ks cat acc).
Proof.
  induction ks as [|keyword ks IH]; intros acc I H; [exact H|].
  simpl. apply IH; [intros x X; apply I; right; exact X|].
  apply scan_categories_invariant; auto.
  - apply I. left. reflexivity.
  - apply incl_refl.
Qed.

End ScanInvariant.

Lemma assign_NoDup (key v : string) (relevant : list (string * string)) :
  NoDup (keys relevant) -> NoDup (keys (Retriever.assign key v relevant)).
Proof.
  induction relevant as [|[k old] rest IH]; intros N.
  - simpl. constructor; [intros [] | constructor].
  - simpl in N. inversion N as [|? ? Nk Nr]; subst.
    simpl. destruct (String.eqb_spec k key) as [->|D].
    + simpl. constructor; assumption.
    + change (NoDup (k :: keys (Retriever.assign key v rest))).
      constructor; [|apply IH, Nr].
      intros I. apply assign_keys in I. destruct I as [->|I]; [apply D; reflexivity|].
      apply Nk, I.
Qed.

Lemma assign_In (key v : string) (relevant : list (string * string))
  (x w : string) :
  In (x, w) (Retriever.assign key v relevant) ->
  (x = key /\ w = v) \/ In (x, w) relevant.
Proof.
  induction relevant as [|[k old] rest IH]; simpl.
  - intros [E|[]]. injection E as <- <-. auto.
  - destruct (String.eqb_spec k key) as [->|D]; simpl.
    + intros [E|I]; [injection E as <- <-; auto | auto].
    + intros [E|I]; [auto|]. destruct (IH I); auto.
Qed.

(** X8. The object returned by [findRelevantSelectors] holds each key
    once, however many keywords match the entry, and each of its values
    is the locator of an entry of the knowledge base that some keyword
    matches and that is stored under that key. *)
Theorem findRelevantSelectors_keys_unique_values_sound
  (kb : KnowledgeBase.t) (keywords : list string) :
  NoDup (keys (Retriever.findRelevantSelectors kb keywords)) /\
  forall key locator,
    In (key, locator) (Retriever.findRelevantSelectors kb keywords) ->
    exists keyword category entries name,
      In keyword keywords /\
      In (category, entries) (KnowledgeBase.selectors kb) /\
      In (name, locator) entries /\
      Retriever.matches keyword category name = true /\
      key = selector_key category name.
Proof.
  unfold Retriever.findRelevantSelectors. split.
  - apply (scan_keywords_invariant _ (fun acc => NoDup (keys acc)) keywords
             (KnowledgeBase.selectors kb)).
    + intros. apply assign_NoDup. assumption.
    + apply incl_refl.
    + constructor.
  - apply (scan_keywords_invariant _
             (fun acc => forall key locator, In (key, locator) acc ->
                exists keyword category entries name,
                  In keyword keywords /\
                  In (category, entries) (KnowledgeBase.selectors kb) /\
                  In (name, locator) entries /\
                  Retriever.matches keyword category name = true /\
                  key = selector_key category name)
             keywords (KnowledgeBase.selectors kb)).
    + intros keyword category entries name expr acc K C E M IH key locator I.
      apply assign_In in I. destruct I as [[-> ->]|I]; [|apply IH, I].
      exists keyword, category, entries, name. auto.
    + apply incl_refl.
    + intros key locator [].
Qed.

Lemma scan_names_endpoints keyword category entries : forall acc,
  Retriever.scan_names
    (fun category name endpoint relevant =>
       (relevant ++ [(category ++ "." ++ name ++ ": " ++ endpoint)%string])%list)
    keyword category entries acc
  = (acc ++ map (endpoint_line category)
              (filter (fun e => Retriever.matches keyword category (fst e)) entries))%list.
Proof.
  induction entries as [|[name endpoint] rest IH]; intros acc; simpl.
  - symmetry. apply app_nil_r.
  - rewrite IH. destruct (Retriever.matches keyword category name);
      [rewrite <- app_assoc|]; reflexivity.
Qed.

Lemma scan_categories_endpoints keyword cat : forall acc,
  Retriever.scan_categories
    (fun category name endpoint relevant =>
       (relevant ++ [(category ++ "." ++ name ++ ": " ++ endpoint)%string])%list)
    keyword cat acc
  = (acc ++ matching_endpoints cat keyword)%list.
Proof.
  induction cat as [|[category entries] rest IH]; intros acc; simpl.
  - symmetry. apply app_nil_r.
  - rewrite IH, scan_names_endpoints, <- app_assoc. reflexivity.
Qed.

Lemma scan_keywords_endpoints keywords cat : forall acc,
  Retriever.scan_keywords
    (fun category name endpoint relevant =>
       (relevant ++ [(category ++ "." ++ name ++ ": " ++ endpoint)%string])%list)
    keywords cat acc
  = (acc ++ flat_map (matching_endpoints cat) keywords)%list.
Proof.
  induction keywords as [|keyword rest IH]; intros acc; simpl.
  - symmetry. apply app_nil_r.
  - rewrite IH, scan_categories_endpoints, <- app_assoc. reflexivity.
Qed.

(** X9. [findRelevantEndpoints] returns, keyword after keyword, the
    entries that the keyword matches, in the order of the catalog: an
    entry matched by several keywords is listed once per keyword, and the
    result for two lists of keywords put end to end is the two results put
    end to end. *)
Theorem findRelevantEndpoints_per_keyword (kb : KnowledgeBase.t)
  (keywords keywords' : list string) :
  Retriever.findRelevantEndpoints kb keywords
  = flat_map (matching_endpoints (KnowledgeBase.endpoints kb)) keywords /\
  Retriever.findRelevantEndpoints kb (keywords ++ keywords')%list
  = (Retriever.findRelevantEndpoints kb keywords
     ++ Retriever.findRelevantEndpoints kb keywords')%list.
Proof.
  unfold Retriever.findRelevantEndpoints.
  rewrite !scan_keywords_endpoints. cbn [app].
  split; [reflexivity | apply flat_map_app].
Qed.

(** X10. A keyword that contains the name of a category, or is contained
    in it, retrieves every locator of that category, whatever the names
    of its entries. *)
Theorem findRelevantSelectors_whole_category
  (kb : KnowledgeBase.t) (keywords : list string)
  (keyword category : string) (entries : list (string * string))
  (name locator : string) :
  In keyword keywords ->
  In (category, entries) (KnowledgeBase.selectors kb) ->
  In (name, locator) entries ->
  contains category (JS.toLowerCase keyword)
  \/ contains (JS.toLowerCase keyword) category ->
  In (selector_key category name)
     (keys (Retriever.findRelevantSelectors kb keywords)).
Proof.
  intros K C E M. unfold Retriever.findRelevantSelectors.
  apply scan_keywords_keys. right.
  exists keyword, category, entries, name, locator.
  repeat split; try assumption.
  unfold Retriever.matches. rewrite !orb_true_iff, !includes_iff. tauto.
Qed.

Lemma findRelevantSelectors_whole_category_witness :
  In (selector_key "forms" "sign_in")
     (keys (Retriever.findRelevantSelectors forms_kb ["form"])).
Proof.
  apply (findRelevantSelectors_whole_category forms_kb ["form"] "form" "forms"
           [("sign_in", "#sign-in-form")] "sign_in" "#sign-in-form").
  - left. reflexivity.
  - left. reflexivity.
  - left. reflexivity.
  - left. exists EmptyString, "s". reflexivity.
Defined.

(** What [extractKeywords] leaves of a character: a space, or a keyword
    character. *)
Lemma normalized_char (c : ascii) :
  let c' := JS.lower_char c in
  let d := if negb (JS.is_word c' || JS.is_space c') then " "%char else c' in
  JS.is_space d = true \/ (JS.is_space d = false /\ keyword_char d = true).
Proof.
  destruct c as [[] [] [] [] [] [] [] []]; vm_compute; auto.
Qed.

Lemma keyword_char_not_upper (c : ascii) :
  keyword_char c = true -> JS.is_upper c = false.
Proof.
  destruct c as [[] [] [] [] [] [] [] []]; vm_compute; auto.
Qed.

Lemma split_ws_tokens (s : string) : forall cur in_sep t,
  all_chars (fun c => JS.is_space c || keyword_char c) s = true ->
  all_chars keyword_char cur = true ->
  In t (JS.split_ws_from cur in_sep s) ->
  all_chars keyword_char t = true.
Proof.
  induction s as [|c s IH]; intros cur in_sep t H C I.
  - destruct I as [<-|[]]. exact C.
  - simpl in H. apply andb_true_iff in H. destruct H as [Hc H].
    cbn [JS.split_ws_from] in I. destruct (JS.is_space c) eqn:Sp.
    + destruct in_sep.
      * eapply IH; eassumption.
      * destruct I as [<-|I]; [exact C|].
        apply (IH EmptyString true t H eq_refl I).
    + apply (IH (cur ++ String c EmptyString) false t H); [|exact I].
      rewrite all_chars_app, C. cbn [orb] in Hc. cbn [all_chars andb].
      rewrite Hc. reflexivity.
Qed.

Lemma normalized_text (text : string) :
  all_chars (fun c => JS.is_space c || keyword_char c)
    (JS.replace_class (fun c => negb (JS.is_word c || JS.is_space c)) " "
       (JS.toLowerCase text)) = true.
Proof.
  induction text as [|c text IH]; [reflexivity|].
  cbn [JS.toLowerCase JS.replace_class all_chars]. rewrite IH, andb_true_r.
  destruct (normalized_char c) as [S|[S K]]; cbv zeta in *.
  - rewrite S. reflexivity.
  - rewrite K. apply orb_true_r.
Qed.

Lemma toLowerCase_keyword (s : string) :
  all_chars keyword_char s = true -> JS.toLowerCase s = s.
Proof.
  induction s as [|c s IH]; intros H; [reflexivity|].
  simpl in H. apply andb_true_iff in H. destruct H as [K H].
  simpl. unfold JS.lower_char. rewrite (keyword_char_not_upper c K), (IH H).
  reflexivity.
Qed.

(** X11. Every keyword that [extractKeywords] returns has at least three
    characters, all of them in [a-z], [0-9] or underscore, is none of the
    stop words, and is its own lower-case form (so the lower-casing the
    retriever applies to it changes nothing). *)
Theorem extractKeywords_are_normalized (text keyword : string) :
  In keyword (Retriever.extractKeywords text) ->
  (3 <= String.length keyword)%nat /\
  all_chars keyword_char keyword = true /\
  ~ In keyword Retriever.commonWords /\
  JS.toLowerCase keyword = keyword.
Proof.
  unfold Retriever.extractKeywords. intros I.
  apply filter_In in I. destruct I as [I F].
  apply andb_true_iff in F. destruct F as [L C].
  apply Nat.ltb_lt in L.
  assert (all_chars keyword_char keyword = true) as K.
  { apply (split_ws_tokens _ EmptyString false keyword (normalized_text text)
             eq_refl I). }
  repeat split; [lia | exact K | | apply toLowerCase_keyword, K].
  intros W. apply negb_true_iff in C. unfold JS.includes_str in C.
  assert (existsb (String.eqb keyword) Retriever.commonWords = true) as X.
  { apply existsb_exists. exists keyword. split; [exact W | apply String.eqb_refl]. }
  congruence.
Qed.

Lemma extractKeywords_are_normalized_witness :
  (3 <= String.length "sign_in")%nat /\
  JS.toLowerCase "sign_in" = "sign_in".
Proof.
  destruct (extractKeywords_are_normalized
              "User opens the Sign_In form!" "sign_in") as (L & _ & _ & T).
  - vm_compute. auto.
  - split; assumption.
Defined.

(** ** Agent B *)

Lemma or_else_truthy (v d : value) :
  Value.truthy d = true -> Value.truthy (Value.or_else v d) = true.
Proof.
  unfold Value.or_else. intros D.
  destruct (Value.truthy v) eqn:T; assumption.
Qed.

(** X12. On the model path and on the fallback path alike, the validated
    scenario holds a truthy [selectors], [api_endpoints] and
    [validation_notes]: a field that the reply of the model lacks, or
    gives as [null], an empty string, 0 or [false], is replaced by the
    empty object or array. *)
Theorem validated_scenario_fields_present
  (JSON_parse : string -> outcome value) (kb : KnowledgeBase.t)
  (reply : outcome string) (scenario : TestScenario.t) :
  let v := AgentB.validateScenario JSON_parse kb reply scenario in
  Value.truthy (ValidatedScenario.selectors v) = true /\
  Value.truthy (ValidatedScenario.api_endpoints v) = true /\
  Value.truthy (ValidatedScenario.validation_notes v) = true.
Proof.
  unfold AgentB.validateScenario.
  destruct reply as [response|e]; [|repeat split].
  destruct (AgentB.parseValidationResponse JSON_parse response) as [validation|e];
    [|repeat split].
  cbv zeta. cbn [AgentB.extend ValidatedScenario.selectors
                   ValidatedScenario.api_endpoints
                   ValidatedScenario.validation_notes].
  repeat split; apply or_else_truthy; reflexivity.
Qed.

Lemma strings_of_strings (l : list string) :
  strings_of (VArray (map VString l)) = l.
Proof.
  unfold strings_of. induction l as [|x l IH]; [reflexivity|].
  simpl. f_equal. exact IH.
Qed.

Lemma found_not_warning (n : nat) (what warning : string) :
  String.prefix "WARNING" warning = true ->
  ("Found " ++ JS.string_of_nat n ++ what)%string <> warning.
Proof.
  intros W E. rewrite <- E in W. discriminate W.
Qed.

(** X13. The fallback validation attaches between two and four notes, all
    strings. The warning about locators is among them exactly when the
    retriever found no locator, and the warning about routes exactly when
    it found no route. *)
Theorem fallback_validation_notes (kb : KnowledgeBase.t)
  (scenario : TestScenario.t) :
  let v := AgentB.performFallbackValidation kb scenario in
  let notes := strings_of (ValidatedScenario.validation_notes v) in
  ValidatedScenario.validation_notes v = VArray (map VString notes) /\
  (2 <= List.length notes <= 4)%nat /\
  (In no_selectors_warning notes <->
   ValidatedScenario.selectors v = VObject []) /\
  (In no_endpoints_warning notes <->
   ValidatedScenario.api_endpoints v = VArray []).
Proof.
  unfold AgentB.performFallbackValidation. cbv zeta.
  cbn [AgentB.extend ValidatedScenario.selectors ValidatedScenario.api_endpoints
       ValidatedScenario.validation_notes].
  rewrite strings_of_strings.
  set (sel := Retriever.findRelevantSelectors kb _).
  set (eps := Retriever.findRelevantEndpoints kb _).
  unfold AgentB.generateValidationNotes.
  set (tail := ((if Value.is_string _ "mobile" then _ else _) ++ _)%list).
  assert ((List.length tail <= 2)%nat /\
          ~ In no_selectors_warning tail /\ ~ In no_endpoints_warning tail)
    as (TL & T1 & T2).
  { subst tail.
    destruct (Value.is_string (TestScenario.device scenario) "mobile");
      destruct (TestScenario.type scenario); cbn [app List.length In];
      repeat split; try lia; intros I;
      repeat (destruct I as [I|I]; [discriminate I|]); destruct I. }
  split; [reflexivity|].
  destruct sel as [|s0 sel]; destruct eps as [|e0 eps];
    cbn [List.length Nat.eqb map app In];
    (split; [lia|]); split; split; intros I;
    try reflexivity; try discriminate I; try (left; reflexivity);
    try (right; left; reflexivity);
    exfalso;
    repeat match type of I with
           | _ \/ _ => destruct I as [I|I]
           end;
    try discriminate I;
    try (apply T1, I); try (apply T2, I);
    try (eapply found_not_warning; [|exact I]; reflexivity).
Qed.

(** ** Model client *)

Lemma retry_loop_fails_then_answers (errors : nat -> js_error) (text : string)
  (systemPrompt userPrompt : string) (retries : Z) :
  forall k remaining attempt lastError w first,
    retries = (attempt + Z.of_nat remaining - 1)%Z ->
    (k < remaining)%nat ->
    first = (Client.calls w + k)%nat ->
    let result :=
      Client.retry_loop (fails_then_answers first errors text) remaining
        attempt retries systemPrompt userPrompt lastError w in
    fst result = Returned text /\
    Client.calls (snd result) = (Client.calls w + k + 1)%nat /\
    sleeps (Client.trace (snd result))
    = (sleeps (Client.trace w) ++ backoff_delays attempt k)%list.
Proof.
  induction k as [|k IH]; intros remaining attempt lastError w first R L F;
    (destruct remaining as [|remaining]; [lia|]);
    cbn [Client.retry_loop]; unfold Client.generateResponse.
  - assert (fails_then_answers first errors text (Client.calls w)
              systemPrompt userPrompt = Returned text) as ->.
    { unfold fails_then_answers.
      assert ((Client.calls w <? first)%nat = false) as ->
          by (apply Nat.ltb_ge; lia).
      reflexivity. }
    cbv beta iota zeta. cbn [fst snd Client.calls Client.trace].
    rewrite sleeps_app. cbn [sleeps flat_map app]. unfold backoff_delays.
    cbn [seq map]. rewrite !app_nil_r. repeat split. lia.
  - assert (fails_then_answers first errors text (Client.calls w)
              systemPrompt userPrompt = Thrown (errors (Client.calls w))) as ->.
    { unfold fails_then_answers.
      assert ((Client.calls w <? first)%nat = true) as ->
          by (apply Nat.ltb_lt; lia).
      reflexivity. }
    assert ((attempt <? retries)%Z = true) as -> by (apply Z.ltb_lt; lia).
    cbv beta iota zeta.
    set (e1 := Error _).
    set (w2 := Client.record_event _ _).
    assert (Client.calls w2 = S (Client.calls w)) as C2 by reflexivity.
    assert (sleeps (Client.trace w2)
            = (sleeps (Client.trace w) ++ [(2 ^ attempt * 1000)%Z])%list) as S2.
    { subst w2. cbn [Client.record_event Client.trace].
      rewrite !sleeps_app. cbn [sleeps flat_map app]. rewrite app_nil_r.
      reflexivity. }
    clearbody w2 e1.
    specialize (IH remaining (attempt + 1)%Z (Some e1) w2 first).
    destruct IH as (A & C & Sl); [lia | lia | lia |].
    cbv zeta in A, C, Sl. rewrite A, C, Sl, S2. repeat split.
    + lia.
    + rewrite backoff_delays_S, <- app_assoc. reflexivity.
Qed.

(** X14. When the model throws on its first [k] calls and then answers,
    with [k] below the ceiling, [generateWithRetry] returns the answer
    after exactly [k + 1] calls, having slept 2 s, 4 s, ..., [2^k] s
    between them. *)
Theorem generateWithRetry_answers_after_failures (errors : nat -> js_error)
  (text : string) (config_maxRetries : option Z)
  (systemPrompt userPrompt : string) (n : Z) (k : nat) :
  (Z.of_nat k < n)%Z ->
  let result :=
    Client.generateWithRetry (fails_then_answers k errors text)
      config_maxRetries systemPrompt userPrompt (Some n) Client.start in
  fst result = Returned text /\
  Client.calls (snd result) = (k + 1)%nat /\
  sleeps (Client.trace (snd result)) = backoff_delays 1 k.
Proof.
  intros L. unfold Client.generateWithRetry, Client.or_number.
  assert ((n =? 0)%Z = false) as -> by (apply Z.eqb_neq; lia).
  apply (retry_loop_fails_then_answers errors text systemPrompt userPrompt n
           k (Z.to_nat n) 1%Z None Client.start k);
    [lia | lia | reflexivity].
Qed.

Lemma generateWithRetry_answers_after_failures_witness :
  fst (Client.generateWithRetry
         (fails_then_answers 2 (fun _ => Error "rate limited") "[]")
         None "system" "user" (Some 3%Z) Client.start)
  = Returned "[]" /\
  sleeps (Client.trace
            (snd (Client.generateWithRetry
                    (fails_then_answers 2 (fun _ => Error "rate limited") "[]")
                    None "system" "user" (Some 3%Z) Client.start)))
  = [2000; 4000]%Z.
Proof.
  destruct (generateWithRetry_answers_after_failures
              (fun _ => Error "rate limited") "[]" None "system" "user" 3 2)
    as (A & _ & S); [lia|].
  split; [exact A | exact S].
Defined.

Lemma retry_loop_bounds (model_invoke : nat -> string -> string -> outcome string)
  (systemPrompt userPrompt : string) (retries : Z) :
  forall remaining attempt lastError w,
    retries = (attempt + Z.of_nat remaining - 1)%Z ->
    let result :=
      Client.retry_loop model_invoke remaining attempt retries
        systemPrompt userPrompt lastError w in
    (Client.calls w <= Client.calls (snd result) <= Client.calls w + remaining)%nat /\
    (remaining = 0%nat -> snd result = w) /\
    (remaining <> 0%nat ->
     (List.length (sleeps (Client.trace (snd result))) + 1
      = List.length (sleeps (Client.trace w))
        + (Client.calls (snd result) - Client.calls w))%nat).
Proof.
  induction remaining as [|remaining IH]; intros attempt lastError w R.
  - cbn [Client.retry_loop snd]. repeat split; try lia; try (intros N; congruence).
  - cbn [Client.retry_loop]. unfold Client.generateResponse.
    destruct (model_invoke (Client.calls w) systemPrompt userPrompt) as [content|error].
    + cbn [snd Client.calls Client.trace]. rewrite sleeps_app.
      cbn [sleeps flat_map app]. rewrite app_nil_r.
      repeat split; try lia; try (intros N; congruence).
    + set (e1 := Error _).
      set (w1 := Client.mkWorld _ _).
      assert (Client.calls w1 = S (Client.calls w)) as C1 by reflexivity.
      assert (sleeps (Client.trace w1) = sleeps (Client.trace w)) as S1.
      { subst w1. cbn [Client.trace]. rewrite sleeps_app.
        cbn [sleeps flat_map app]. apply app_nil_r. }
      clearbody w1 e1.
      destruct remaining as [|remaining].
      * assert ((attempt <? retries)%Z = false) as -> by (apply Z.ltb_ge; lia).
        cbn [Client.retry_loop snd]. rewrite C1, S1.
        repeat split; try lia; try (intros N; congruence).
      * assert ((attempt <? retries)%Z = true) as -> by (apply Z.ltb_lt; lia).
        set (w2 := Client.record_event _ w1).
        assert (Client.calls w2 = S (Client.calls w)) as C2 by (subst w2; exact C1).
        assert (List.length (sleeps (Client.trace w2))
                = S (List.length (sleeps (Client.trace w)))) as S2.
        { subst w2. cbn [Client.record_event Client.trace].
          rewrite sleeps_app, S1, length_app. cbn. lia. }
        clearbody w2.
        specialize (IH (attempt + 1)%Z (Some e1) w2).
        destruct IH as (B & _ & L); [lia|].
        cbv zeta in B, L |- *. specialize (L ltac:(discriminate)).
        repeat split; try lia; try (intros N; congruence).
Qed.

(** X15. Whatever the model does, [generateWithRetry] calls it at most as
    many times as the ceiling allows, and it sleeps exactly once between
    two consecutive calls: the number of timers awaited is the number of
    calls minus one (none when no call is made). *)
Theorem generateWithRetry_calls_bounded
  (model_invoke : nat -> string -> string -> outcome string)
  (config_maxRetries maxRetries : option Z) (systemPrompt userPrompt : string) :
  let ceiling :=
    Client.or_number maxRetries (Client.or_number config_maxRetries 3) in
  let result :=
    Client.generateWithRetry model_invoke config_maxRetries
      systemPrompt userPrompt maxRetries Client.start in
  (Client.calls (snd result) <= Z.to_nat ceiling)%nat /\
  List.length (sleeps (Client.trace (snd result)))
  = (Client.calls (snd result) - 1)%nat.
Proof.
  cbv zeta. unfold Client.generateWithRetry.
  set (retries := Client.or_number maxRetries _).
  destruct (Z_le_gt_dec retries 0) as [NP|P].
  - replace (Z.to_nat retries) with 0%nat by lia. split; reflexivity.
  - destruct (retry_loop_bounds model_invoke systemPrompt userPrompt retries
                (Z.to_nat retries) 1%Z None Client.start) as (B & _ & L); [lia|].
    cbv zeta in B, L. cbn [Client.start Client.calls Client.trace] in B, L.
    split; [lia|]. specialize (L ltac:(lia)). cbn [sleeps flat_map List.length] in L.
    lia.
Qed.

(** X16. A negative ceiling makes [generateWithRetry] throw a [TypeError]
    without calling the model: the loop body never runs and the message
    of the typed failure is read from an error that was never set. *)
Theorem generateWithRetry_negative_ceiling
  (model_invoke : nat -> string -> string -> outcome string)
  (config_maxRetries : option Z) (systemPrompt userPrompt : string)
  (n : Z) (w : Client.world) :
  (n < 0)%Z ->
  Client.generateWithRetry model_invoke config_maxRetries
    systemPrompt userPrompt (Some n) w
  = (Thrown (TypeError "Cannot read properties of undefined (reading 'message')"),
     w).
Proof.
  intros N. unfold Client.generateWithRetry, Client.or_number.
  assert ((n =? 0)%Z = false) as -> by (apply Z.eqb_neq; lia).
  replace (Z.to_nat n) with 0%nat by lia. reflexivity.
Qed.

Lemma generateWithRetry_negative_ceiling_witness :
  Client.generateWithRetry (fun _ _ _ => Returned "[]") None
    "system" "user" (Some (-1)%Z) Client.start
  = (Thrown (TypeError "Cannot read properties of undefined (reading 'message')"),
     Client.start).
Proof.
  apply generateWithRetry_negative_ceiling. lia.
Defined.

Lemma total_delay_backoff (n : nat) : forall attempt,
  (0 <= attempt)%Z ->
  total_delay (backoff_delays attempt n)
  = (1000 * (2 ^ (attempt + Z.of_nat n) - 2 ^ attempt))%Z.
Proof.
  induction n as [|n IH]; intros attempt A.
  - unfold backoff_delays. cbn [seq map total_delay fold_right].
    rewrite Z.add_0_r. lia.
  - rewrite backoff_delays_S. cbn [total_delay fold_right].
    fold (total_delay (backoff_delays (attempt + 1) n)).
    rewrite IH by lia.
    replace (attempt + 1 + Z.of_nat n)%Z with (attempt + Z.of_nat (S n))%Z by lia.
    rewrite (Z.pow_add_r 2 attempt 1) by lia. lia.
Qed.

(** X17. Against a model that always fails, with a ceiling of [n]
    attempts, [generateWithRetry] calls the model [n] times, sleeps 2 s,
    4 s, ..., [2^(n-1)] s between the calls ([2^n - 2] seconds in all) and
    ends by throwing. *)
Theorem generateWithRetry_exhausts_ceiling (errors : nat -> js_error)
  (config_maxRetries : option Z) (systemPrompt userPrompt : string) (n : Z) :
  (0 < n)%Z ->
  let result :=
    Client.generateWithRetry (always_failing errors) config_maxRetries
      systemPrompt userPrompt (Some n) Client.start in
  Client.calls (snd result) = Z.to_nat n /\
  sleeps (Client.trace (snd result)) = backoff_delays 1 (Z.to_nat n - 1) /\
  total_delay (sleeps (Client.trace (snd result))) = (1000 * (2 ^ n - 2))%Z /\
  exists e, fst result = Thrown e.
Proof.
  intros P.
  destruct (generateWithRetry_always_failing errors config_maxRetries
              systemPrompt userPrompt n P) as (C & S & T).
  cbv zeta in C, S, T |- *. refine (conj C (conj S (conj _ T))).
  rewrite S, total_delay_backoff by lia.
  replace (1 + Z.of_nat (Z.to_nat n - 1))%Z with n by lia. reflexivity.
Qed.

Lemma generateWithRetry_exhausts_ceiling_witness :
  sleeps (Client.trace
            (snd (Client.generateWithRetry
                    (always_failing (fun _ => Error "down"))
                    None "system" "user" (Some 4%Z) Client.start)))
  = [2000; 4000; 8000]%Z /\
  total_delay
    (sleeps (Client.trace
               (snd (Client.generateWithRetry
                       (always_failing (fun _ => Error "down"))
                       None "system" "user" (Some 4%Z) Client.start))))
  = 14000%Z.
Proof.
  destruct (generateWithRetry_exhausts_ceiling (fun _ => Error "down") None
              "system" "user" 4) as (_ & S & T & _); [lia|].
  split; [exact S | exact T].
Defined.


(** ** Construction of the client *)

(** X18. Construction of the client. With the provider [ollama] it
    always succeeds, credential or not. With [openai] or [anthropic] it
    succeeds exactly when a non-empty credential is resolved, and it then
    hands that credential to the model; without one it throws the error
    naming the missing variable. With any other provider it throws:
    "Unsupported provider" when no model name is configured, and
    "Unsupported LLM provider" when one is. *)
Theorem client_construction (env : ClientSetup.Env)
  (parseInt : string -> option Z) (config : ClientSetup.PartialConfig) :
  let p := resolved_provider env config in
  let key := resolved_key env config in
  (p = "ollama" ->
   exists c base name,
     ClientSetup.construct env parseInt config
     = Returned (c, ClientSetup.Ollama base name 70)) /\
  (p = "openai" -> ClientSetup.truthy key = true ->
   exists c name retries,
     ClientSetup.construct env parseInt config
     = Returned (c, ClientSetup.ChatOpenAI
                      (ClientSetup.or_literal key EmptyString) name 70 2000 retries)) /\
  (p = "openai" -> ClientSetup.truthy key = false ->
   ClientSetup.construct env parseInt config
   = Thrown (Error "OPENAI_API_KEY environment variable is required")) /\
  (p = "anthropic" -> ClientSetup.truthy key = true ->
   exists c name retries,
     ClientSetup.construct env parseInt config
     = Returned (c, ClientSetup.ChatAnthropic
                      (ClientSetup.or_literal key EmptyString) name 70 2000 retries)) /\
  (p = "anthropic" -> ClientSetup.truthy key = false ->
   ClientSetup.construct env parseInt config
   = Thrown (Error "ANTHROPIC_API_KEY environment variable is required")) /\
  (p <> "ollama" -> p <> "openai" -> p <> "anthropic" ->
   ClientSetup.construct env parseInt config
   = Thrown (Error ((if ClientSetup.truthy (ClientSetup.p_model config)
                     then "Unsupported LLM provider: "
                     else "Unsupported provider: ") ++ p))).
Proof.
  cbv zeta. unfold resolved_key.
  set (p := resolved_provider env config).
  unfold ClientSetup.construct, ClientSetup.createConfig.
  fold (resolved_provider env config). fold p.
  refine (conj _ (conj _ (conj _ (conj _ (conj _ _))))).
  - intros E. rewrite E. unfold ClientSetup.getDefaultModel.
    cbn [String.eqb Ascii.eqb Bool.eqb].
    destruct (ClientSetup.truthy (ClientSetup.p_model config));
      unfold ClientSetup.initializeModel; cbn; eauto.
  - intros E K. rewrite E in *. unfold ClientSetup.getDefaultModel.
    cbn [String.eqb Ascii.eqb Bool.eqb].
    destruct (ClientSetup.truthy (ClientSetup.p_model config));
      unfold ClientSetup.initializeModel;
      cbn [ClientSetup.provider ClientSetup.apiKey ClientSetup.model
           ClientSetup.maxRetries String.eqb Ascii.eqb Bool.eqb];
      rewrite K; cbn [negb]; eauto.
  - intros E K. rewrite E in *. unfold ClientSetup.getDefaultModel.
    cbn [String.eqb Ascii.eqb Bool.eqb].
    destruct (ClientSetup.truthy (ClientSetup.p_model config));
      unfold ClientSetup.initializeModel;
      cbn [ClientSetup.provider ClientSetup.apiKey ClientSetup.model
           ClientSetup.maxRetries String.eqb Ascii.eqb Bool.eqb];
      rewrite K; reflexivity.
  - intros E K. rewrite E in *. unfold ClientSetup.getDefaultModel.
    cbn [String.eqb Ascii.eqb Bool.eqb].
    destruct (ClientSetup.truthy (ClientSetup.p_model config));
      unfold ClientSetup.initializeModel;
      cbn [ClientSetup.provider ClientSetup.apiKey ClientSetup.model
           ClientSetup.maxRetries String.eqb Ascii.eqb Bool.eqb];
      rewrite K; cbn [negb]; eauto.
  - intros E K. rewrite E in *. unfold ClientSetup.getDefaultModel.
    cbn [String.eqb Ascii.eqb Bool.eqb].
    destruct (ClientSetup.truthy (ClientSetup.p_model config));
      unfold ClientSetup.initializeModel;
      cbn [ClientSetup.provider ClientSetup.apiKey ClientSetup.model
           ClientSetup.maxRetries String.eqb Ascii.eqb Bool.eqb];
      rewrite K; reflexivity.
  - intros N1 N2 N3.
    apply String.eqb_neq in N1, N2, N3.
    unfold ClientSetup.getDefaultModel. rewrite N1, N2, N3.
    destruct (ClientSetup.truthy (ClientSetup.p_model config)); [|reflexivity].
    unfold ClientSetup.initializeModel. cbn [ClientSetup.provider].
    rewrite N1, N2, N3. reflexivity.
Qed.

Lemma client_construction_witness :
  ClientSetup.construct empty_env parse_three no_config
  = Thrown (Error "OPENAI_API_KEY environment variable is required") /\
  (exists c base name,
      ClientSetup.construct empty_env parse_three
        (ClientSetup.mkPartial (Some "ollama") None None None None)
      = Returned (c, ClientSetup.Ollama base name 70)) /\
  ClientSetup.construct empty_env parse_three
    (ClientSetup.mkPartial (Some "gemini") None None None None)
  = Thrown (Error "Unsupported provider: gemini").
Proof.
  split; [|split].
  - apply (client_construction empty_env parse_three no_config); reflexivity.
  - apply (client_construction empty_env parse_three
             (ClientSetup.mkPartial (Some "ollama") None None None None)).
    reflexivity.
  - apply (client_construction empty_env parse_three
             (ClientSetup.mkPartial (Some "gemini") None None None None));
      discriminate.
Defined.

(** ** Agent C: the fallback renderer *)

Lemma contains_trans (s t u : string) :
  contains s t -> contains t u -> contains s u.
Proof.
  intros (a & b & ->) (c & d & ->).
  exists (a ++ c), (d ++ b). rewrite !append_assoc. reflexivity.
Qed.

(** Finds a literal or a known part inside a concatenation. *)
Ltac find_part :=
  first [ assumption
        | apply contains_refl
        | apply includes_iff; reflexivity
        | apply contains_app_r; find_part
        | apply contains_app_l; find_part ].

Lemma map_outcome_returns {A B : Type} (f : A -> outcome B) (P : A -> B -> Prop)
  (xs : list A) :
  (forall x, In x xs -> exists y, f x = Returned y /\ P x y) ->
  exists ys, AgentCFallback.map_outcome f xs = Returned ys /\
             forall x, In x xs -> exists y, In y ys /\ P x y.
Proof.
  induction xs as [|x xs IH]; intros H.
  - exists []. split; [reflexivity | intros x []].
  - destruct (H x (or_introl eq_refl)) as (y & E & Py).
    destruct IH as (ys & Eys & Pys); [intros z Z; apply H; right; exact Z|].
    exists (y :: ys). cbn [AgentCFallback.map_outcome]. rewrite E, Eys.
    split; [reflexivity|].
    intros z [<-|Z]; [exists y; split; [left; reflexivity | exact Py]|].
    destruct (Pys z Z) as (y' & I & Pz). exists y'. split; [right; exact I | exact Pz].
Qed.

(** A string step is rendered, and its text is in the code rendered. *)
Lemma generateStepCode_string (scenario : ValidatedScenario.t) (s : string)
  (props : list (string * value)) :
  ValidatedScenario.selectors scenario = VObject props ->
  exists code,
    AgentCFallback.generateStepCode (VString s) scenario = Returned code /\
    contains code s.
Proof.
  intros S. unfold AgentCFallback.generateStepCode, AgentCFallback.findBestSelector.
  rewrite S. cbn [AgentCFallback.lower AgentCFallback.entries Value.toString].
  repeat match goal with
         | |- context [if ?c then _ else _] => destruct c
         end;
    eexists; (split; [reflexivity|]); find_part.
Qed.

Lemma generateOutcomeVerification_asserts (scenario : ValidatedScenario.t)
  (o : string) :
  ValidatedScenario.expected_outcome scenario = VString o ->
  exists check,
    AgentCFallback.generateOutcomeVerification scenario = Returned check /\
    contains check "expect(".
Proof.
  intros O. unfold AgentCFallback.generateOutcomeVerification. rewrite O.
  cbn [AgentCFallback.lower Value.toString].
  destruct (ValidatedScenario.type scenario);
    try destruct (JS.includes (JS.toLowerCase o) "success");
    eexists; (split; [reflexivity|]); find_part.
Qed.

Lemma fallback_content_returns (greater_than_zero : value -> bool)
  (scenario : ValidatedScenario.t) :
  well_typed scenario ->
  exists content,
    AgentCFallback.generateFallbackTestContent greater_than_zero scenario
    = Returned content /\
    contains content "test.describe(" /\
    contains content "expect(" /\
    forall s, In (VString s) (ValidatedScenario.steps scenario) ->
              contains content s.
Proof.
  intros [St [notes N] [props S] [routes R] [o O]].
  unfold AgentCFallback.generateFallbackTestContent,
    AgentCFallback.generateTestDescription, AgentCFallback.generateTestBody.
  rewrite N, S, R. cbn [AgentCFallback.array_of AgentCFallback.entries
                          AgentCFallback.endpoints_to_list].
  destruct (map_outcome_returns
              (fun step => AgentCFallback.generateStepCode step scenario)
              (fun step code => forall s, step = VString s -> contains code s)
              (ValidatedScenario.steps scenario)) as (codes & -> & Codes).
  { intros step I. destruct (St step I) as [s ->].
    destruct (generateStepCode_string scenario s props S) as (code & E & C).
    exists code. split; [exact E|]. intros s' E'. injection E' as <-. exact C. }
  destruct (generateOutcomeVerification_asserts scenario o O) as (check & -> & Ck).
  cbv zeta. eexists. split; [reflexivity|].
  split; [find_part|]. split.
  - find_part.
  - intros s I. destruct (Codes _ I) as (code & Ic & Cs).
    specialize (Cs s eq_refl).
    assert (contains (JS.join (AgentCFallback.NL ++ AgentCFallback.NL) codes) s) as J.
    { eapply contains_trans; [apply join_contains, Ic | exact Cs]. }
    find_part.
Qed.

(** X19. On a validated scenario whose fields have the declared types the
    fallback renderer never throws; the source text it returns holds a
    [test.describe(] block, at least one [expect(] assertion, and the
    text of every step of the scenario. *)
Theorem fallback_content_of_well_typed (greater_than_zero : value -> bool)
  (scenario : ValidatedScenario.t) :
  well_typed scenario ->
  exists content,
    AgentCFallback.generateFallbackTestContent greater_than_zero scenario
    = Returned content /\
    contains content "test.describe(" /\
    contains content "expect(" /\
    forall s, In (VString s) (ValidatedScenario.steps scenario) ->
              contains content s.
Proof.
  apply fallback_content_returns.
Qed.

Lemma sample_validated_well_typed : well_typed sample_validated.
Proof.
  constructor; try (eexists; reflexivity).
  intros step I. simpl in I.
  repeat (destruct I as [<-|I]; [eexists; reflexivity|]). destruct I.
Qed.

Lemma fallback_content_of_well_typed_witness :
  exists content,
    AgentCFallback.generateFallbackTestContent never_positive sample_validated
    = Returned content /\
    contains content "test.describe(" /\
    contains content "Click login button".
Proof.
  destruct (fallback_content_of_well_typed never_positive sample_validated
              sample_validated_well_typed) as (content & E & D & _ & St).
  exists content. split; [exact E|]. split; [exact D|].
  apply St. right. left. reflexivity.
Defined.

(** ** Agent G: the per-line detectors *)

(** X20. The missing-await issues are reported exactly at the lines that
    hold [page.] and neither [await] nor [return], in the order of the
    file, one per line, each of severity error - whatever else the line
    holds (a comment that mentions [page.] is reported, a call on a line
    that holds the word [await] anywhere is not). *)
Theorem missing_await_reported_lines (content : string) :
  map PlaywrightAPIIssue.line
      (filter is_missing_await (AgentG.analyzePlaywrightAPI content))
  = lines_where missing_await_line content /\
  forall i, In i (AgentG.analyzePlaywrightAPI content) ->
            is_missing_await i = true ->
            PlaywrightAPIIssue.severity i = Severity.error.
Proof.
  split.
  - unfold AgentG.analyzePlaywrightAPI, lines_where.
    rewrite forEach_line_map_filter. apply forEach_line_ext. intros l n.
    unfold missing_await_line, AgentG.push_if.
    destruct (JS.includes l "page.waitForSelector(");
      destruct (JS.includes l "page." && negb (JS.includes l "await")
                && negb (JS.includes l "return"));
      destruct (JS.includes l "page.locator(" && JS.includes l "nth(");
      destruct (JS.includes l ".click()" && negb (JS.includes content "try")
                && negb (JS.includes content "catch"));
      reflexivity.
  - unfold AgentG.analyzePlaywrightAPI. intros i I M.
    apply forEach_line_In in I. destruct I as (l & n & _ & _ & I).
    unfold AgentG.push_if in I.
    repeat match type of I with
           | In _ (_ ++ _)%list => apply in_app_or in I; destruct I as [I|I]
           end;
      match type of I with
      | In _ (if ?c then _ else _) => destruct c
      end;
      try destruct I as [<-|[]]; try destruct I; try discriminate M; reflexivity.
Qed.

Lemma includes_locator_dot (line : string) :
  JS.includes line ".locator(" = true -> JS.includes line "." = true.
Proof.
  intros H. apply includes_iff. apply includes_iff in H.
  eapply contains_trans; [exact H|]. exists EmptyString, "locator(". reflexivity.
Qed.

(** X21. Every line that holds [.locator(] gets a class-based-selector
    issue, whatever the locator is: the second test of the check, that the
    line holds a dot, follows from the first. One issue is reported per
    line, in the order of the file. *)
Theorem class_based_reported_lines (content : string) :
  map SelectorQualityIssue.line
      (filter is_class_based (AgentG.analyzeSelectorQuality content))
  = lines_where (fun line => JS.includes line ".locator(") content.
Proof.
  unfold AgentG.analyzeSelectorQuality, lines_where.
  rewrite forEach_line_map_filter. apply forEach_line_ext. intros l n.
  unfold AgentG.push_if.
  destruct (JS.includes l ".locator(") eqn:L.
  - rewrite (includes_locator_dot l L). cbn [andb].
    destruct (JS.includes l "css=" || JS.includes l "xpath=");
      destruct (JS.includes l "text=" && negb (JS.includes l "/i"));
      destruct (JS.includes l "getByRole(" || JS.includes l "getByTestId("
                || JS.includes l "getByLabel(");
      reflexivity.
  - cbn [andb].
    destruct (JS.includes l "css=" || JS.includes l "xpath=");
      destruct (JS.includes l "text=" && negb (JS.includes l "/i"));
      destruct (JS.includes l "getByRole(" || JS.includes l "getByTestId("
                || JS.includes l "getByLabel(");
      reflexivity.
Qed.

Lemma lines_of_not_empty (content : string) :
  (1 <= List.length (AgentG.lines_of content))%nat.
Proof.
  unfold AgentG.lines_of. induction content as [|c content IH]; [simpl; lia|].
  cbn [JS.split_char]. destruct (Ascii.eqb c AgentG.LF); [simpl; lia|].
  destruct (JS.split_char AgentG.LF content); simpl in *; lia.
Qed.

(** X22. The line numbers reported by the API-usage, locator-quality,
    performance and maintainability analyses always lie between 1 and
    the number of lines of the file. *)
Theorem reported_lines_in_file (content : string) :
  (forall i, In i (AgentG.analyzePlaywrightAPI content) ->
             (1 <= PlaywrightAPIIssue.line i <= line_count content)%Z) /\
  (forall i, In i (AgentG.analyzeSelectorQuality content) ->
             (1 <= SelectorQualityIssue.line i <= line_count content)%Z) /\
  (forall i, In i (AgentG.analyzePerformanceIssues content) ->
             (1 <= PerformanceIssue.line i <= line_count content)%Z) /\
  (forall i, In i (AgentG.analyzeMaintainabilityIssues content) ->
             (1 <= MaintainabilityIssue.line i <= line_count content)%Z).
Proof.
  pose proof (lines_of_not_empty content) as NE. unfold line_count.
  refine (conj _ (conj _ (conj _ _))); intros i I.
  - unfold AgentG.analyzePlaywrightAPI in I.
    apply forEach_line_In in I. destruct I as (l & n & _ & B & I).
    unfold AgentG.push_if in I.
    repeat match type of I with
           | In _ (_ ++ _)%list => apply in_app_or in I; destruct I as [I|I]
           end;
      match type of I with
      | In _ (if ?c then _ else _) => destruct c
      end;
      try destruct I as [<-|[]]; try destruct I;
      cbn [PlaywrightAPIIssue.line]; lia.
  - unfold AgentG.analyzeSelectorQuality in I.
    apply forEach_line_In in I. destruct I as (l & n & _ & B & I).
    unfold AgentG.push_if in I.
    repeat match type of I with
           | In _ (_ ++ _)%list => apply in_app_or in I; destruct I as [I|I]
           end;
      match type of I with
      | In _ (if ?c then _ else _) => destruct c
      end;
      try destruct I as [<-|[]]; try destruct I;
      cbn [SelectorQualityIssue.line]; lia.
  - unfold AgentG.analyzePerformanceIssues in I.
    apply forEach_line_In in I. destruct I as (l & n & _ & B & I).
    cbv zeta in I. unfold AgentG.push_if in I.
    repeat match type of I with
           | In _ (_ ++ _)%list => apply in_app_or in I; destruct I as [I|I]
           end;
      match type of I with
      | In _ (if ?c then _ else _) => destruct c
      end;
      try destruct I as [<-|[]]; try destruct I;
      cbn [PerformanceIssue.line]; lia.
  - unfold AgentG.analyzeMaintainabilityIssues in I.
    apply in_app_or in I. destruct I as [I|I].
    + apply forEach_line_In in I. destruct I as (l & n & _ & B & I).
      unfold AgentG.push_if in I.
      repeat match type of I with
             | In _ (_ ++ _)%list => apply in_app_or in I; destruct I as [I|I]
             end;
        match type of I with
        | In _ (if ?c then _ else _) => destruct c
        end;
        try destruct I as [<-|[]]; try destruct I;
        cbn [MaintainabilityIssue.line]; lia.
    + unfold AgentG.push_if in I.
      destruct (negb (JS.includes content "test.describe(")); [|destruct I].
      destruct I as [<-|[]]. cbn [MaintainabilityIssue.line]. lia.
Qed.

(** ** Agent G on the files of the fallback renderer *)

Lemma includes_count (needle : string) :
  needle <> EmptyString ->
  forall s, JS.includes s needle = true -> JS.count_from needle 0 s <> 0%nat.
Proof.
  intros NE. induction s as [|c s IH]; cbn [JS.includes JS.count_from].
  - rewrite orb_false_r. destruct needle; [congruence|discriminate].
  - destruct (String.prefix needle (String c s)); [intros _; discriminate|].
    cbn [orb]. exact IH.
Qed.

(** X23. The file the fallback renderer writes for a scenario whose fields
    have the declared types passes two of the structural checks of the
    analysis stage: no missing-describe-block issue and no no-assertions
    issue is reported on it. *)
Theorem fallback_content_passes_structure_checks
  (greater_than_zero : value -> bool) (scenario : ValidatedScenario.t) :
  well_typed scenario ->
  exists content,
    AgentCFallback.generateFallbackTestContent greater_than_zero scenario
    = Returned content /\
    filter is_describe_issue (AgentG.analyzeMaintainabilityIssues content) = [] /\
    filter is_no_assertions (AgentG.analyzeBestPractices content) = [].
Proof.
  intros W.
  destruct (fallback_content_returns greater_than_zero scenario W)
    as (content & E & D & X & _).
  exists content. refine (conj E (conj _ _)).
  - unfold AgentG.analyzeMaintainabilityIssues.
    apply includes_iff in D. rewrite D. cbn [negb AgentG.push_if].
    rewrite app_nil_r.
    generalize 0%Z. induction (AgentG.lines_of content) as [|l ls IH]; intros index.
    + reflexivity.
    + cbn [AgentG.forEach_line]. rewrite !filter_app, IH, app_nil_r.
      unfold AgentG.push_if.
      destruct (JS.includes l "fill(" && _);
        destruct (JS.includes l "expect(" && _ && _); reflexivity.
  - unfold AgentG.analyzeBestPractices. cbv zeta.
    apply includes_iff in X.
    pose proof (includes_count "expect(" ltac:(discriminate) content X) as C.
    unfold JS.count_occurrences.
    destruct (JS.count_from "expect(" 0 content) as [|n]; [congruence|].
    unfold AgentG.push_if.
    destruct (negb _); destruct (JS.includes content "test.only("); reflexivity.
Qed.

Lemma fallback_content_passes_structure_checks_witness :
  exists content,
    AgentCFallback.generateFallbackTestContent never_positive sample_validated
    = Returned content /\
    filter is_describe_issue (AgentG.analyzeMaintainabilityIssues content) = [] /\
    filter is_no_assertions (AgentG.analyzeBestPractices content) = [].
Proof.
  apply (fallback_content_passes_structure_checks never_positive sample_validated).
  apply sample_validated_well_typed.
Defined.

Lemma indexOf_first (needle : string) : forall content,
  JS.includes content needle = true ->
  exists pre, before_first content needle pre /\
              AgentG.indexOf content needle = Z.of_nat (String.length pre).
Proof.
  induction content as [|c rest IH]; intros I.
  - cbn [JS.includes] in I. rewrite orb_false_r in I.
    exists EmptyString. cbn [AgentG.indexOf]. rewrite I. split; [|reflexivity].
    split.
    + apply prefix_iff in I. exact I.
    + intros pre' post' _. cbn [String.length]. lia.
  - cbn [JS.includes] in I. cbn [AgentG.indexOf].
    destruct (String.prefix needle (String c rest)) eqn:P.
    + exists EmptyString. split; [|reflexivity]. split.
      * apply prefix_iff in P. exact P.
      * intros pre' post' _. cbn [String.length]. lia.
    + cbn [orb] in I. rewrite I. destruct (IH I) as (pre & [[post E] Min] & N).
      exists (String c pre). split.
      * split.
        -- exists post. cbn [append]. rewrite <- E. reflexivity.
        -- intros pre' post' E'. destruct pre' as [|c' pre'].
           ++ assert (String.prefix needle (String c rest) = true) as T
                by (apply prefix_iff; exists post'; exact E').
              congruence.
           ++ cbn [append] in E'. injection E' as _ E'.
              specialize (Min pre' post' E'). cbn [String.length]. lia.
      * rewrite N. cbn [String.length]. lia.
Qed.

(** X24. The [line] of a focused-test issue is not a line number: it is
    the number of characters that come before the first [test.only(] of
    the file (0 when the file starts with it). Exactly one such issue is
    reported when the file holds [test.only(]. *)
Theorem test_only_line_is_character_offset (content : string) :
  JS.includes content "test.only(" = true ->
  exists i pre,
    filter is_test_only (AgentG.analyzeBestPractices content) = [i] /\
    before_first content "test.only(" pre /\
    BestPracticeIssue.line i = Z.of_nat (String.length pre).
Proof.
  intros I. destruct (indexOf_first "test.only(" content I) as (pre & B & N).
  unfold AgentG.analyzeBestPractices. cbv zeta. rewrite I.
  eexists. exists pre. refine (conj _ (conj B _)).
  - unfold AgentG.push_if.
    destruct (negb _); destruct (_ =? 0)%nat; reflexivity.
  - cbn [BestPracticeIssue.line]. exact N.
Qed.

Lemma test_only_line_is_character_offset_witness :
  exists i pre,
    filter is_test_only (AgentG.analyzeBestPractices focused_file) = [i] /\
    before_first focused_file "test.only(" pre /\
    BestPracticeIssue.line i = Z.of_nat (String.length pre).
Proof.
  apply (test_only_line_is_character_offset focused_file). vm_compute. reflexivity.
Defined.

Lemma firstn_length_le {A : Type} (n : nat) (xs : list A) :
  (List.length (firstn n xs) <= n)%nat.
Proof.
  revert xs. induction n as [|n IH]; intros [|x xs]; simpl; try lia.
  specialize (IH xs). lia.
Qed.

Lemma firstn_In {A : Type} (n : nat) (xs : list A) (x : A) :
  In x (firstn n xs) -> In x xs.
Proof.
  revert xs. induction n as [|n IH]; intros [|y xs]; simpl; try tauto.
  intros [->|I]; [left; reflexivity | right; apply IH; exact I].
Qed.

(** X25. Whatever the model answers, at most five recommendations are
    attached to a file and none of them is blank; and when no syntax,
    API-usage or locator-quality issue was found the single recommendation
    does not depend on the model at all, also when performance or
    maintainability issues were found. *)
Theorem recommendations_short_and_not_blank (reply : outcome string)
  (analysis : TestAnalysisResult.t) :
  (List.length (AgentG.generateLLMRecommendations reply analysis) <= 5)%nat /\
  (forall r, In r (AgentG.generateLLMRecommendations reply analysis) ->
             JS.trim r <> EmptyString) /\
  (TestAnalysisResult.syntaxErrors analysis = [] ->
   TestAnalysisResult.playwrightApiIssues analysis = [] ->
   TestAnalysisResult.selectorQualityIssues analysis = [] ->
   AgentG.generateLLMRecommendations reply analysis
   = ["Test looks good! No major issues detected."]).
Proof.
  unfold AgentG.generateLLMRecommendations. cbv zeta.
  refine (conj _ (conj _ _)).
  - destruct (_ =? 0)%nat; [simpl; lia|].
    destruct reply as [response|e].
    + apply firstn_length_le.
    + simpl. lia.
  - intros r. destruct (_ =? 0)%nat.
    + intros [<-|[]]. vm_compute. discriminate.
    + destruct reply as [response|e].
      * intros I. apply firstn_In in I. apply filter_In in I.
        destruct I as [_ L]. intros E. rewrite E in L. discriminate L.
      * unfold AgentG.fallbackRecommendations.
        intros I. repeat (destruct I as [<-|I]; [vm_compute; discriminate|]).
        destruct I.
  - intros -> -> ->. reflexivity.
Qed.

Lemma recommendations_short_and_not_blank_witness :
  (List.length (AgentG.generateLLMRecommendations
                  (Thrown (Error "model down")) slow_analysis) <= 5)%nat /\
  (forall r, In r (AgentG.generateLLMRecommendations
                     (Thrown (Error "model down")) slow_analysis) ->
             JS.trim r <> EmptyString) /\
  AgentG.generateLLMRecommendations (Thrown (Error "model down")) slow_analysis
  = ["Test looks good! No major issues detected."].
Proof.
  destruct (recommendations_short_and_not_blank
              (Thrown (Error "model down")) slow_analysis) as (L & B & G).
  refine (conj L (conj B _)). apply G; reflexivity.
Defined.

(** ** Agent G: which compiler diagnostics are reported *)

Lemma some_includes_false (message part : string) (needles : list string) :
  JS.includes message part = false ->
  (forall n, In n needles -> contains n part) ->
  JS.some (fun error => JS.includes message error) needles = false.
Proof.
  intros F C. unfold JS.some. induction needles as [|n needles IH]; [reflexivity|].
  cbn [existsb]. rewrite IH by (intros; apply C; right; assumption).
  rewrite orb_false_r. destruct (JS.includes message n) eqn:I; [|reflexivity].
  apply includes_iff in I.
  assert (contains message part) as T
    by (eapply contains_trans; [exact I | apply C; left; reflexivity]).
  apply includes_iff in T. congruence.
Qed.

Lemma needles_hold_cannot_find (n : string) :
  In n (AgentGSyntax.domErrors ++ AgentGSyntax.pathMappingErrors)%list ->
  contains n "Cannot find ".
Proof.
  intros I. apply includes_iff.
  repeat (destruct I as [<-|I]; [vm_compute; reflexivity|]). destruct I.
Qed.

(** X26. The filter of compiler diagnostics only ever drops messages
    that hold [Cannot find ]: every other diagnostic that has a file is
    reported as a syntax error, with its line and character counted from
    1 and its compiler code, whatever the file holds. *)
Theorem genuine_diagnostics_are_reported
  (getPreEmitDiagnostics : string -> outcome (list Diagnostic.t))
  (content : string) (diagnostics : list Diagnostic.t)
  (d : Diagnostic.t) (line character : Z) :
  getPreEmitDiagnostics content = Returned diagnostics ->
  In d diagnostics ->
  Diagnostic.position d = Some (line, character) ->
  JS.includes (Diagnostic.message d) "Cannot find " = false ->
  In (SyntaxError.mk (line + 1) (character + 1) (Diagnostic.message d)
        Severity.error (Diagnostic.code d))
     (AgentGSyntax.analyzeSyntaxErrors getPreEmitDiagnostics content).
Proof.
  intros G I P F. unfold AgentGSyntax.analyzeSyntaxErrors. rewrite G.
  unfold AgentGSyntax.forEach_diagnostic. apply in_flat_map.
  exists d. split; [exact I|]. rewrite P.
  unfold AgentGSyntax.shouldIgnoreDiagnostic. cbv zeta.
  rewrite (some_includes_false _ "Cannot find " AgentGSyntax.domErrors F)
    by (intros; apply needles_hold_cannot_find; apply in_or_app; left; assumption).
  rewrite (some_includes_false _ "Cannot find " AgentGSyntax.pathMappingErrors F)
    by (intros; apply needles_hold_cannot_find; apply in_or_app; right; assumption).
  left. reflexivity.
Qed.

Lemma genuine_diagnostics_are_reported_witness :
  In (SyntaxError.mk 5 3 "Type 'number' is not assignable to type 'string'."
        Severity.error 2322)
     (AgentGSyntax.analyzeSyntaxErrors two_diagnostics "const x: string = 1;").
Proof.
  apply (genuine_diagnostics_are_reported two_diagnostics "const x: string = 1;"
           _ (Diagnostic.mk (Some (4, 2)%Z)
                "Type 'number' is not assignable to type 'string'." 2322)
           4 2 eq_refl).
  - right. left. reflexivity.
  - reflexivity.
  - vm_compute. reflexivity.
Defined.

Lemma prefix_quote_free (n1 : string) : forall (m n2 rest : string),
  all_chars not_quote n1 = true ->
  all_chars not_quote m = true ->
  String.prefix (n1 ++ String "'" n2) (m ++ String "'" rest) = true ->
  m = n1 /\ String.prefix n2 rest = true.
Proof.
  induction n1 as [|a n1 IH]; intros m n2 rest Q1 Qm P.
  - destruct m as [|c m].
    + cbn [append String.prefix] in P.
      destruct (ascii_dec "'" "'"); [|congruence]. split; [reflexivity|exact P].
    + cbn [append String.prefix] in P. cbn [all_chars] in Qm.
      apply andb_true_iff in Qm. destruct Qm as [Qc _].
      destruct (ascii_dec "'" c) as [<-|N]; [discriminate Qc | discriminate P].
  - cbn [all_chars] in Q1. apply andb_true_iff in Q1. destruct Q1 as [Qa Q1].
    destruct m as [|c m].
    + cbn [append String.prefix] in P.
      destruct (ascii_dec a "'") as [->|N]; [discriminate Qa | discriminate P].
    + cbn [append String.prefix] in P. cbn [all_chars] in Qm.
      apply andb_true_iff in Qm. destruct Qm as [_ Qm].
      destruct (ascii_dec a c) as [->|N]; [|discriminate P].
      destruct (IH m n2 rest Q1 Qm P) as [-> R]. split; [reflexivity|exact R].
Qed.

Lemma includes_quote_free (n1 n2 rest : string) : forall m,
  all_chars not_quote n1 = true ->
  all_chars not_quote m = true ->
  JS.includes (m ++ String "'" rest) (n1 ++ String "'" n2) = true ->
  String.prefix n2 rest = true \/
  JS.includes (String "'" rest) (n1 ++ String "'" n2) = true.
Proof.
  intros m Q1. induction m as [|c m IH]; intros Qm I.
  - right. exact I.
  - change (String c m ++ String "'" rest) with (String c (m ++ String "'" rest)) in I.
    cbn [JS.includes] in I. apply orb_true_iff in I. destruct I as [P|I].
    + left. apply (prefix_quote_free n1 (String c m) n2 rest Q1 Qm P).
    + cbn [all_chars] in Qm. apply andb_true_iff in Qm. apply IH; tauto.
Qed.

Lemma not_in_specifier (n1 n2 m : string) :
  all_chars not_quote n1 = true ->
  all_chars not_quote m = true ->
  String.prefix n2 declarations_tail = false ->
  JS.includes (String "'" declarations_tail) (n1 ++ String "'" n2) = false ->
  JS.includes (m ++ String "'" declarations_tail) (n1 ++ String "'" n2) = false.
Proof.
  intros Q1 Qm P I.
  destruct (JS.includes (m ++ String "'" declarations_tail) (n1 ++ String "'" n2))
    eqn:E; [|reflexivity].
  destruct (includes_quote_free n1 n2 declarations_tail m Q1 Qm E); congruence.
Qed.

Lemma name_needle_not_in_message (m name : string) :
  all_chars not_quote m = true ->
  In name ["document"; "HTMLElement"; "HTMLInputElement"; "window"; "Element"] ->
  JS.includes (module_not_found m) ("Cannot find name '" ++ name ++ "'") = false.
Proof.
  intros Qm I.
  assert (forall rest needle_tail,
             JS.includes ("Cannot find module '" ++ rest)
                         ("Cannot find name '" ++ needle_tail)
             = JS.includes rest ("Cannot find name '" ++ needle_tail)) as Scan
    by (intros; vm_compute; reflexivity).
  unfold module_not_found. rewrite Scan.
  destruct I as [<-|[<-|[<-|[<-|[<-|[]]]]]].
  - exact (not_in_specifier "Cannot find name " "document'" m eq_refl Qm eq_refl eq_refl).
  - exact (not_in_specifier "Cannot find name " "HTMLElement'" m eq_refl Qm eq_refl eq_refl).
  - exact (not_in_specifier "Cannot find name " "HTMLInputElement'" m eq_refl Qm
             eq_refl eq_refl).
  - exact (not_in_specifier "Cannot find name " "window'" m eq_refl Qm eq_refl eq_refl).
  - exact (not_in_specifier "Cannot find name " "Element'" m eq_refl Qm eq_refl eq_refl).
Qed.

Lemma module_needle_in_message (m name : string) :
  all_chars not_quote m = true ->
  In name ["@pages"; "@utils"; "@/"] ->
  JS.includes (module_not_found m) ("Cannot find module '" ++ name ++ "'") = true ->
  m = name.
Proof.
  intros Qm N I.
  assert (forall rest needle_tail,
             JS.includes ("Cannot find module '" ++ rest)
                         ("Cannot find module '" ++ needle_tail)
             = String.prefix needle_tail rest
               || JS.includes rest ("Cannot find module '" ++ needle_tail)) as Scan
    by (intros; vm_compute; reflexivity).
  unfold module_not_found in I. rewrite Scan in I.
  apply orb_true_iff in I.
  assert (all_chars not_quote name = true) as Qn
    by (destruct N as [<-|[<-|[<-|[]]]]; reflexivity).
  destruct I as [P|I].
  - apply (prefix_quote_free name m EmptyString declarations_tail Qn Qm P).
  - exfalso.
    assert (JS.includes (m ++ String "'" declarations_tail)
                        ("Cannot find module " ++ String "'" (name ++ "'")) = false)
      as F.
    { destruct N as [<-|[<-|[<-|[]]]].
      - exact (not_in_specifier "Cannot find module " "@pages'" m eq_refl Qm
                 eq_refl eq_refl).
      - exact (not_in_specifier "Cannot find module " "@utils'" m eq_refl Qm
                 eq_refl eq_refl).
      - exact (not_in_specifier "Cannot find module " "@/'" m eq_refl Qm
                 eq_refl eq_refl). }
    change ("Cannot find module '" ++ name ++ "'")
      with ("Cannot find module " ++ String "'" (name ++ "'")) in I.
    change ("'" ++ declarations_tail) with (String "'" declarations_tail) in I.
    congruence.
Qed.

(** X27. Of the diagnostics for imports that do not resolve, the filter
    drops those of the three bare specifiers [@pages], [@utils] and [@/]
    only: the needles end with the closing quote, so the diagnostic of an
    import below a mapped root, such as [@pages/SignInPage], is kept,
    whatever the file holds. *)
Theorem path_mapping_filter_is_exact (specifier content : string) :
  all_chars not_quote specifier = true ->
  (AgentGSyntax.shouldIgnoreDiagnostic (module_not_found specifier) content = true
   <-> specifier = "@pages" \/ specifier = "@utils" \/ specifier = "@/").
Proof.
  intros Q. split.
  - unfold AgentGSyntax.shouldIgnoreDiagnostic. cbv zeta.
    assert (JS.some (fun error => JS.includes (module_not_found specifier) error)
                    AgentGSyntax.domErrors = false) as ->.
    { unfold JS.some, AgentGSyntax.domErrors. cbn [existsb].
      rewrite (name_needle_not_in_message specifier "document" Q ltac:(simpl; tauto)
               : JS.includes _ "Cannot find name 'document'" = false).
      rewrite (name_needle_not_in_message specifier "HTMLElement" Q
                 ltac:(simpl; tauto)
               : JS.includes _ "Cannot find name 'HTMLElement'" = false).
      rewrite (name_needle_not_in_message specifier "HTMLInputElement" Q
                 ltac:(simpl; tauto)
               : JS.includes _ "Cannot find name 'HTMLInputElement'" = false).
      rewrite (name_needle_not_in_message specifier "window" Q ltac:(simpl; tauto)
               : JS.includes _ "Cannot find name 'window'" = false).
      rewrite (name_needle_not_in_message specifier "Element" Q ltac:(simpl; tauto)
               : JS.includes _ "Cannot find name 'Element'" = false).
      reflexivity. }
    unfold JS.some, AgentGSyntax.pathMappingErrors. cbn [existsb].
    destruct (JS.includes (module_not_found specifier) "Cannot find module '@pages'")
      eqn:A.
    { intros _. left.
      apply (module_needle_in_message specifier "@pages" Q); [simpl; tauto|exact A]. }
    destruct (JS.includes (module_not_found specifier) "Cannot find module '@utils'")
      eqn:B.
    { intros _. right. left.
      apply (module_needle_in_message specifier "@utils" Q); [simpl; tauto|exact B]. }
    destruct (JS.includes (module_not_found specifier) "Cannot find module '@/'")
      eqn:C.
    { intros _. right. right.
      apply (module_needle_in_message specifier "@/" Q); [simpl; tauto|exact C]. }
    discriminate.
  - intros [-> | [-> | ->]]; vm_compute; reflexivity.
Qed.

Lemma path_mapping_filter_is_exact_witness :
  AgentGSyntax.shouldIgnoreDiagnostic (module_not_found "@pages/SignInPage")
    "import { SignInPage } from '@pages/SignInPage';" = true
  <-> "@pages/SignInPage" = "@pages" \/ "@pages/SignInPage" = "@utils"
      \/ "@pages/SignInPage" = "@/".
Proof.
  apply (path_mapping_filter_is_exact "@pages/SignInPage"
           "import { SignInPage } from '@pages/SignInPage';").
  reflexivity.
Defined.

(** ** Agent G: the order of the prioritized actions *)

Section SortedInput.

Context {A : Type}.
Variable compare : A -> A -> Z.

Lemma sort_Sorted (xs : list A) :
  Sorted (fun a b => (compare a b <= 0)%Z) xs -> AgentGReport.sort compare xs = xs.
Proof.
  induction 1 as [|a l Sl IH Hd]; [reflexivity|].
  unfold AgentGReport.sort in *. cbn [fold_right]. rewrite IH.
  destruct Hd as [|b l Le]; [reflexivity|].
  cbn [AgentGReport.insert]. apply Z.leb_le in Le. rewrite Le. reflexivity.
Qed.

End SortedInput.

Lemma flat_map_Forall {A B : Type} (f : A -> list B) (P : B -> Prop) (xs : list A) :
  (forall x, Forall P (f x)) -> Forall P (flat_map f xs).
Proof.
  intros H. induction xs as [|x xs IH]; cbn [flat_map]; [constructor|].
  apply Forall_app. split; [apply H | exact IH].
Qed.

Lemma blocks_Sorted (hs ms ls : list PrioritizedAction.t) :
  Forall (has_priority Priority.high) hs ->
  Forall (has_priority Priority.medium) ms ->
  Forall (has_priority Priority.low) ls ->
  Sorted (fun a b =>
            (AgentGReport.priorityOrder (PrioritizedAction.priority b)
             - AgentGReport.priorityOrder (PrioritizedAction.priority a) <= 0)%Z)
         (hs ++ ms ++ ls)%list.
Proof.
  intros H M L. apply StronglySorted_Sorted.
  induction H as [|h hs Ph H IH].
  - cbn [app]. induction M as [|m ms Pm M IH].
    + cbn [app]. induction L as [|l ls Pl L IH]; constructor; [exact IH|].
      eapply Forall_impl; [|exact L]. intros b Pb. cbv beta.
      unfold has_priority in *. rewrite Pl, Pb. cbn. lia.
    + cbn [app]. constructor; [exact IH|]. apply Forall_app. split.
      * eapply Forall_impl; [|exact M]. intros b Pb. cbv beta.
        unfold has_priority in *. rewrite Pm, Pb. cbn. lia.
      * eapply Forall_impl; [|exact L]. intros b Pb. cbv beta.
        unfold has_priority in *. rewrite Pm, Pb. cbn. lia.
  - cbn [app]. constructor; [exact IH|]. apply Forall_app. split; [|apply Forall_app; split].
    + eapply Forall_impl; [|exact H]. intros b Pb. cbv beta.
      unfold has_priority in *. rewrite Ph, Pb. cbn. lia.
    + eapply Forall_impl; [|exact M]. intros b Pb. cbv beta.
      unfold has_priority in *. rewrite Ph, Pb. cbn. lia.
    + eapply Forall_impl; [|exact L]. intros b Pb. cbv beta.
      unfold has_priority in *. rewrite Ph, Pb. cbn. lia.
Qed.

Lemma priorities_of_block {A : Type} (f : TestAnalysisResult.t -> list A)
  (g : TestAnalysisResult.t -> A -> PrioritizedAction.t) (p : Priority.t)
  (results : list TestAnalysisResult.t) :
  (forall r x, PrioritizedAction.priority (g r x) = p) ->
  map PrioritizedAction.priority (flat_map (fun r => map (g r) (f r)) results)
  = repeat p (total_over f results).
Proof.
  intros P. unfold total_over. induction results as [|r results IH]; [reflexivity|].
  cbn [flat_map map list_sum fold_right]. rewrite map_app, IH, repeat_app. f_equal.
  clear IH. induction (f r) as [|x xs IH]; [reflexivity|].
  cbn [map List.length repeat]. rewrite P, IH. reflexivity.
Qed.

(** X28. The final sort of the prioritized actions changes nothing: the
    report lists the actions in the order they were pushed - one per
    syntax error of every file, then one per API-usage issue of severity
    error, then one per performance issue - so all high priorities come
    first, then the medium ones, then the low ones, and locator-quality,
    maintainability and best-practice issues never become actions. *)
Theorem prioritized_actions_order (analysisResults : list TestAnalysisResult.t) :
  AgentGReport.generatePrioritizedActions analysisResults
  = (flat_map AgentGReport.syntax_actions analysisResults
     ++ flat_map AgentGReport.api_actions analysisResults
     ++ flat_map AgentGReport.performance_actions analysisResults)%list /\
  map PrioritizedAction.priority
      (AgentGReport.generatePrioritizedActions analysisResults)
  = (repeat Priority.high
       (total_over TestAnalysisResult.syntaxErrors analysisResults)
     ++ repeat Priority.medium (total_over error_api_issues analysisResults)
     ++ repeat Priority.low
          (total_over TestAnalysisResult.performanceIssues analysisResults))%list.
Proof.
  assert (AgentGReport.generatePrioritizedActions analysisResults
          = (flat_map AgentGReport.syntax_actions analysisResults
             ++ flat_map AgentGReport.api_actions analysisResults
             ++ flat_map AgentGReport.performance_actions analysisResults)%list) as E.
  { unfold AgentGReport.generatePrioritizedActions. cbv zeta.
    apply sort_Sorted. apply blocks_Sorted; apply flat_map_Forall; intros r.
    - unfold AgentGReport.syntax_actions. apply Forall_map, Forall_forall.
      intros; reflexivity.
    - unfold AgentGReport.api_actions. apply Forall_map, Forall_forall.
      intros; reflexivity.
    - unfold AgentGReport.performance_actions. apply Forall_map, Forall_forall.
      intros; reflexivity. }
  split; [exact E|]. rewrite E, !map_app.
  unfold AgentGReport.syntax_actions, AgentGReport.api_actions,
    AgentGReport.performance_actions.
  rewrite (priorities_of_block TestAnalysisResult.syntaxErrors _ Priority.high)
    by reflexivity.
  rewrite (priorities_of_block error_api_issues _ Priority.medium) by reflexivity.
  rewrite (priorities_of_block TestAnalysisResult.performanceIssues _ Priority.low)
    by reflexivity.
  reflexivity.
Qed.

(** ** MCP-enhanced Agent C and the pipeline *)

Lemma mcp_prompt_returns (scenario : ValidatedScenario.t) :
  well_typed scenario ->
  exists prompt, MCPAgentC.createMCPPrompt scenario = Returned prompt.
Proof.
  intros [_ _ [props S] [routes R] _]. unfold MCPAgentC.createMCPPrompt.
  rewrite S, R. cbn [AgentCFallback.entries MCPAgentC.join_endpoints].
  eexists. reflexivity.
Qed.

Lemma mcp_single_test_model_down
  (validateAndFixPlaywrightSyntax : string -> string) (e1 e2 : js_error)
  (scenario : ValidatedScenario.t) :
  exists e,
    MCPAgentC.generateSingleTest validateAndFixPlaywrightSyntax
      (model_down e1) (model_down e2) scenario = Thrown e.
Proof.
  unfold MCPAgentC.generateSingleTest, MCPAgentC.generateMCPValidatedTestContent,
    model_down.
  destruct (MCPAgentC.generateFilename scenario) as [filename|e]; [|eauto].
  destruct (MCPAgentC.createMCPPrompt scenario) as [prompt|e]; eauto.
Qed.

(** X29. The MCP-enhanced Agent C has no rule-based fallback: when the
    model fails at the call of the [try] block and at the call of the
    [catch] block, no test is produced and the exception leaves
    [generateSingleTest]. When the first call answers, the content of the
    test is the answer with its code fences removed: the validation by
    the protocol server changes nothing. *)
Theorem mcp_agent_without_fallback
  (validateAndFixPlaywrightSyntax : string -> string)
  (scenario : ValidatedScenario.t) :
  (forall e1 e2, exists e,
      MCPAgentC.generateSingleTest validateAndFixPlaywrightSyntax
        (model_down e1) (model_down e2) scenario = Thrown e) /\
  (forall title response second,
      well_typed scenario ->
      ValidatedScenario.title scenario = VString title ->
      exists filename,
        AgentC.generateFilename scenario = Returned filename /\
        MCPAgentC.generateSingleTest validateAndFixPlaywrightSyntax
          (model_answers response) second scenario
        = Returned (PlaywrightTest.mk filename
                      (MCPAgentC.cleanResponse response))).
Proof.
  split.
  - intros e1 e2. apply mcp_single_test_model_down.
  - intros title response second W T.
    destruct (mcp_prompt_returns scenario W) as [prompt P].
    unfold MCPAgentC.generateSingleTest, MCPAgentC.generateMCPValidatedTestContent,
      MCPAgentC.generateFilename, model_answers.
    rewrite P. unfold AgentC.generateFilename. rewrite T.
    eexists. split; [reflexivity|]. cbv zeta.
    unfold MCPAgentC.validateWithMCP, MCPAgentC.validateSyntaxWithMCP.
    destruct (negb _); reflexivity.
Qed.

Lemma mcp_agent_without_fallback_witness :
  (exists e,
      MCPAgentC.generateSingleTest keep_content
        (model_down (Error "model down")) (model_down (Error "model down"))
        sample_validated = Thrown e) /\
  (exists filename,
      AgentC.generateFilename sample_validated = Returned filename /\
      MCPAgentC.generateSingleTest keep_content
        (model_answers "test('x', async () => {});")
        (model_down (Error "model down")) sample_validated
      = Returned (PlaywrightTest.mk filename
                    (MCPAgentC.cleanResponse "test('x', async () => {});"))).
Proof.
  destruct (mcp_agent_without_fallback keep_content sample_validated) as [D A].
  split.
  - apply D.
  - apply (A "Sign in - Happy Path");
      [apply sample_validated_well_typed | reflexivity].
Defined.

Lemma map_outcome_first_thrown {A B : Type} (f : A -> outcome B) (x : A)
  (xs : list A) (e : js_error) :
  f x = Thrown e -> AgentCFallback.map_outcome f (x :: xs) = Thrown e.
Proof.
  intros E. cbn [AgentCFallback.map_outcome]. rewrite E. reflexivity.
Qed.

(** X30. When the model fails for Agent A and at both calls of Agent C,
    the pipeline writes no file and rejects, although Agents A and B fall
    back to their rules: the four fallback scenarios reach the
    MCP-enhanced Agent C, which is used whatever [USE_MCP_AGENT] holds,
    and its first test already fails. *)
Theorem pipeline_model_down_writes_nothing
  (JSON_parse : string -> outcome value) (kb : KnowledgeBase.t)
  (greater_than_zero : value -> bool)
  (validateAndFixPlaywrightSyntax : string -> string)
  (USE_MCP_AGENT : option string)
  (writeFileSync : string -> string -> outcome unit)
  (review : list PlaywrightTest.t -> list ValidatedScenario.t -> outcome unit)
  (eA : js_error) (repliesB : TestScenario.t -> outcome string)
  (initialize disconnect : outcome unit)
  (repliesC : ValidatedScenario.t
              -> (string -> outcome string) * (string -> outcome string))
  (repliesC_template : ValidatedScenario.t -> outcome string)
  (userStoryDescription : string) :
  (forall scenario, exists e1 e2,
      repliesC scenario = (model_down e1, model_down e2)) ->
  exists e,
    TestGenerator.generateTests JSON_parse kb greater_than_zero
      validateAndFixPlaywrightSyntax USE_MCP_AGENT writeFileSync review
      (Thrown eA) repliesB initialize disconnect repliesC repliesC_template
      userStoryDescription
    = ([], Thrown e).
Proof.
  intros Down. unfold TestGenerator.generateTests. cbv zeta.
  assert (TestGenerator.useMCP USE_MCP_AGENT = true) as ->
    by (unfold TestGenerator.useMCP; apply orb_true_r).
  unfold AgentA.expandUserStory, AgentA.generateFallbackScenarios,
    AgentB.validateScenarios. cbv zeta. cbn [map].
  unfold MCPAgentC.generatePlaywrightTests.
  destruct initialize as [[]|e]; [|eauto].
  match goal with
  | |- context [AgentCFallback.map_outcome ?f (?x :: ?xs)] =>
      destruct (Down x) as (e1 & e2 & R);
      destruct (mcp_single_test_model_down validateAndFixPlaywrightSyntax
                  e1 e2 x) as [e T];
      rewrite (map_outcome_first_thrown f x xs e)
        by (cbv beta; rewrite R; exact T)
  end.
  eauto.
Qed.

Lemma pipeline_model_down_writes_nothing_witness :
  exists e,
    TestGenerator.generateTests always_thrown_parse forms_kb never_positive
      keep_content (Some "false") (fun _ _ => Returned tt)
      (fun _ _ => Returned tt)
      (Thrown (Error "model down")) (fun _ => Thrown (Error "model down"))
      (Returned tt) (Returned tt)
      (fun _ => (model_down (Error "model down"), model_down (Error "model down")))
      (fun _ => Thrown (Error "model down"))
      "User signs in to the account"
    = ([], Thrown e).
Proof.
  apply (pipeline_model_down_writes_nothing always_thrown_parse forms_kb
           never_positive keep_content (Some "false")).
  intros scenario. exists (Error "model down"), (Error "model down"). reflexivity.
Defined.
